(** * visualization-atmospheric: a shallow embedding of the three scripts

    The repository holds three stand-alone post-processing scripts:
    - [ana_duration_hours.py]                (module [Duration]),
    - [calc_WRF_ThetaE_Analysis.py]          (module [ThetaE]),
    - [frontogenesis_tendency_comparison.py] (module [Frontogenesis]).

    Conventions of the embedding.
    - A floating-point cell is [NaN], an infinity or a finite value
      ([fp]).  Finite values are real numbers and float64 arithmetic on
      them is exact: it neither rounds nor overflows, and there is one
      zero.  Division by zero, arithmetic on infinities and square roots
      of negative numbers follow IEEE 754, and so does the conversion to
      float32 of a store into a float32 array ([float32]).
    - A numpy array is a (nested) list, with element-wise arithmetic
      ([Arith] instances); a 2-D field is a [grid], a list of rows.
    - A Python exception is a value of [exn]; a fallible call returns a
      [result].  Only subclasses of [Exception] are represented, so
      [except Exception] catches every exception of the model
      (asynchronous ones such as KeyboardInterrupt are left out).
    - Calls that reach outside the process (opening or writing a file,
      geodesic grid spacing, the random generator) are fields of a
      [world] record, or section variables: the scripts are run against
      an arbitrary world. *)

From stdpp Require Import base list strings gmap pretty functions.
From Stdlib Require Import Ascii ZArith QArith Qabs Qpower Reals Lra Lia.
From Stdlib Require Lqa.

Close Scope Q_scope.
Set Default Proof Using "Type".

(* ===================================================================== *)
(** * Python exceptions and fallible results                              *)
(* ===================================================================== *)

Inductive exn_class :=
  | KeyError | ValueError | IndexError | TypeError | OSError | RuntimeError.

Record exn := Exn { exn_kind : exn_class; exn_msg : string }.

Definition result (A : Type) : Type := exn + A.

Definition ok {A} (a : A) : result A := inr a.
Definition raise {A} (e : exn) : result A := inl e.

Definition rbind {A B} (m : result A) (k : A -> result B) : result B :=
  match m with
  | inl e => inl e
  | inr a => k a
  end.

Declare Scope result_scope.
Delimit Scope result_scope with result.
Notation "x <- m ;; k" := (rbind m (fun x => k))
  (at level 100, m at next level, right associativity) : result_scope.

Definition rmap {A B} (f : A -> B) (m : result A) : result B :=
  rbind m (fun a => ok (f a)).

(** [mapM]: run a fallible function over a list, stopping at the first
    exception. *)
Fixpoint rmapM {A B} (f : A -> result B) (l : list A) : result (list B) :=
  match l with
  | [] => ok []
  | a :: l' =>
      (b <- f a ;; bs <- rmapM f l' ;; ok (b :: bs))%result
  end.

(* ===================================================================== *)
(** * A state-and-exception monad                                         *)
(* ===================================================================== *)

(** A script runs over a mutable state [St] and may raise.  An exception
    leaves the state as it is at the raise: what was stored before stays
    stored. *)
Definition SE (St A : Type) : Type := St -> result A * St.

Definition ret {St A} (a : A) : SE St A := fun s => (ok a, s).

Definition bind {St A B} (m : SE St A) (k : A -> SE St B) : SE St B :=
  fun s => match m s with
           | (inl e, s') => (inl e, s')
           | (inr a, s') => k a s'
           end.

Definition lift {St A} (r : result A) : SE St A := fun s => (r, s).

Definition throw {St A} (e : exn) : SE St A := fun s => (inl e, s).

(** [try: body / except Exception as e: handler e] *)
Definition try_except {St A} (body : SE St A) (handler : exn -> SE St A) : SE St A :=
  fun s => match body s with
           | (inl e, s') => handler e s'
           | (inr a, s') => (inr a, s')
           end.

Declare Scope M_scope.
Delimit Scope M_scope with M.
Notation "x <- m ;; k" := (bind m (fun x => k))
  (at level 100, m at next level, right associativity) : M_scope.
Notation "m ;; k" := (bind m (fun _ => k))
  (at level 100, right associativity) : M_scope.

(** [option exn] as a call that returns nothing or raises. *)
Definition check {St} (o : option exn) : SE St unit :=
  match o with Some e => throw e | None => ret tt end.

(** [for idx, a in enumerate(l): body idx a], counting from [k]. *)
Fixpoint for_enum {St A} (k : nat) (l : list A) (body : nat -> A -> SE St unit)
  : SE St unit :=
  match l with
  | [] => ret tt
  | a :: l' => (body k a ;; for_enum (S k) l' body)%M
  end.

(** [for a in l: body a] *)
Fixpoint for_each {St A} (l : list A) (body : A -> SE St unit) : SE St unit :=
  match l with
  | [] => ret tt
  | a :: l' => (body a ;; for_each l' body)%M
  end.

(* ===================================================================== *)
(** * Floating-point cells and numpy-style arrays                         *)
(* ===================================================================== *)

(** A cell of a float array: [NaN], an infinity with its sign, or a
    finite value. *)
Inductive fp := NaN | Inf (negative : bool) | Fin (x : R).

(** The tests on a finite operand that IEEE arithmetic makes. *)
Definition Rnegative (x : R) : bool := if Rlt_dec x 0 then true else false.
Definition Rzero (x : R) : bool := if Req_EM_T x 0 then true else false.

Definition fp_neg (a : fp) : fp :=
  match a with
  | NaN => NaN
  | Inf s => Inf (negb s)
  | Fin x => Fin (- x)
  end.

Definition fp_add (a b : fp) : fp :=
  match a, b with
  | NaN, _ | _, NaN => NaN
  | Inf s, Inf s' => if Bool.eqb s s' then Inf s else NaN
  | Inf s, Fin _ | Fin _, Inf s => Inf s
  | Fin x, Fin y => Fin (x + y)
  end.

Definition fp_sub (a b : fp) : fp :=
  match a, b with
  | NaN, _ | _, NaN => NaN
  | Inf s, Inf s' => if Bool.eqb s s' then NaN else Inf s
  | Inf s, Fin _ => Inf s
  | Fin _, Inf s => Inf (negb s)
  | Fin x, Fin y => Fin (x - y)
  end.

Definition fp_mul (a b : fp) : fp :=
  match a, b with
  | NaN, _ | _, NaN => NaN
  | Inf s, Inf s' => Inf (xorb s s')
  | Inf s, Fin y | Fin y, Inf s =>
      if Rzero y then NaN else Inf (xorb s (Rnegative y))
  | Fin x, Fin y => Fin (x * y)
  end.

(** Division: [x / 0] is an infinity of the sign of [x], [0 / 0] is NaN. *)
Definition fp_div (a b : fp) : fp :=
  match a, b with
  | NaN, _ | _, NaN => NaN
  | Inf _, Inf _ => NaN
  | Inf s, Fin y => Inf (xorb s (Rnegative y))
  | Fin _, Inf _ => Fin 0
  | Fin x, Fin y =>
      if Rzero y then (if Rzero x then NaN else Inf (Rnegative x))
      else Fin (x / y)
  end.

(** Element-wise arithmetic, as numpy overloads it. *)
Class Arith (T : Type) := {
  add : T -> T -> T;
  sub : T -> T -> T;
  mul : T -> T -> T;
  div : T -> T -> T;
  neg : T -> T
}.

#[global] Instance fp_arith : Arith fp := {|
  add := fp_add;
  sub := fp_sub;
  mul := fp_mul;
  div := fp_div;
  neg := fp_neg
|}.

#[global] Instance list_arith {T} `{Arith T} : Arith (list T) := {|
  add := zip_with add;
  sub := zip_with sub;
  mul := zip_with mul;
  div := zip_with div;
  neg := List.map neg
|}.

(** [np.sqrt(a)]: NaN for a negative number and for minus infinity. *)
Definition fsqrt (a : fp) : fp :=
  match a with
  | NaN => NaN
  | Inf s => if s then NaN else Inf false
  | Fin x => if Rnegative x then NaN else Fin (sqrt x)
  end.

(** [a**2] *)
Definition fsquare (a : fp) : fp :=
  match a with
  | NaN => NaN
  | Inf _ => Inf false
  | Fin x => Fin (x ^ 2)
  end.

(** ** The conversion to float32 *)

(** The integer nearest to [y], the even one of two that are as near. *)
Definition nearest_even (y : R) : Z :=
  let f := Int_part y in
  let r := (y - IZR f)%R in
  if Rlt_dec r (1 / 2) then f
  else if Rlt_dec (1 / 2) r then (f + 1)%Z
  else if Z.even f then f else (f + 1)%Z.

(** The spacing of the float32 numbers around [x]: 24 significant bits,
    and [2^-149] in the subnormal range. *)
Definition float32_ulp (x : R) : R :=
  powerRZ 2 (Z.max (Int_part (ln (Rabs x) / ln 2) - 23) (-149)).

Definition float32_round (x : R) : R :=
  (IZR (nearest_even (x / float32_ulp x)) * float32_ulp x)%R.

(** The value a float32 array holds after a float64 [a] is assigned to
    one of its cells: [a] rounded to the nearest float32, ties to even,
    and an infinity when the rounded magnitude reaches [2^128]. *)
Definition float32 (a : fp) : fp :=
  match a with
  | NaN => NaN
  | Inf s => Inf s
  | Fin x =>
      if Rle_dec (powerRZ 2 128) (Rabs (float32_round x)) then Inf (Rnegative x)
      else Fin (float32_round x)
  end.

(** ** The order of the numbers *)

(** [a <= b] for cells that are not NaN. *)
Definition fp_le (a b : fp) : Prop :=
  match a, b with
  | NaN, _ | _, NaN => False
  | Inf true, _ | _, Inf false => True
  | Fin x, Fin y => (x <= y)%R
  | _, _ => False
  end.

Definition fp_le_dec (a b : fp) : {fp_le a b} + {~ fp_le a b}.
Proof.
  destruct a as [|[|]|x], b as [|[|]|y]; cbn;
    first [left; exact I | right; exact (fun H : False => H) | apply Rle_dec].
Defined.

(** [min(a, b)] and [max(a, b)] of two cells that are not NaN. *)
Definition fp_min (a b : fp) : fp := if fp_le_dec a b then a else b.
Definition fp_max (a b : fp) : fp := if fp_le_dec a b then b else a.

(** A 2-D field [(ny, nx)]: a list of [ny] rows of [nx] cells. *)
Abbreviation grid := (list (list fp)).

Definition grid_map (f : fp -> fp) (g : grid) : grid := List.map (List.map f) g.

(** [np.full((ny, nx), np.nan)] *)
Definition nan_grid (ny nx : nat) : grid := replicate ny (replicate nx NaN).

(** [a.shape] of a 2-D array; [None] for a ragged list, which is no array. *)
Definition shape2 (g : grid) : option (nat * nat) :=
  match g with
  | [] => Some (0, 0)
  | r :: g' =>
      if forallb (fun r' => Nat.eqb (length r') (length r)) g'
      then Some (length g, length r) else None
  end.

(** [np.sqrt(dfdx**2 + dfdy**2)], the expression both WRF scripts use for
    the magnitude of a gradient. *)
Definition gradient_magnitude (dfdx dfdy : grid) : grid :=
  grid_map fsqrt (add (grid_map fsquare dfdx) (grid_map fsquare dfdy)).

(** Cell [(i, j)] of a field. *)
Definition cell_at (g : grid) (i j : nat) : option fp :=
  match g !! i with
  | Some row => row !! j
  | None => None
  end.

(** Python's [l[start:stop]], [None] bounds included. *)
Definition norm_index (n : nat) (i : Z) : nat :=
  Z.to_nat (Z.min (Z.max (if (i <? 0)%Z then i + Z.of_nat n else i) 0) (Z.of_nat n)).

Definition pyslice {A} (start stop : option Z) (l : list A) : list A :=
  let n := length l in
  let a := from_option (norm_index n) 0 start in
  let b := from_option (norm_index n) n stop in
  take (b - a) (drop a l).

(* ===================================================================== *)
(** * MetPy's finite-difference operators                                 *)
(* ===================================================================== *)

(** The scripts call [metpy.calc] on unit-tagged arrays with explicit grid
    spacing [dx], [dy] and no map-projection metadata.  For such inputs
    [geospatial_gradient], [divergence] and [vorticity] reduce to
    [first_derivative] along one axis; [first_derivative] is the
    three-point stencil for unevenly spaced points, written below with
    the slices and the operator precedence of the library's code. *)
Module MetPy.

Section Stencil.
Context {T : Type} `{Arith T}.

(** [first_derivative(f, axis=0, delta=delta)] *)
Definition first_derivative (f delta : list T) : result (list T) :=
  let n := length f in
  if (n <? 3)%nat then
    raise (Exn ValueError "f must have at least 3 point along the desired axis.")
  else if negb (length delta =? n - 1)%nat then
    raise (Exn ValueError "operands could not be broadcast together")
  else
    (* centered case *)
    let slice0 := pyslice None (Some (-2)%Z) f in
    let slice1 := pyslice (Some 1%Z) (Some (-1)%Z) f in
    let slice2 := pyslice (Some 2%Z) None f in
    let delta_slice0 := pyslice None (Some (-1)%Z) delta in
    let delta_slice1 := pyslice (Some 1%Z) None delta in
    let combined_delta := add delta_slice0 delta_slice1 in
    let delta_diff := sub delta_slice1 delta_slice0 in
    let center :=
      add (add (mul (div (neg delta_slice1) (mul combined_delta delta_slice0)) slice0)
               (mul (div delta_diff (mul delta_slice0 delta_slice1)) slice1))
          (mul (div delta_slice0 (mul combined_delta delta_slice1)) slice2) in
    (* left edge, forward difference *)
    let slice0 := pyslice None (Some 1%Z) f in
    let slice1 := pyslice (Some 1%Z) (Some 2%Z) f in
    let slice2 := pyslice (Some 2%Z) (Some 3%Z) f in
    let delta_slice0 := pyslice None (Some 1%Z) delta in
    let delta_slice1 := pyslice (Some 1%Z) (Some 2%Z) delta in
    let combined_delta := add delta_slice0 delta_slice1 in
    let big_delta := add combined_delta delta_slice0 in
    let left :=
      sub (add (mul (div (neg big_delta) (mul combined_delta delta_slice0)) slice0)
               (mul (div combined_delta (mul delta_slice0 delta_slice1)) slice1))
          (mul (div delta_slice0 (mul combined_delta delta_slice1)) slice2) in
    (* right edge, backward difference *)
    let slice0 := pyslice (Some (-3)%Z) (Some (-2)%Z) f in
    let slice1 := pyslice (Some (-2)%Z) (Some (-1)%Z) f in
    let slice2 := pyslice (Some (-1)%Z) None f in
    let delta_slice0 := pyslice (Some (-2)%Z) (Some (-1)%Z) delta in
    let delta_slice1 := pyslice (Some (-1)%Z) None delta in
    let combined_delta := add delta_slice0 delta_slice1 in
    let big_delta := add combined_delta delta_slice1 in
    let right :=
      add (sub (mul (div delta_slice1 (mul combined_delta delta_slice0)) slice0)
               (mul (div combined_delta (mul delta_slice0 delta_slice1)) slice1))
          (mul (div big_delta (mul combined_delta delta_slice1)) slice2) in
    ok (left ++ center ++ right).
End Stencil.

Definition broadcast_error {A} : result A :=
  raise (Exn ValueError "operands could not be broadcast together").

(** The derivative along [x_dim=-1] of a field [(ny, nx)] with spacing
    [dx] of shape [(ny, nx-1)]: the stencil, row by row. *)
Definition ddx (f dx : grid) : result grid :=
  match shape2 f, shape2 dx with
  | Some (ny, nx), Some (ny', nx') =>
      if (nx <? 3)%nat then
        raise (Exn ValueError "f must have at least 3 point along the desired axis.")
      else if (ny =? ny')%nat && (nx' =? nx - 1)%nat then
        rmapM (fun rd : list fp * list fp => first_derivative rd.1 rd.2) (zip f dx)
      else broadcast_error
  | _, _ => broadcast_error
  end.

(** The derivative along [y_dim=-2], spacing [dy] of shape [(ny-1, nx)]:
    the stencil on whole rows. *)
Definition ddy (f dy : grid) : result grid :=
  match shape2 f, shape2 dy with
  | Some (ny, nx), Some (ny', nx') =>
      if (ny <? 3)%nat then
        raise (Exn ValueError "f must have at least 3 point along the desired axis.")
      else if (ny' =? ny - 1)%nat && (nx' =? nx)%nat then first_derivative f dy
      else broadcast_error
  | _, _ => broadcast_error
  end.

(** [geospatial_gradient(f, x_dim=-1, y_dim=-2, dx=dx, dy=dy)] *)
Definition geospatial_gradient (f dx dy : grid) : result (grid * grid) :=
  (dfdx <- ddx f dx ;; dfdy <- ddy f dy ;; ok (dfdx, dfdy))%result.

(** [divergence(u, v, dx=dx, dy=dy)]: [du/dx + dv/dy] *)
Definition divergence (u v dx dy : grid) : result grid :=
  (dudx <- ddx u dx ;; dvdy <- ddy v dy ;; ok (add dudx dvdy))%result.

(** [vorticity(u, v, dx=dx, dy=dy)]: [dv/dx - du/dy] *)
Definition vorticity (u v dx dy : grid) : result grid :=
  (dudy <- ddy u dy ;; dvdx <- ddx v dx ;; ok (sub dvdx dudy))%result.

End MetPy.

(** Laws of negation that the stencils rely on.  They hold for [fp]
    cells and lift to arrays of any rank. *)
Class ArithNeg (T : Type) `{Arith T} := {
  mul_neg_r : forall c x : T, mul c (neg x) = neg (mul c x);
  add_neg_neg : forall x y : T, add (neg x) (neg y) = neg (add x y);
  sub_neg_neg : forall x y : T, sub (neg x) (neg y) = neg (sub x y)
}.

(* ===================================================================== *)
(** * calc_WRF_ThetaE_Analysis.py                                         *)
(* ===================================================================== *)

Module ThetaE.

(** The keys of [output_arrays] and [var_configs], in insertion order. *)
Inductive var_name := Eth | Dtedx | Dtedy | Absthe | Divg | Vort.

#[global] Instance var_name_eq_dec : EqDecision var_name.
Proof. solve_decision. Defined.

Definition all_vars : list var_name := [Eth; Dtedx; Dtedy; Absthe; Divg; Vort].

(** [var_configs]: units and long name of each variable. *)
Definition var_configs (v : var_name) : string * string :=
  match v with
  | Eth => ("K", "Equivalent potential temperature")
  | Dtedx => ("K/m", "Zonal gradient of equivalent potential temperature")
  | Dtedy => ("K/m", "Meridional gradient of equivalent potential temperature")
  | Absthe => ("K/m", "Absolute gradient of equivalent potential temperature")
  | Divg => ("1/s", "Horizontal divergence")
  | Vort => ("1/s", "Relative vorticity")
  end.

(** An opened input dataset: the coordinates the function reads, and
    [ds.sel(member=m, Time=t, interp_level=l)[var].values], which raises
    when the labels or the variable are absent.  Members, times and
    levels are integers (times as seconds since the epoch). *)
Record dataset := Dataset {
  ds_member : list Z;
  ds_Time : list Z;
  ds_interp_level : list Z;
  ds_XLAT : grid;
  ds_XLONG : grid;
  ds_sel : Z -> Z -> Z -> string -> result grid
}.

(** A float32 array of shape [(n_members, n_times, n_levels, ny, nx)]. *)
Abbreviation array5 := (list (list (list grid))).

(** [np.full((n_members, n_times, n_levels, ny, nx), np.nan)] *)
Definition np_full (n_members n_times n_levels ny nx : nat) : array5 :=
  replicate n_members (replicate n_times (replicate n_levels (nan_grid ny nx))).

(** [a[m_idx, t_idx, l_idx]] *)
Definition get_slot (a : array5) (m_idx t_idx l_idx : nat) : option grid :=
  match a !! m_idx with
  | Some at_m =>
      match at_m !! t_idx with
      | Some at_t => at_t !! l_idx
      | None => None
      end
  | None => None
  end.

(** [a[m_idx, t_idx, l_idx] = g], for [g] of the grid's shape.  The
    indices come from [enumerate] over the lists that sized the array,
    so they are in range; out of range nothing is stored here. *)
Definition set_slot (a : array5) (m_idx t_idx l_idx : nat) (g : grid) : array5 :=
  alter (alter (<[l_idx := g]>) t_idx) m_idx a.

(** [f"{LEVELS}"] for a list of Python integers: ["[875, 850]"]. *)
Definition format_levels (LEVELS : list Z) : string :=
  "[" +:+ String.concat ", " (List.map pretty LEVELS) +:+ "]".

(** One variable of the output dataset with its attributes. *)
Record variable := Variable_ {
  v_data : array5;
  v_units : string;
  v_long_name : string;
  v_pressure_levels : string
}.

(** The output [xr.Dataset]: coordinates, data variables in insertion
    order, and the global attributes that depend on the run ([None]
    until they are set). *)
Record output_dataset := OutputDataset {
  coord_member : list Z;
  coord_Time : list Z;
  coord_level : list Z;
  coord_XLAT : grid;
  coord_XLONG : grid;
  data_vars : list (var_name * variable);
  attr_description : option string;
  attr_source : option string;
  attr_pressure_levels : option string;
  attr_processing_date : option string;
  attr_levels_processed : option nat
}.

(** What the run reaches outside the process. *)
Record world := World {
  (** [xr.open_dataset(path)] *)
  open_dataset : string -> result dataset;
  (** [mpcalc.lat_lon_grid_deltas(lons, lats)] *)
  lat_lon_grid_deltas : grid -> grid -> result (grid * grid);
  (** xarray's own checks when a [Dataset] is built or a variable is
      assigned to it: [Some e] when it raises [e] *)
  xr_validate : output_dataset -> option exn;
  (** [output_ds.to_netcdf(path, encoding=...)]: [Some e] when it raises *)
  to_netcdf : string -> output_dataset -> option exn;
  (** [os.path.getsize(path)] *)
  getsize : string -> result Z;
  (** [os.makedirs(path, exist_ok=True)] *)
  makedirs : string -> option exn;
  (** [np.datetime64('now').astype(str)] *)
  now : string
}.

(** Console output, one constructor per message a claim can refer to. *)
Inductive event :=
  | WarningMissingLevels (missing_levels : list Z)
  | ProcessingAvailableLevels (LEVELS : list Z)
  | ProcessingMember (member : Z) (m_number : nat)
  | ErrorProcessing (member : Z) (t_number : nat) (level : Z) (e : exn)
  | ValidRange (v : var_name) (lo hi : fp) (valid size : nat)
  | NoValidData (v : var_name)
  | AddedVariable (v : var_name)
  | WritingToNetCDF (file : string)
  | FileWritten (size : Z)
  | ErrorWritingOutput (e : exn)
  | AllCompleted.

(** The mutable state of a run: the six output arrays, the iteration
    counter, the console, and the files written. *)
Record state := State {
  output_arrays : var_name -> array5;
  current_iteration : nat;
  console : list event;
  files : gmap string output_dataset
}.

(** The monad of a run. *)
Definition M : Type -> Type := SE state.

Definition print (ev : event) : M unit :=
  fun s => (ok tt, State (output_arrays s) (current_iteration s) (console s ++ [ev]) (files s)).

(** ** Level validation (lines 62-67) *)

(** [level in available_levels] *)
Definition level_in (available_levels : list Z) (level : Z) : bool :=
  existsb (Z.eqb level) available_levels.

Definition missing_levels (LEVELS available_levels : list Z) : list Z :=
  List.filter (fun level => negb (level_in available_levels level)) LEVELS.

Definition validate_levels (LEVELS available_levels : list Z) : M (list Z) :=
  match missing_levels LEVELS available_levels with
  | [] => ret LEVELS
  | missing =>
      (print (WarningMissingLevels missing) ;;
       let LEVELS := List.filter (level_in available_levels) LEVELS in
       print (ProcessingAvailableLevels LEVELS) ;;
       ret LEVELS)%M
  end.

(** ** The values a run works with after its set-up (lines 47-82) *)
Record context := Context_ {
  c_ds_eth : dataset;
  c_ds_wind : dataset;
  c_lons : grid;
  c_lats : grid;
  c_times : list Z;
  c_members : list Z;
  c_LEVELS : list Z;
  c_dx : grid;
  c_dy : grid;
  c_ny : nat;
  c_nx : nat
}.

Definition setup (w : world) (INPUT_DIR : string) (LEVELS : list Z) : M context :=
  (ds_eth <- lift (open_dataset w (INPUT_DIR +:+ "/eth.nc")) ;;
   ds_wind <- lift (open_dataset w (INPUT_DIR +:+ "/ua,va.nc")) ;;
   let lons := ds_XLONG ds_eth in
   let lats := ds_XLAT ds_eth in
   let times := ds_Time ds_eth in
   let members := ds_member ds_eth in
   let available_levels := ds_interp_level ds_eth in
   LEVELS <- validate_levels LEVELS available_levels ;;
   (* line 70 prints times[0] and times[-1] *)
   match times with
   | [] => throw (Exn IndexError "index 0 is out of bounds for axis 0 with size 0")
   | _ :: _ => ret tt
   end ;;
   dxdy <- lift (lat_lon_grid_deltas w lons lats) ;;
   (* ny, nx = lats.shape *)
   let ny := length lats in
   let nx := from_option length 0%nat (head lats) in
   ret (Context_ ds_eth ds_wind lons lats times members LEVELS dxdy.1 dxdy.2 ny nx))%M.

(** [output_arrays = {...}] (lines 88-95) and the counter (line 98) *)
Definition allocate (c : context) : M unit :=
  fun s =>
    let a := np_full (length (c_members c)) (length (c_times c))
                     (length (c_LEVELS c)) (c_ny c) (c_nx c) in
    (ok tt, State (fun _ => a) 0 (console s) (files s)).

(** ** One (member, time, level) combination (lines 111-138) *)

(** Lines 116-126: the reads and the derived fields, one per key. *)
Definition compute_slice (c : context) (member time level : Z)
  : result (var_name -> grid) :=
  (eth_slice <- ds_sel (c_ds_eth c) member time level "eth" ;;
   u_slice <- ds_sel (c_ds_wind c) member time level "ua" ;;
   v_slice <- ds_sel (c_ds_wind c) member time level "va" ;;
   grad <- MetPy.geospatial_gradient eth_slice (c_dx c) (c_dy c) ;;
   let dtheta_e_dx := grad.1 in
   let dtheta_e_dy := grad.2 in
   let abs_grad_theta_e := gradient_magnitude dtheta_e_dx dtheta_e_dy in
   divergence_field <- MetPy.divergence u_slice v_slice (c_dx c) (c_dy c) ;;
   vorticity_field <- MetPy.vorticity u_slice v_slice (c_dx c) (c_dy c) ;;
   ok (fun v => match v with
                | Eth => eth_slice
                | Dtedx => dtheta_e_dx
                | Dtedy => dtheta_e_dy
                | Absthe => abs_grad_theta_e
                | Divg => divergence_field
                | Vort => vorticity_field
                end))%result.

(** [output_arrays[v][m_idx, t_idx, l_idx] = g]: the arrays are float32
    (lines 89-94), so each cell of the float64 field [g] is converted as
    it is stored. *)
Definition store (v : var_name) (m_idx t_idx l_idx : nat) (g : grid) : M unit :=
  fun s =>
    (ok tt,
     State (<[v := set_slot (output_arrays s v) m_idx t_idx l_idx (grid_map float32 g)]>
              (output_arrays s))
           (current_iteration s) (console s) (files s)).

Definition next_iteration : M unit :=
  fun s => (ok tt, State (output_arrays s) (S (current_iteration s)) (console s) (files s)).

(** The body of the innermost loop. *)
Definition process_slice (c : context) (m_idx : nat) (member : Z)
    (t_idx : nat) (time : Z) (l_idx : nat) (level : Z) : M unit :=
  (next_iteration ;;
   try_except
     (fields <- lift (compute_slice c member time level) ;;
      store Eth m_idx t_idx l_idx (fields Eth) ;;
      store Dtedx m_idx t_idx l_idx (fields Dtedx) ;;
      store Dtedy m_idx t_idx l_idx (fields Dtedy) ;;
      store Absthe m_idx t_idx l_idx (fields Absthe) ;;
      store Divg m_idx t_idx l_idx (fields Divg) ;;
      store Vort m_idx t_idx l_idx (fields Vort))
     (fun e => print (ErrorProcessing member (t_idx + 1) level e)))%M.

(** The triple loop (lines 104-138). *)
Definition levels_loop (c : context) (m_idx : nat) (member : Z)
    (t_idx : nat) (time : Z) : M unit :=
  for_enum 0 (c_LEVELS c) (fun l_idx level =>
    process_slice c m_idx member t_idx time l_idx level).

Definition times_loop (c : context) (m_idx : nat) (member : Z) : M unit :=
  for_enum 0 (c_times c) (fun t_idx time => levels_loop c m_idx member t_idx time).

Definition main_loop (c : context) : M unit :=
  for_enum 0 (c_members c) (fun m_idx member =>
    (print (ProcessingMember member (m_idx + 1)) ;;
     times_loop c m_idx member)%M).

(** ** Statistics (lines 147-152) *)

Definition get_arrays : M (var_name -> array5) :=
  fun s => (ok (output_arrays s), s).

(** All cells of an array, in storage order. *)
Definition flatten (a : array5) : list fp := concat (concat (concat (concat a))).

Definition is_nan (a : fp) : bool :=
  match a with NaN => true | _ => false end.

(** [data[~np.isnan(data)]]: the infinities are valid data. *)
Definition valid_values (l : list fp) : list fp :=
  List.filter (fun a => negb (is_nan a)) l.

Definition report_statistics : M unit :=
  (arrays <- get_arrays ;;
   for_each all_vars (fun var_name =>
     let data := flatten (arrays var_name) in
     match valid_values data with
     | x :: xs =>
         print (ValidRange var_name (foldr fp_min x xs) (foldr fp_max x xs)
                           (length (x :: xs)) (length data))
     | [] => print (NoValidData var_name)
     end))%M.

(** ** Assembling and writing the output (lines 155-213) *)

Definition with_variable (ds : output_dataset) (v : var_name) (x : variable)
  : output_dataset :=
  OutputDataset (coord_member ds) (coord_Time ds) (coord_level ds)
                (coord_XLAT ds) (coord_XLONG ds)
                (data_vars ds ++ [(v, x)])
                (attr_description ds) (attr_source ds) (attr_pressure_levels ds)
                (attr_processing_date ds) (attr_levels_processed ds).

(** [output_ds.attrs.update({...})] (lines 189-197); the two constant
    attributes (title, processing method) are left out. *)
Definition with_attrs (w : world) (INPUT_DIR : string) (LEVELS : list Z)
    (ds : output_dataset) : output_dataset :=
  OutputDataset (coord_member ds) (coord_Time ds) (coord_level ds)
                (coord_XLAT ds) (coord_XLONG ds) (data_vars ds)
                (Some ("Derived meteorological variables from WRF data at "
                         +:+ format_levels LEVELS +:+ " hPa levels"))
                (Some ("Processed from " +:+ INPUT_DIR))
                (Some (format_levels LEVELS +:+ " hPa"))
                (Some (now w)) (Some (length LEVELS)).

(** The loop of lines 179-186. *)
Fixpoint add_variables (w : world) (c : context) (arrays : var_name -> array5)
    (vars : list var_name) (output_ds : output_dataset) : M output_dataset :=
  match vars with
  | [] => ret output_ds
  | var_name :: vars' =>
      let units_str := (var_configs var_name).1 in
      let long_name := (var_configs var_name).2 in
      let output_ds :=
        with_variable output_ds var_name
          (Variable_ (arrays var_name) units_str long_name
                     (format_levels (c_LEVELS c) +:+ " hPa")) in
      (check (xr_validate w output_ds) ;;
       print (AddedVariable var_name) ;;
       add_variables w c arrays vars' output_ds)%M
  end.

(** [output_ds.to_netcdf(OUTPUT_FILE, encoding=encoding)]: the file holds
    the dataset when the call returns; when it raises, the files are
    taken as unchanged. *)
Definition write_file (w : world) (path : string) (ds : output_dataset) : M unit :=
  fun s =>
    match to_netcdf w path ds with
    | Some e => (inl e, s)
    | None => (ok tt, State (output_arrays s) (current_iteration s) (console s)
                            (<[path := ds]> (files s)))
    end.

(** The body of the [try] (lines 156-209). *)
Definition write_output_body (w : world) (INPUT_DIR OUTPUT_FILE : string)
    (c : context) : M unit :=
  (let output_ds :=
     OutputDataset (c_members c) (c_times c) (c_LEVELS c) (c_lats c) (c_lons c)
                   [] None None None None None in
   check (xr_validate w output_ds) ;;
   arrays <- get_arrays ;;
   output_ds <- add_variables w c arrays all_vars output_ds ;;
   let output_ds := with_attrs w INPUT_DIR (c_LEVELS c) output_ds in
   print (WritingToNetCDF OUTPUT_FILE) ;;
   write_file w OUTPUT_FILE output_ds ;;
   size <- lift (getsize w OUTPUT_FILE) ;;
   print (FileWritten size))%M.

(** [try: ... except Exception as e: print(...); raise] *)
Definition write_output (w : world) (INPUT_DIR OUTPUT_FILE : string)
    (c : context) : M unit :=
  try_except (write_output_body w INPUT_DIR OUTPUT_FILE c)
             (fun e => (print (ErrorWritingOutput e) ;; throw e)%M).

(** ** The function and the script *)

(** Everything up to the [try] of line 155. *)
Definition before_write (w : world) (INPUT_DIR : string) (LEVELS : list Z)
  : M context :=
  (c <- setup w INPUT_DIR LEVELS ;;
   allocate c ;;
   main_loop c ;;
   report_statistics ;;
   ret c)%M.

Definition process_multiple_levels_iterative (w : world)
    (INPUT_DIR OUTPUT_FILE : string) (LEVELS : list Z) : M unit :=
  (c <- before_write w INPUT_DIR LEVELS ;;
   write_output w INPUT_DIR OUTPUT_FILE c)%M.

Definition default_level : list Z := [875; 850; 825]%Z.

(** The [__main__] block; [level] is the [-L] option when given. *)
Definition main (w : world) (level : option (list Z)) : M unit :=
  (let LEVEL := default default_level level in
   let OUTPUT_DIR := "./output/theta_e/WRF" in
   check (makedirs w OUTPUT_DIR) ;;
   let INPUT_DIR := "./extract_wrf_to_nc" in
   let OUTPUT_FILE := OUTPUT_DIR +:+ "/the_gra.nc" in
   process_multiple_levels_iterative w INPUT_DIR OUTPUT_FILE LEVEL ;;
   print AllCompleted)%M.

(** The exit status of the interpreter: 1 after an uncaught exception. *)
Definition exit_status {A} (r : result A * state) : Z :=
  match r.1 with inl _ => 1%Z | inr _ => 0%Z end.

End ThetaE.

(* ===================================================================== *)
(** * ana_duration_hours.py                                               *)
(* ===================================================================== *)

Module Duration.

(** A row of [case_analysis_results.csv].  A [duration_hours] field is
    the float64 that pandas read, as the rational number it is, or
    missing (read by pandas as NaN). *)
Record row := Row {
  start_time : string;
  end_time : string;
  duration_hours : option Q
}.

Definition dataframe := list row.

(** [df['duration_hours']] *)
Definition durations (df : dataframe) : list (option Q) := List.map duration_hours df.

(** ** The frequency table (lines 50-53) *)

(** One more occurrence of [v] in a table kept sorted by value. *)
Fixpoint count_value (v : Q) (counts : list (Q * nat)) : list (Q * nat) :=
  match counts with
  | [] => [(v, 1%nat)]
  | (k, c) :: rest =>
      match (v ?= k)%Q with
      | Eq => (k, S c) :: rest
      | Lt => (v, 1%nat) :: (k, c) :: rest
      | Gt => (k, c) :: count_value v rest
      end
  end.

(** [column.value_counts().sort_index()]: the occurrences of each distinct
    value, NaN dropped ([dropna=True] is the default), by ascending value. *)
Definition value_counts_sorted (column : list (option Q)) : list (Q * nat) :=
  foldl (fun counts cell =>
           match cell with
           | Some v => count_value v counts
           | None => counts
           end) [] column.

(** [(count / len(df)) * 100], in exact arithmetic. *)
Definition percentage (count len_df : nat) : Q :=
  ((inject_Z (Z.of_nat count) / inject_Z (Z.of_nat len_df)) * 100)%Q.

(** Rounding to the nearest integer, ties to even, of a number [>= 0]. *)
Definition round_half_even (q : Q) : Z :=
  let n := Qnum q in
  let d := Z.pos (Qden q) in
  let fl := (n / d)%Z in
  match (2 * (n mod d) ?= d)%Z with
  | Lt => fl
  | Gt => (fl + 1)%Z
  | Eq => if Z.even fl then fl else (fl + 1)%Z
  end.

(** The float64 nearest to a rational number, ties to even: 53
    significant bits.  The exponent range is not bounded here: the
    numbers rounded are shares of a row count and percentages. *)
Definition float64_round (q : Q) : Q :=
  if Qeq_bool q 0 then 0%Q
  else
    let a := Qabs q in
    let e0 := (Z.log2 (Qnum a) - Z.log2 (Z.pos (Qden a)))%Z in
    (* [2^e <= a < 2^(e+1)] *)
    let e := if Qle_bool (2 ^ e0) a then e0 else (e0 - 1)%Z in
    let ulp := (2 ^ (e - 52))%Q in
    let m := (inject_Z (round_half_even (a / ulp)) * ulp)%Q in
    if Qlt_le_dec q 0 then (- m)%Q else m.

(** [(count / len(df)) * 100] as the floats compute it: the quotient is
    rounded, then the product. *)
Definition percentage_float (count len_df : nat) : Q :=
  float64_round
    (float64_round (inject_Z (Z.of_nat count) / inject_Z (Z.of_nat len_df)) * 100)%Q.

Definition pad_left (fill : Ascii.ascii) (width : nat) (s : string) : string :=
  String.string_of_list_ascii (replicate (width - String.length s) fill) +:+ s.

(** [format(q, f"{width}.{prec}f")] for a float of value [q]: the decimal
    nearest to the value, ties to even. *)
Definition format_f (width prec : nat) (q : Q) : string :=
  let scaled := round_half_even (Qabs q * inject_Z (10 ^ Z.of_nat prec))%Q in
  let int_part := (scaled / 10 ^ Z.of_nat prec)%Z in
  let frac_part := (scaled mod 10 ^ Z.of_nat prec)%Z in
  let sign := if Qlt_le_dec q 0 then "-" else "" in
  let digits :=
    match prec with
    | O => pretty int_part
    | _ => pretty int_part +:+ "." +:+ pad_left "0"%char prec (pretty frac_part)
    end in
  pad_left " "%char width (sign +:+ digits).

(** [format(n, f"{width}d")] *)
Definition format_d (width : nat) (n : nat) : string :=
  pad_left " "%char width (pretty n).

(** The line printed for one entry (line 53). *)
Definition distribution_line (len_df : nat) (entry : Q * nat) : string :=
  let duration := entry.1 in
  let count := entry.2 in
  format_f 2 0 duration +:+ " hours: " +:+ format_d 2 count +:+ " cases ("
    +:+ format_f 5 1 (percentage_float count len_df) +:+ "%)".

Definition duration_counts (df : dataframe) : list (Q * nat) :=
  value_counts_sorted (durations df).

(** The lines of the "Duration Distribution" table. *)
Definition duration_distribution (df : dataframe) : list string :=
  List.map (distribution_line (length df)) (duration_counts df).

(** ** The one-sample t test (lines 59-60) *)

(** A cell as a float. *)
Definition to_fp (cell : option Q) : fp :=
  match cell with
  | Some q => Fin (Q2R q)
  | None => NaN
  end.

(** [np.sum(a)] *)
Definition fsum (a : list fp) : fp := foldr add (Fin 0) a.

(** [np.mean(a)] *)
Definition mean (a : list fp) : fp := div (fsum a) (Fin (INR (length a))).

(** scipy's [_var(a, ddof=1)]: the second central moment, rescaled by
    [np.divide(n, n - 1)]. *)
Definition var_ddof1 (a : list fp) : fp :=
  let n := INR (length a) in
  let m := mean a in
  let var := mean (List.map (fun x => let d := sub x m in mul d d) a) in
  mul var (div (Fin n) (Fin (n - 1))).

Section TTest.

(** [distributions.t(df).sf(x)]: the survival function of Student's t
    distribution with [df] degrees of freedom. *)
Variable t_sf : R -> R -> R.

(** [scipy.stats.ttest_1samp(a, popmean)], two-sided: the statistic and
    the p-value [2 * sf(|t|)]; the survival function is 0 at infinity. *)
Definition ttest_1samp (a : list fp) (popmean : fp) : fp * fp :=
  let n := INR (length a) in
  let df := (n - 1)%R in
  let d := sub (mean a) popmean in
  let v := var_ddof1 a in
  let denom := fsqrt (div v (Fin n)) in
  let t := div d denom in
  let prob :=
    match t with
    | NaN => NaN
    | Inf _ => Fin 0
    | Fin t => Fin (2 * t_sf df (Rabs t))
    end in
  (t, prob).

Definition tag_duration : fp := Fin 42.

(** [t_stat, p_value = stats.ttest_1samp(df['duration_hours'], tag_duration)] *)
Definition t_test (df : dataframe) : fp * fp :=
  ttest_1samp (List.map to_fp (durations df)) tag_duration.

End TTest.

(** ** The jittered scatter points (lines 93-110) *)

Section Jitter.

(** numpy's global generator: its state, the state [np.random.seed(n)]
    installs, and one draw from the standard normal distribution; the
    colours of matplotlib, and [plt.cm.viridis] at one position. *)
Context {rng rgba : Type}.
Variable seeded : Z -> rng.
Variable standard_normal : rng -> R * rng.
Variable viridis : R -> rgba.

(** [np.random.seed(n)]: the previous state is discarded. *)
Definition np_random_seed (n : Z) : SE rng unit :=
  fun _ => (ok tt, seeded n).

(** [np.random.normal(loc, scale, size)]: [size] successive draws. *)
Fixpoint np_random_normal (loc scale : R) (size : nat) : SE rng (list R) :=
  match size with
  | O => ret []
  | S size' =>
      (z <- (fun g => (ok (standard_normal g).1, (standard_normal g).2)) ;;
       rest <- np_random_normal loc scale size' ;;
       ret ((loc + scale * z)%R :: rest))%M
  end.

(** [np.unique(a)]: the distinct values in ascending order, one NaN last
    when the column has missing values; [sorted] leaves this order as it
    is. *)
Definition np_unique (column : list (option Q)) : list (option Q) :=
  List.map (fun entry : Q * nat => Some entry.1) (value_counts_sorted column)
  ++ (if existsb (fun cell : option Q => negb (bool_decide (is_Some cell))) column
      then [None] else []).

(** [np.linspace(0, 1, n)] *)
Definition linspace01 (n : nat) : list R :=
  List.map (fun i => (INR i / INR (n - 1))%R) (seq 0 n).

(** [duration_color_map[d]]: a number finds the key equal to it; NaN
    equals no key, itself included, and the lookup raises.  (A number
    that is no key would raise as well; the keys being the values of the
    column, this does not happen, see [point_colors_run].) *)
Fixpoint color_of (duration_color_map : list (option Q * rgba)) (d : option Q)
    {struct duration_color_map} : result rgba :=
  match d with
  | None => raise (Exn KeyError "nan")
  | Some v =>
      match duration_color_map with
      | [] => raise (Exn KeyError "duration")
      | (Some k, c) :: rest =>
          if Qeq_bool v k then ok c else color_of rest d
      | (None, _) :: rest => color_of rest d
      end
  end.

(** The arguments [ax.scatter] receives. *)
Record scatter_call := Scatter {
  scatter_x : list R;
  scatter_y : list (option Q);
  scatter_c : list rgba
}.

Definition jitter_strength : R := (15 / 1000)%R.

(** Lines 93-110, up to the call of [ax.scatter]. *)
Definition scatter (df : dataframe) : SE rng scatter_call :=
  (np_random_seed 42 ;;
   x_jitter <- np_random_normal 1 jitter_strength (length df) ;;
   let durations := durations df in
   let colors := List.map viridis (linspace01 (length (np_unique durations))) in
   let duration_color_map := zip (np_unique durations) colors in
   point_colors <- lift (rmapM (color_of duration_color_map) durations) ;;
   ret (Scatter x_jitter durations point_colors))%M.

End Jitter.

End Duration.

(* ===================================================================== *)
(** * frontogenesis_tendency_comparison.py                                *)
(* ===================================================================== *)

Module Frontogenesis.

(** Times are [datetime64] values, as seconds since the epoch. *)
Definition PRESSURE_LEVEL : Z := 850.
(** [np.datetime64("2006-06-09T01:00:00")] *)
Definition TARGET_TIME : Z := 1149814800.
Definition ENSEMBLE_MEMBER : Z := 1.
(** [np.timedelta64(1, 'h')] *)
Definition one_hour : Z := 3600.

Definition OUTPUT_DIR : string := "./frontogenesis_comparison".

(** A [DataArray] with dimensions [(time, y, x)]: the time coordinate and
    one field per time step. *)
Record data_array := DataArray {
  da_time : list Z;
  da_data : list grid
}.

(** An array of rank 2 or 3. *)
Inductive ndarray :=
  | Arr2 (a : grid)
  | Arr3 (a : list grid).

(** [a.size] *)
Definition size (a : ndarray) : nat :=
  match a with
  | Arr2 g => length (concat g)
  | Arr3 l => length (concat (concat l))
  end.

(** An opened and renamed dataset: its coordinates and
    [ds[var].sel(vertical=level, member=member)]. *)
Record dataset := Dataset {
  longitude : grid;
  latitude : grid;
  sel_level_member : string -> Z -> Z -> result data_array
}.

(** The calls of a figure. *)
Inductive plot_call :=
  | Subplots
  | Contourf (panel : nat) (field : ndarray)
  | Decorate (panel : nat)
  | TightLayout.

(** What the script does to the outside, in order. *)
Inductive action :=
  | Console (message : string)
  | MakeDirs (dir : string)
  | Plot (call : plot_call)
  | SaveFig (path : string).

Record world := World {
  (** [xr.open_dataset(path).metpy.parse_cf().rename(dimension_mapping)] *)
  open_dataset : string -> result dataset;
  (** [mpcalc.lat_lon_grid_deltas(lons, lats)] *)
  lat_lon_grid_deltas : grid -> grid -> result (grid * grid);
  (** [mpcalc.frontogenesis(theta, u, v, dx=dx_3d, dy=dy_3d)], the data of
      the result; its coordinates are those of [theta] *)
  frontogenesis : data_array -> data_array -> data_array ->
                  list grid -> list grid -> result (list grid);
  (** [mpcalc.geospatial_gradient(theta, dx=dx_3d, dy=dy_3d)], two unit-tagged
      arrays of rank 3 *)
  geospatial_gradient : data_array -> list grid -> list grid ->
                        result (list grid * list grid);
  (** [os.makedirs(dir, exist_ok=True)], the matplotlib and cartopy calls,
      and [plt.savefig]: [Some e] when the call raises *)
  makedirs : string -> option exn;
  plot : plot_call -> option exn;
  savefig : string -> option exn;
  (** [str(TARGET_TIME)] *)
  target_time_str : string
}.

(** The state of a run is the trace of its actions. *)
Definition M : Type -> Type := SE (list action).

Definition act (a : action) : M unit := fun trace => (ok tt, trace ++ [a]).

(** An outside call: recorded when it returns, not when it raises. *)
Definition call (o : option exn) (a : action) : M unit :=
  match o with
  | Some e => throw e
  | None => act a
  end.

(** ** numpy and xarray indexing *)

(** [a[mask, :, :]] with a boolean mask along the first axis: the entries
    where the mask holds, none when it holds nowhere. *)
Definition mask_select (mask : list bool) (a : list grid) : result (list grid) :=
  if (length mask =? length a)%nat then
    ok (List.map snd (List.filter fst (zip mask a)))
  else raise (Exn IndexError "boolean index did not match indexed array along axis 0").

(** [a - b] for arrays [(k, ny, nx)] and [(k', ny, nx)]: numpy broadcasts
    an axis of length 1 against any length, 0 included. *)
Definition broadcast_sub (a b : list grid) : result (list grid) :=
  if (length a =? length b)%nat then ok (zip_with sub a b)
  else
    match a, b with
    | [a0], _ => ok (List.map (fun y => sub a0 y) b)
    | _, [b0] => ok (List.map (fun x => sub x b0) a)
    | _, _ => raise (Exn ValueError "operands could not be broadcast together")
    end.

(** [a.squeeze()] for [a] of shape [(k, ny, nx)], the grid having more
    than one point each way: only a first axis of length 1 goes. *)
Definition squeeze (a : list grid) : ndarray :=
  match a with
  | [g] => Arr2 g
  | _ => Arr3 a
  end.

(** [da.sel(time=t)]: a lookup by label in the time index.  A label that
    is absent raises KeyError; a repeated label selects every match. *)
Definition sel_time (da : data_array) (t : Z) : result ndarray :=
  match List.map snd (List.filter (fun td : Z * grid => (td.1 =? t)%Z)
                                  (zip (da_time da) (da_data da))) with
  | [] => raise (Exn KeyError "time")
  | [g] => ok (Arr2 g)
  | gs => ok (Arr3 gs)
  end.

Definition ndarray_map (f : fp -> fp) (a : ndarray) : ndarray :=
  match a with
  | Arr2 g => Arr2 (grid_map f g)
  | Arr3 l => Arr3 (List.map (grid_map f) l)
  end.

(** [np.nanmin(a)] and [np.nanmax(a)] raise on an array without cells. *)
Definition nan_reduce (a : ndarray) : result unit :=
  if (size a =? 0)%nat then
    raise (Exn ValueError "zero-size array to reduction operation fmin which has no identity")
  else ok tt.

(** ** The gradient tendency (lines 131-154) *)

Definition time_before : Z := TARGET_TIME - one_hour.
Definition time_after : Z := TARGET_TIME + one_hour.

(** [(time_after - time_before) / np.timedelta64(1, 's')] *)
Definition time_interval : R := IZR (time_after - time_before).

Definition gradient_tendency (w : world) (theta : data_array)
    (dx_3d dy_3d : list grid) : result ndarray :=
  (grads <- geospatial_gradient w theta dx_3d dy_3d ;;
   let dtheta_dx := grads.1 in
   let dtheta_dy := grads.2 in
   let gradient_magnitude := zip_with gradient_magnitude dtheta_dx dtheta_dy in
   after <- mask_select (List.map (fun t => (t =? time_after)%Z) (da_time theta))
                        gradient_magnitude ;;
   before <- mask_select (List.map (fun t => (t =? time_before)%Z) (da_time theta))
                         gradient_magnitude ;;
   gradient_change <- broadcast_sub after before ;;
   ok (squeeze (List.map (grid_map (fun x => div x (Fin time_interval)))
                         gradient_change)))%result.

(** ** The script *)

(** kelvin / meter / second to kelvin / kilometer / hour *)
Definition to_K_per_km_per_hour : fp -> fp := fun x => mul x (Fin 3600000).

Definition output_filename (w : world) : string :=
  OUTPUT_DIR +:+ "/frontogenesis_tendency_comparison_" +:+ target_time_str w +:+ ".png".

Definition script (w : world) : M unit :=
  (act (Console "Starting WRF frontogenesis analysis...") ;;
   ds_theta <- lift (open_dataset w "./output-w2nc/th.nc") ;;
   ds_winds <- lift (open_dataset w "./output-w2nc/ua,va.nc") ;;
   let lons := longitude ds_theta in
   let lats := latitude ds_theta in
   dxdy <- lift (lat_lon_grid_deltas w lons lats) ;;
   theta <- lift (sel_level_member ds_theta "th" PRESSURE_LEVEL ENSEMBLE_MEMBER) ;;
   u_wind <- lift (sel_level_member ds_winds "ua" PRESSURE_LEVEL ENSEMBLE_MEMBER) ;;
   v_wind <- lift (sel_level_member ds_winds "va" PRESSURE_LEVEL ENSEMBLE_MEMBER) ;;
   let n_times := length (da_time theta) in
   let dx_3d := replicate n_times dxdy.1 in
   let dy_3d := replicate n_times dxdy.2 in
   data <- lift (frontogenesis w theta u_wind v_wind dx_3d dy_3d) ;;
   let frontogenesis_field := DataArray (da_time theta) data in
   act (Console "Frontogenesis computation complete.") ;;
   gradient_tendency <- lift (gradient_tendency w theta dx_3d dy_3d) ;;
   act (Console "Gradient tendency computation complete.") ;;
   frontogenesis_target <- lift (sel_time frontogenesis_field TARGET_TIME) ;;
   let gradient_tendency_converted := ndarray_map to_K_per_km_per_hour gradient_tendency in
   let frontogenesis_converted := ndarray_map to_K_per_km_per_hour frontogenesis_target in
   act (Console "Converted data statistics:") ;;
   lift (nan_reduce gradient_tendency_converted) ;;
   lift (nan_reduce frontogenesis_converted) ;;
   act (Console "Creating comparison visualization...") ;;
   call (makedirs w OUTPUT_DIR) (MakeDirs OUTPUT_DIR) ;;
   call (plot w Subplots) (Plot Subplots) ;;
   call (plot w (Contourf 1 frontogenesis_converted))
        (Plot (Contourf 1 frontogenesis_converted)) ;;
   call (plot w (Decorate 1)) (Plot (Decorate 1)) ;;
   call (plot w (Contourf 2 gradient_tendency_converted))
        (Plot (Contourf 2 gradient_tendency_converted)) ;;
   call (plot w (Decorate 2)) (Plot (Decorate 2)) ;;
   call (plot w TightLayout) (Plot TightLayout) ;;
   call (savefig w (output_filename w)) (SaveFig (output_filename w)) ;;
   act (Console "Analysis complete!"))%M.

(** No figure was touched and no image saved. *)
Definition only_prints (trace : list action) : Prop :=
  Forall (fun a => match a with Console _ => True | _ => False end) trace.

End Frontogenesis.

(* ===================================================================== *)
(** * Vocabulary of the statements                                        *)
(* ===================================================================== *)

Module ThetaESpec.
Import ThetaE.

(** What slot [(m, t, l)] of the array of [v] is to hold once its
    combination has been processed: the computed field as float32, or
    the sentinel when the computation raised. *)
Definition target (c : context) (v : var_name) (m t l : nat) : option grid :=
  match c_members c !! m, c_times c !! t, c_LEVELS c !! l with
  | Some member, Some time, Some level =>
      Some match compute_slice c member time level with
           | inr fields => grid_map float32 (fields v)
           | inl _ => nan_grid (c_ny c) (c_nx c)
           end
  | _, _, _ => None
  end.

(** The arrays as allocated. *)
Definition allocated (c : context) : array5 :=
  np_full (length (c_members c)) (length (c_times c)) (length (c_LEVELS c))
          (c_ny c) (c_nx c).

(** Combination [(m, t, l)] comes before the cursor [(m0, t0, l0)] of the
    triple loop. *)
Definition before_cursor (m0 t0 l0 m t l : nat) : Prop :=
  m < m0 \/ (m = m0 /\ (t < t0 \/ (t = t0 /\ l < l0))).

#[global] Instance before_cursor_dec m0 t0 l0 m t l :
  Decision (before_cursor m0 t0 l0 m t l).
Proof. unfold before_cursor. apply _. Defined.

(** The invariant of the triple loop at cursor [(m0, t0, l0)]: the files
    and the counter aside, processed slots hold their target, the others
    are as allocated, and every failure before the cursor is on the
    console. *)
Definition loop_inv (c : context) (fs : gmap string output_dataset)
    (m0 t0 l0 : nat) (s : state) : Prop :=
  files s = fs
  /\ (forall v m t l, before_cursor m0 t0 l0 m t l ->
        get_slot (output_arrays s v) m t l = target c v m t l)
  /\ (forall v m t l, ~ before_cursor m0 t0 l0 m t l ->
        get_slot (output_arrays s v) m t l = get_slot (allocated c) m t l)
  /\ (forall m t l member time level e,
        before_cursor m0 t0 l0 m t l ->
        c_members c !! m = Some member -> c_times c !! t = Some time ->
        c_LEVELS c !! l = Some level ->
        compute_slice c member time level = inl e ->
        ErrorProcessing member (t + 1) level e ∈ console s).

(** The dataset the function assembles from the context and the arrays
    (lines 156-197). *)
Definition assembled (w : world) (INPUT_DIR : string) (c : context)
    (arrays : var_name -> array5) : output_dataset :=
  with_attrs w INPUT_DIR (c_LEVELS c)
    (foldl (fun ds v =>
              with_variable ds v
                (Variable_ (arrays v) (var_configs v).1 (var_configs v).2
                           (format_levels (c_LEVELS c) +:+ " hPa")))
           (OutputDataset (c_members c) (c_times c) (c_LEVELS c) (c_lats c) (c_lons c)
                          [] None None None None None)
           all_vars).

(** What validation prints: nothing, or the warning and the reduced list. *)
Definition level_warnings (LEVELS available_levels : list Z) : list event :=
  match missing_levels LEVELS available_levels with
  | [] => []
  | missing =>
      [WarningMissingLevels missing;
       ProcessingAvailableLevels (List.filter (level_in available_levels) LEVELS)]
  end.

End ThetaESpec.

(** Small concrete inputs, for the examples.  One member, one time step,
    a 3 x 3 grid with unit spacing, every cell of every field the same. *)
Module ThetaEExamples.
Import ThetaE.

Definition const_grid (ny nx : nat) (a : fp) : grid := replicate ny (replicate nx a).

Definition toy_dataset (levels : list Z) (cell : fp) : dataset :=
  Dataset [1%Z] [0%Z] levels (const_grid 3 3 (Fin 0)) (const_grid 3 3 (Fin 0))
          (fun member time level _ =>
             if (member =? 1)%Z && (time =? 0)%Z && level_in levels level
             then ok (const_grid 3 3 cell)
             else raise (Exn KeyError "not all values found in index")).

Definition toy_world (levels : list Z) (cell : fp) (write_error : option exn) : world :=
  World (fun _ => ok (toy_dataset levels cell))
        (fun _ _ => ok (const_grid 3 2 (Fin 1), const_grid 2 3 (Fin 1)))
        (fun _ => None)
        (fun _ _ => write_error)
        (fun _ => ok 1024%Z)
        (fun _ => None)
        "2025-09-24T00:00:00".

Definition toy_context (LEVELS : list Z) (cell : fp) : context :=
  Context_ (toy_dataset LEVELS cell) (toy_dataset LEVELS cell)
           (const_grid 3 3 (Fin 0)) (const_grid 3 3 (Fin 0))
           [0%Z] [1%Z] LEVELS
           (const_grid 3 2 (Fin 1)) (const_grid 2 3 (Fin 1)) 3 3.

Definition initial_state : state := State (fun _ => []) 0 [] ∅.

End ThetaEExamples.

Module DurationSpec.
Import Duration.

(** The sum of the counts of a frequency table. *)
Definition total_count (counts : list (Q * nat)) : nat :=
  list_sum (List.map snd counts).

(** The number of rows whose duration is not missing. *)
Definition with_duration (df : dataframe) : nat :=
  length (omap (fun cell : option Q => cell) (durations df)).

(** The sum of the percentages of the table of [df]. *)
Definition total_percentage (df : dataframe) : Q :=
  foldr Qplus 0%Q
        (List.map (fun entry : Q * nat => percentage entry.2 (length df))
                  (duration_counts df)).

(** The sum of the percentages of the table of [df] as the floats hold
    them, before they are formatted; the sum itself is exact. *)
Definition total_percentage_float (df : dataframe) : Q :=
  foldr Qplus 0%Q
        (List.map (fun entry : Q * nat => percentage_float entry.2 (length df))
                  (duration_counts df)).

(** The count the table gives for the value [v]. *)
Definition count_of (v : Q) (counts : list (Q * nat)) : nat :=
  list_sum (List.map (fun entry : Q * nat =>
                        if Qeq_bool v entry.1 then entry.2 else 0%nat) counts).

(** The number of rows whose duration equals [v]. *)
Definition occurrences (v : Q) (df : dataframe) : nat :=
  length (List.filter (fun cell : option Q =>
                         match cell with
                         | Some u => Qeq_bool v u
                         | None => false
                         end) (durations df)).

(** A table of durations in whole hours, none missing. *)
Definition hours (l : list Z) : dataframe :=
  List.map (fun h => Row "" "" (Some (inject_Z h))) l.

(** The sample of [df] with every value negated. *)
Definition negated (df : dataframe) : list fp :=
  neg (List.map to_fp (durations df)).

End DurationSpec.

Module FrontogenesisSpec.
Import Frontogenesis.

(** The computations before the time selections return, on arrays with
    one field per time step: [theta] is the selected potential
    temperature, [data] the frontogenesis fields, [dtheta_dx] and
    [dtheta_dy] the gradient components. *)
Definition computes (w : world) (theta : data_array)
    (data dtheta_dx dtheta_dy : list grid) : Prop :=
  exists ds_theta ds_winds dxdy u_wind v_wind,
    open_dataset w "./output-w2nc/th.nc" = ok ds_theta
    /\ open_dataset w "./output-w2nc/ua,va.nc" = ok ds_winds
    /\ lat_lon_grid_deltas w (longitude ds_theta) (latitude ds_theta) = ok dxdy
    /\ sel_level_member ds_theta "th" PRESSURE_LEVEL ENSEMBLE_MEMBER = ok theta
    /\ sel_level_member ds_winds "ua" PRESSURE_LEVEL ENSEMBLE_MEMBER = ok u_wind
    /\ sel_level_member ds_winds "va" PRESSURE_LEVEL ENSEMBLE_MEMBER = ok v_wind
    /\ frontogenesis w theta u_wind v_wind
         (replicate (length (da_time theta)) dxdy.1)
         (replicate (length (da_time theta)) dxdy.2) = ok data
    /\ geospatial_gradient w theta
         (replicate (length (da_time theta)) dxdy.1)
         (replicate (length (da_time theta)) dxdy.2) = ok (dtheta_dx, dtheta_dy)
    /\ length data = length (da_time theta)
    /\ length dtheta_dx = length (da_time theta)
    /\ length dtheta_dy = length (da_time theta).

(** The trace [s] extends [trace] by console output only. *)
Definition quiet_from (trace s : list action) : Prop :=
  exists prints, s = trace ++ prints /\ only_prints prints.

(** The run of [m] from [s] raises, having only printed since [trace]. *)
Definition fails_quietly (trace : list action) (m : M unit) (s : list action) : Prop :=
  exists e s', m s = (inl e, s') /\ quiet_from trace s'.

Definition zero_size_error : exn :=
  Exn ValueError "zero-size array to reduction operation fmin which has no identity".

End FrontogenesisSpec.

(** A small world for the examples: a 3 x 3 grid with unit spacing; at
    time step [k] the potential temperature is the plane
    [300 + (k + 1) * (3 * column + 4 * row)] kelvin, and the gradient
    operator returns the gradient of that plane, [3 * (k + 1)] K/m along
    x and [4 * (k + 1)] K/m along y in every cell.  The frontogenesis
    operator is a stand-in that returns fields of zeros: no example
    depends on its values. *)
Module FrontogenesisExamples.
Import Frontogenesis.

Definition plane (slope : R) : grid :=
  List.map (fun row =>
              List.map (fun column =>
                          Fin (300 + slope * (3 * IZR (Z.of_nat column)
                                              + 4 * IZR (Z.of_nat row))))
                       (seq 0 3))
           (seq 0 3).

Definition toy_theta (times : list Z) : data_array :=
  DataArray times (imap (fun k _ => plane (IZR (Z.of_nat (S k)))) times).

Definition toy_dataset (times : list Z) : dataset :=
  Dataset (replicate 3 [Fin 120; Fin 121; Fin 122])
          [replicate 3 (Fin 22); replicate 3 (Fin 23); replicate 3 (Fin 24)]
          (fun _ level member =>
             if (level =? PRESSURE_LEVEL)%Z && (member =? ENSEMBLE_MEMBER)%Z
             then ok (toy_theta times)
             else raise (Exn KeyError "not all values found in index")).

Definition toy_gradient (theta : data_array) (dx_3d dy_3d : list grid)
  : result (list grid * list grid) :=
  ok (imap (fun k _ => replicate 3 (replicate 3 (Fin (3 * IZR (Z.of_nat (S k))))))
           (da_data theta),
      imap (fun k _ => replicate 3 (replicate 3 (Fin (4 * IZR (Z.of_nat (S k))))))
           (da_data theta)).

Definition toy_world (times : list Z) : world :=
  World (fun _ => ok (toy_dataset times))
        (fun _ _ => ok (replicate 3 (replicate 2 (Fin 1)),
                        replicate 2 (replicate 3 (Fin 1))))
        (fun theta _ _ _ _ =>
           ok (List.map (fun _ => replicate 3 (replicate 3 (Fin 0))) (da_data theta)))
        toy_gradient
        (fun _ => None) (fun _ => None) (fun _ => None)
        "2006-06-09T01:00:00".

End FrontogenesisExamples.

(** Further inputs for the examples. *)
Module MoreExamples.
Import ThetaE.

(** A world in which no file can be opened. *)
Definition unreadable_world (e : exn) : world :=
  World (fun _ => raise e)
        (fun _ _ => ok ([], []))
        (fun _ => None) (fun _ _ => None) (fun _ => ok 0%Z) (fun _ => None) "".

(** An input file without any time step. *)
Definition timeless_dataset : dataset :=
  Dataset [1%Z] [] [850%Z] (ThetaEExamples.const_grid 3 3 (Fin 0))
          (ThetaEExamples.const_grid 3 3 (Fin 0))
          (fun _ _ _ _ => raise (Exn KeyError "not all values found in index")).

Definition timeless_world : world :=
  World (fun _ => ok timeless_dataset)
        (fun _ _ => ok (ThetaEExamples.const_grid 3 2 (Fin 1),
                        ThetaEExamples.const_grid 2 3 (Fin 1)))
        (fun _ => None) (fun _ _ => None) (fun _ => ok 0%Z) (fun _ => None) "".

(** An input on a grid of three rows and two columns. *)
Definition narrow_dataset : dataset :=
  Dataset [1%Z] [0%Z] [850%Z] (ThetaEExamples.const_grid 3 2 (Fin 0))
          (ThetaEExamples.const_grid 3 2 (Fin 0))
          (fun _ _ _ _ => ok (ThetaEExamples.const_grid 3 2 (Fin 300))).

Definition narrow_context : context :=
  Context_ narrow_dataset narrow_dataset
           (ThetaEExamples.const_grid 3 2 (Fin 0)) (ThetaEExamples.const_grid 3 2 (Fin 0))
           [0%Z] [1%Z] [850%Z]
           (ThetaEExamples.const_grid 3 1 (Fin 1)) (ThetaEExamples.const_grid 2 2 (Fin 1))
           3 2.

End MoreExamples.

Module ThetaEMoreSpec.
Import ThetaE ThetaESpec.

(** What a run that returns has written: one file, at the output path,
    with the coordinates of the context and, in every slot of every
    variable, the field computed for the combination, as float32, or NaN
    when its computation raised. *)
Definition written_as_computed (w : world) (INPUT_DIR OUTPUT_FILE : string)
    (LEVELS : list Z) (s s' : state) : Prop :=
  exists c s0 ds,
    setup w INPUT_DIR LEVELS s = (ok c, s0)
    /\ files s' = <[OUTPUT_FILE := ds]> (files s)
    /\ coord_member ds = c_members c
    /\ coord_Time ds = c_times c
    /\ coord_level ds = c_LEVELS c
    /\ List.map fst (data_vars ds) = all_vars
    /\ forall v x m member t time l level,
         (v, x) ∈ data_vars ds ->
         c_members c !! m = Some member -> c_times c !! t = Some time ->
         c_LEVELS c !! l = Some level ->
         get_slot (v_data x) m t l
         = Some match compute_slice c member time level with
                | inr fields => grid_map float32 (fields v)
                | inl _ => nan_grid (c_ny c) (c_nx c)
                end.

(** The line of the statistics for one variable (lines 148-152). *)
Definition statistics_line (arrays : var_name -> array5) (v : var_name) : event :=
  match valid_values (flatten (arrays v)) with
  | x :: xs =>
      ValidRange v (foldr fp_min x xs) (foldr fp_max x xs)
                 (length (x :: xs)) (length (flatten (arrays v)))
  | [] => NoValidData v
  end.

End ThetaEMoreSpec.


Module DurationMoreSpec.
Import Duration.



End DurationMoreSpec.

Module FrontogenesisMoreSpec.
Import Frontogenesis.

(** A field with at least one cell. *)
Definition has_cells (g : grid) : Prop :=
  match g with
  | (_ :: _) :: _ => True
  | _ => False
  end.

(** No image is saved in the course of [trace]. *)
Definition no_image (trace : list action) : Prop :=
  Forall (fun a => match a with SaveFig _ => False | _ => True end) trace.

(** Reading the inputs raises [e]: a file cannot be opened, the grid
    spacing cannot be computed, or the level or the member is absent from
    a variable. *)
Inductive input_failure (w : world) (e : exn) : Prop :=
  | theta_file_fails :
      open_dataset w "./output-w2nc/th.nc" = inl e -> input_failure w e
  | winds_file_fails ds_theta :
      open_dataset w "./output-w2nc/th.nc" = ok ds_theta ->
      open_dataset w "./output-w2nc/ua,va.nc" = inl e -> input_failure w e
  | grid_deltas_fail ds_theta ds_winds :
      open_dataset w "./output-w2nc/th.nc" = ok ds_theta ->
      open_dataset w "./output-w2nc/ua,va.nc" = ok ds_winds ->
      lat_lon_grid_deltas w (longitude ds_theta) (latitude ds_theta) = inl e ->
      input_failure w e
  | theta_selection_fails ds_theta ds_winds dxdy :
      open_dataset w "./output-w2nc/th.nc" = ok ds_theta ->
      open_dataset w "./output-w2nc/ua,va.nc" = ok ds_winds ->
      lat_lon_grid_deltas w (longitude ds_theta) (latitude ds_theta) = ok dxdy ->
      sel_level_member ds_theta "th" PRESSURE_LEVEL ENSEMBLE_MEMBER = inl e ->
      input_failure w e
  | u_selection_fails ds_theta ds_winds dxdy theta :
      open_dataset w "./output-w2nc/th.nc" = ok ds_theta ->
      open_dataset w "./output-w2nc/ua,va.nc" = ok ds_winds ->
      lat_lon_grid_deltas w (longitude ds_theta) (latitude ds_theta) = ok dxdy ->
      sel_level_member ds_theta "th" PRESSURE_LEVEL ENSEMBLE_MEMBER = ok theta ->
      sel_level_member ds_winds "ua" PRESSURE_LEVEL ENSEMBLE_MEMBER = inl e ->
      input_failure w e
  | v_selection_fails ds_theta ds_winds dxdy theta u_wind :
      open_dataset w "./output-w2nc/th.nc" = ok ds_theta ->
      open_dataset w "./output-w2nc/ua,va.nc" = ok ds_winds ->
      lat_lon_grid_deltas w (longitude ds_theta) (latitude ds_theta) = ok dxdy ->
      sel_level_member ds_theta "th" PRESSURE_LEVEL ENSEMBLE_MEMBER = ok theta ->
      sel_level_member ds_winds "ua" PRESSURE_LEVEL ENSEMBLE_MEMBER = ok u_wind ->
      sel_level_member ds_winds "va" PRESSURE_LEVEL ENSEMBLE_MEMBER = inl e ->
      input_failure w e.

(** A world in which no file can be opened. *)
Definition closed_world (e : exn) : world :=
  World (fun _ => raise e)
        (fun _ _ => ok ([], []))
        (fun _ _ _ _ _ => ok [])
        (fun _ _ _ => ok ([], []))
        (fun _ => None) (fun _ => None) (fun _ => None) "".

End FrontogenesisMoreSpec.
(* ===================================================================== *)
(** * Negation and the finite-difference operators                        *)
(* ===================================================================== *)

(** The tests of IEEE arithmetic on a real number. *)
Lemma Rzero_true (x : R) : x = 0%R -> Rzero x = true.
Proof. intros ->. unfold Rzero. destruct (Req_EM_T 0 0); congruence. Qed.

Lemma Rzero_false (x : R) : x <> 0%R -> Rzero x = false.
Proof. intros H. unfold Rzero. destruct (Req_EM_T x 0); congruence. Qed.

Lemma Rzero_spec (x : R) : Rzero x = true <-> x = 0%R.
Proof. unfold Rzero. destruct (Req_EM_T x 0); split; congruence. Qed.

Lemma Rnegative_true (x : R) : (x < 0)%R -> Rnegative x = true.
Proof. intros H. unfold Rnegative. destruct (Rlt_dec x 0); [reflexivity|lra]. Qed.

Lemma Rnegative_false (x : R) : (0 <= x)%R -> Rnegative x = false.
Proof. intros H. unfold Rnegative. destruct (Rlt_dec x 0); [lra|reflexivity]. Qed.

Lemma Rzero_opp (x : R) : Rzero (- x) = Rzero x.
Proof.
  unfold Rzero. destruct (Req_EM_T (- x) 0), (Req_EM_T x 0); try reflexivity; lra.
Qed.

Lemma Rnegative_opp (x : R) : x <> 0%R -> Rnegative (- x) = negb (Rnegative x).
Proof.
  intros H. unfold Rnegative.
  destruct (Rlt_dec (- x) 0), (Rlt_dec x 0); try reflexivity; lra.
Qed.

(** Evaluation of arithmetic on concrete cells: everything is computed
    but the real numbers and the tests on them, which are settled by
    rewriting. *)
Ltac fp_eval :=
  cbv -[Rzero Rnegative Rplus Rminus Rmult Rdiv Ropp Rinv IZR INR sqrt Rle_dec
        float32_round powerRZ Rabs].

Ltac fp_compute :=
  fp_eval;
  repeat (first [rewrite !Rzero_false by lra | rewrite !Rzero_true by lra
                |rewrite !Rnegative_false by lra | rewrite !Rnegative_true by lra];
          fp_eval).

Lemma fp_mul_neg_r (c x : fp) : fp_mul c (fp_neg x) = fp_neg (fp_mul c x).
Proof.
  destruct c as [|s|c], x as [|s'|y]; cbn; try reflexivity.
  - destruct s, s'; reflexivity.
  - rewrite Rzero_opp. destruct (Rzero y) eqn:Hy; [reflexivity|].
    rewrite Rnegative_opp by (intros ->; rewrite Rzero_true in Hy; congruence).
    destruct s, (Rnegative y); reflexivity.
  - destruct (Rzero c); [reflexivity|]. destruct s', (Rnegative c); reflexivity.
  - f_equal. ring.
Qed.

Lemma fp_add_neg_neg (x y : fp) : fp_add (fp_neg x) (fp_neg y) = fp_neg (fp_add x y).
Proof.
  destruct x as [|s|x], y as [|s'|y]; cbn; try reflexivity.
  - destruct s, s'; reflexivity.
  - f_equal. ring.
Qed.

Lemma fp_sub_neg_neg (x y : fp) : fp_sub (fp_neg x) (fp_neg y) = fp_neg (fp_sub x y).
Proof.
  destruct x as [|s|x], y as [|s'|y]; cbn; try reflexivity.
  - destruct s, s'; reflexivity.
  - f_equal. ring.
Qed.

(** The conversion to float32 keeps NaN and makes no NaN. *)
Lemma float32_nan (a : fp) : float32 a = NaN <-> a = NaN.
Proof.
  destruct a as [|s|x]; cbn; [tauto|split; discriminate|].
  destruct (Rle_dec _ _); split; discriminate.
Qed.

(** ** The conversion to float32 at some numbers *)

Lemma ln_powerRZ_2 (e : Z) : ln (powerRZ 2 e) = (IZR e * ln 2)%R.
Proof. rewrite powerRZ_Rpower by lra. unfold Rpower. apply ln_exp. Qed.

Lemma powerRZ_2_pos (p : positive) : powerRZ 2 (Z.pos p) = IZR (2 ^ Z.pos p).
Proof. unfold powerRZ. rewrite pow_IZR, positive_nat_Z. reflexivity. Qed.

Lemma powerRZ_2_neg (p : positive) : powerRZ 2 (Z.neg p) = (/ IZR (2 ^ Z.pos p))%R.
Proof. unfold powerRZ. rewrite pow_IZR, positive_nat_Z. reflexivity. Qed.

(** Powers of two with a literal exponent, as numerals. *)
Ltac power_of_two :=
  repeat match goal with
         | |- context [Z.max ?a ?b] =>
             let v := eval vm_compute in (Z.max a b) in change (Z.max a b) with v
         | |- context [powerRZ 2 (Z.pos ?p)] =>
             rewrite (powerRZ_2_pos p);
             let v := eval vm_compute in (2 ^ Z.pos p)%Z in
             change (2 ^ Z.pos p)%Z with v
         | |- context [powerRZ 2 (Z.neg ?p)] =>
             rewrite (powerRZ_2_neg p);
             let v := eval vm_compute in (2 ^ Z.pos p)%Z in
             change (2 ^ Z.pos p)%Z with v
         | |- context [(?a + ?b)%Z] =>
             let v := eval vm_compute in (a + b)%Z in change (a + b)%Z with v
         end.

(** The spacing at a number of binary exponent [e]. *)
Lemma float32_ulp_at (x : R) (e : Z) :
  (powerRZ 2 e <= Rabs x < powerRZ 2 (e + 1))%R ->
  float32_ulp x = powerRZ 2 (Z.max (e - 23) (-149)).
Proof.
  intros [Hlo Hhi]. unfold float32_ulp.
  assert (H2 : (0 < ln 2)%R) by (rewrite <- ln_1; apply ln_increasing; lra).
  assert (Hpos : (0 < powerRZ 2 e)%R) by (apply powerRZ_lt; lra).
  assert (Hl : (IZR e * ln 2 <= ln (Rabs x))%R).
  { rewrite <- ln_powerRZ_2. destruct Hlo as [Hlo|Hlo].
    - left. apply ln_increasing; assumption.
    - right. rewrite Hlo. reflexivity. }
  assert (Hh : (ln (Rabs x) < (IZR e + 1) * ln 2)%R).
  { rewrite <- plus_IZR, <- ln_powerRZ_2. apply ln_increasing; lra. }
  replace (Int_part (ln (Rabs x) / ln 2)) with e; [reflexivity|].
  apply Int_part_spec. split.
  - apply Rmult_lt_reg_r with (ln 2); [exact H2|].
    unfold Rdiv. rewrite Rmult_minus_distr_r, Rmult_assoc, Rinv_l by lra. lra.
  - apply Rmult_le_reg_r with (ln 2); [exact H2|].
    unfold Rdiv. rewrite Rmult_assoc, Rinv_l by lra. lra.
Qed.

(** The integer within a half of [y]. *)
Lemma nearest_even_at (y : R) (n : Z) :
  (Rabs (y - IZR n) < 1 / 2)%R -> nearest_even y = n.
Proof.
  intros H. apply Rabs_def2 in H as [H1 H2]. unfold nearest_even.
  destruct (base_Int_part y) as [Hf1 Hf2].
  destruct (Rlt_dec (y - IZR (Int_part y)) (1 / 2)) as [Hlt|Hge].
  - assert (Hd : (-1 < IZR (Int_part y) - IZR n < 1)%R) by lra.
    rewrite <- minus_IZR in Hd. destruct Hd as [Hd1 Hd2].
    apply lt_IZR in Hd1, Hd2. lia.
  - assert (Hd : (-1 < IZR (Int_part y) + 1 - IZR n < 1)%R) by lra.
    rewrite <- (plus_IZR _ 1), <- minus_IZR in Hd. destruct Hd as [Hd1 Hd2].
    apply lt_IZR in Hd1, Hd2.
    assert (Hn : n = (Int_part y + 1)%Z) by lia.
    destruct (Rlt_dec (1 / 2) (y - IZR (Int_part y))) as [Hgt|Hle]; [lia|].
    exfalso. rewrite Hn, plus_IZR in H1, H2. lra.
Qed.

(** A field of 300 K is stored as it is. *)
Lemma float32_of_300 : float32 (Fin 300) = Fin 300.
Proof.
  assert (Hulp : float32_ulp 300 = (/ 32768)%R).
  { rewrite (float32_ulp_at _ 8).
    - power_of_two. reflexivity.
    - rewrite Rabs_pos_eq by lra. power_of_two. lra. }
  assert (Hround : float32_round 300 = 300%R).
  { unfold float32_round. rewrite Hulp.
    rewrite (nearest_even_at _ 9830400); [lra|].
    apply Rabs_def1; lra. }
  unfold float32. rewrite Hround.
  destruct (Rle_dec _ _) as [Hbig|_]; [|reflexivity].
  exfalso. revert Hbig. rewrite Rabs_pos_eq by lra. power_of_two. lra.
Qed.

(** 300.1 K is stored as 300.100006103515625, the float32 nearest to it. *)
Lemma float32_of_300_1 :
  float32 (Fin (3001 / 10)) = Fin (9833677 / 32768).
Proof.
  assert (Hulp : float32_ulp (3001 / 10) = (/ 32768)%R).
  { rewrite (float32_ulp_at _ 8).
    - power_of_two. reflexivity.
    - rewrite Rabs_pos_eq by lra. power_of_two. lra. }
  assert (Hround : float32_round (3001 / 10) = (9833677 / 32768)%R).
  { unfold float32_round. rewrite Hulp.
    rewrite (nearest_even_at _ 9833677); [lra|].
    apply Rabs_def1; lra. }
  unfold float32. rewrite Hround.
  destruct (Rle_dec _ _) as [Hbig|_]; [|reflexivity].
  exfalso. revert Hbig. rewrite Rabs_pos_eq by lra. power_of_two. lra.
Qed.

(** [1e39] is beyond the float32 numbers and is stored as an infinity. *)
Lemma float32_of_1e39 :
  float32 (Fin 1e39) = Inf false /\ float32 (Fin (- 1e39)) = Inf true.
Proof.
  assert (Hulp : forall x, Rabs x = 1e39%R -> float32_ulp x = powerRZ 2 106).
  { intros x Hx. rewrite (float32_ulp_at _ 129); [reflexivity|].
    rewrite Hx. power_of_two. lra. }
  assert (Hround : float32_round 1e39 = (12325952 * powerRZ 2 106)%R).
  { unfold float32_round. rewrite Hulp by (apply Rabs_pos_eq; lra).
    rewrite (nearest_even_at _ 12325952); [reflexivity|].
    power_of_two. apply Rabs_def1; lra. }
  assert (Hround' : float32_round (- 1e39) = (- 12325952 * powerRZ 2 106)%R).
  { unfold float32_round.
    rewrite Hulp by (rewrite Rabs_left; lra).
    rewrite (nearest_even_at _ (- 12325952)); [reflexivity|].
    power_of_two. apply Rabs_def1; lra. }
  unfold float32. rewrite Hround, Hround'. split.
  - rewrite Rnegative_false by lra.
    destruct (Rle_dec _ _) as [_|Hsmall]; [reflexivity|].
    exfalso. apply Hsmall. power_of_two. rewrite Rabs_pos_eq; lra.
  - rewrite Rnegative_true by lra.
    destruct (Rle_dec _ _) as [_|Hsmall]; [reflexivity|].
    exfalso. apply Hsmall. power_of_two. rewrite Rabs_left; lra.
Qed.

Lemma cell_at_grid_map (f : fp -> fp) (g : grid) (i j : nat) :
  cell_at (grid_map f g) i j = f <$> cell_at g i j.
Proof.
  unfold cell_at, grid_map.
  change (List.map ?h ?l) with (fmap (M:=list) h l).
  rewrite list_lookup_fmap. destruct (g !! i) as [row|]; [|reflexivity].
  cbn. apply list_lookup_fmap.
Qed.

Lemma fp_neg_laws : ArithNeg fp.
Proof.
  split; [exact fp_mul_neg_r|exact fp_add_neg_neg|exact fp_sub_neg_neg].
Qed.

#[export] Existing Instance fp_neg_laws.

Lemma zip_with_map_r {A B C} (f : A -> B -> C) (g : B -> B) (h : C -> C) :
  (forall a b, f a (g b) = h (f a b)) ->
  forall l k, zip_with f l (List.map g k) = List.map h (zip_with f l k).
Proof.
  intros Hfg l. induction l as [|a l IH]; intros [|b k]; cbn; try reflexivity.
  rewrite Hfg, IH. reflexivity.
Qed.

Lemma zip_with_map_both {A C} (f : A -> A -> C) (g : A -> A) (h : C -> C) :
  (forall a b, f (g a) (g b) = h (f a b)) ->
  forall l k, zip_with f (List.map g l) (List.map g k) = List.map h (zip_with f l k).
Proof.
  intros Hfg l. induction l as [|a l IH]; intros [|b k]; cbn; try reflexivity.
  rewrite Hfg, IH. reflexivity.
Qed.

Lemma list_neg_laws {T} `{ArithNeg T} : ArithNeg (list T).
Proof.
  split; cbn.
  - apply zip_with_map_r, mul_neg_r.
  - apply zip_with_map_both, add_neg_neg.
  - apply zip_with_map_both, sub_neg_neg.
Qed.

#[export] Existing Instance list_neg_laws.

Lemma pyslice_map {A B} (g : A -> B) start stop (l : list A) :
  pyslice start stop (List.map g l) = List.map g (pyslice start stop l).
Proof.
  unfold pyslice. rewrite length_map.
  change (List.map g) with (fmap (M:=list) g).
  rewrite <- fmap_drop, <- fmap_take. reflexivity.
Qed.

Lemma first_derivative_neg {T} `{ArithNeg T} (f delta : list T) :
  MetPy.first_derivative (neg f) delta = rmap neg (MetPy.first_derivative f delta).
Proof.
  unfold MetPy.first_derivative.
  change (neg f) with (List.map neg f). rewrite length_map.
  destruct (length f <? 3)%nat; [reflexivity|].
  destruct (negb _); [reflexivity|].
  rewrite !pyslice_map.
  repeat match goal with
         | |- context [List.map neg ?x] => change (List.map neg x) with (neg x)
         end.
  rewrite !mul_neg_r, !add_neg_neg, !sub_neg_neg, !add_neg_neg.
  cbn. rewrite !map_app. reflexivity.
Qed.

Lemma shape2_neg (g : grid) : shape2 (neg g) = shape2 g.
Proof.
  destruct g as [|r g]; [reflexivity|].
  cbn. rewrite !length_map.
  replace (forallb _ (List.map _ g))
    with (forallb (fun r' => Nat.eqb (length r') (length r)) g); [reflexivity|].
  induction g as [|r' g IH]; cbn; [reflexivity|].
  rewrite length_map, IH. reflexivity.
Qed.

Lemma rmapM_rows_neg (f dx : grid) :
  rmapM (fun rd : list fp * list fp => MetPy.first_derivative rd.1 rd.2)
        (zip (neg f) dx)
  = rmap neg (rmapM (fun rd : list fp * list fp => MetPy.first_derivative rd.1 rd.2)
                    (zip f dx)).
Proof.
  revert dx. induction f as [|r f IH]; intros [|d dx]; try reflexivity.
  cbn [neg list_arith List.map zip zip_with rmapM fst snd].
  change (List.map neg r) with (neg (T:=list fp) r).
  change (List.map (List.map neg) f) with (neg (T:=list (list fp)) f).
  rewrite first_derivative_neg.
  destruct (MetPy.first_derivative r d) as [e|r']; [reflexivity|].
  cbn [rmap rbind ok]. 
  rewrite IH.
  destruct (rmapM _ _) as [e|rs]; reflexivity.
Qed.

Lemma ddx_neg (f dx : grid) : MetPy.ddx (neg f) dx = rmap neg (MetPy.ddx f dx).
Proof.
  unfold MetPy.ddx. rewrite shape2_neg.
  destruct (shape2 f) as [[ny nx]|]; [|reflexivity].
  destruct (shape2 dx) as [[ny' nx']|]; [|reflexivity].
  destruct (nx <? 3)%nat; [reflexivity|].
  destruct (_ && _); [|reflexivity].
  apply rmapM_rows_neg.
Qed.

Lemma ddy_neg (f dy : grid) : MetPy.ddy (neg f) dy = rmap neg (MetPy.ddy f dy).
Proof.
  unfold MetPy.ddy. rewrite shape2_neg.
  destruct (shape2 f) as [[ny nx]|]; [|reflexivity].
  destruct (shape2 dy) as [[ny' nx']|]; [|reflexivity].
  destruct (ny <? 3)%nat; [reflexivity|].
  destruct (_ && _); [|reflexivity].
  apply first_derivative_neg.
Qed.

(** C6. Negating both wind components negates the divergence field and
    the vorticity field that [mpcalc.divergence] and [mpcalc.vorticity]
    return for the same grid spacing, cell by cell; when the operators
    raise (a grid too small or of another shape) they raise the same
    exception for the negated fields. *)
Theorem divergence_vorticity_negate (u v dx dy : grid) :
  MetPy.divergence (neg u) (neg v) dx dy = rmap neg (MetPy.divergence u v dx dy)
  /\ MetPy.vorticity (neg u) (neg v) dx dy = rmap neg (MetPy.vorticity u v dx dy).
Proof.
  unfold MetPy.divergence, MetPy.vorticity.
  rewrite !ddx_neg, !ddy_neg. split.
  - destruct (MetPy.ddx u dx) as [e|dudx]; [reflexivity|].
    destruct (MetPy.ddy v dy) as [e|dvdy]; [reflexivity|].
    cbn [rmap rbind ok]. rewrite add_neg_neg. reflexivity.
  - destruct (MetPy.ddy u dy) as [e|dudy]; [reflexivity|].
    destruct (MetPy.ddx v dx) as [e|dvdx]; [reflexivity|].
    cbn [rmap rbind ok]. rewrite sub_neg_neg. reflexivity.
Qed.

(** A field on a 3 x 3 grid with unit spacing: [u] grows by one per
    column and [v] is at rest, so the divergence is 1 everywhere. *)
Example divergence_of_a_ramp :
  let row := [Fin 0; Fin 1; Fin 2] in
  let zero := [Fin 0; Fin 0; Fin 0] in
  let one := Fin 1 in
  exists d, MetPy.divergence [row; row; row] [zero; zero; zero]
                        [[one; one]; [one; one]; [one; one]]
                        [[one; one; one]; [one; one; one]] = ok d
       /\ Forall (Forall (fun a => exists x, a = Fin x /\ x = 1%R)) d.
Proof.
  fp_compute. eexists. split; [reflexivity|].
  repeat constructor; eexists; (split; [reflexivity|]); lra.
Qed.

(* ===================================================================== *)
(** * Reasoning about runs                                                *)
(* ===================================================================== *)

Section Runs.
Context {St : Type}.

Lemma bind_ok {A B} (m : SE St A) (k : A -> SE St B) s a s' :
  m s = (inr a, s') -> bind m k s = k a s'.
Proof. unfold bind. intros ->. reflexivity. Qed.

Lemma bind_raise {A B} (m : SE St A) (k : A -> SE St B) s e s' :
  m s = (inl e, s') -> bind m k s = (inl e, s').
Proof. unfold bind. intros ->. reflexivity. Qed.

(** What a run of [bind m k] that returns went through. *)
Lemma bind_inv_ok {A B} (m : SE St A) (k : A -> SE St B) s b s' :
  bind m k s = (inr b, s') -> exists a s1, m s = (inr a, s1) /\ k a s1 = (inr b, s').
Proof.
  unfold bind. destruct (m s) as [[e|a] s1]; [discriminate|]. eauto.
Qed.

(** A loop whose body always returns, with an invariant indexed by the
    position in the list. *)
Lemma for_enum_ok {A} (I : nat -> St -> Prop) (body : nat -> A -> SE St unit) :
  forall (l : list A) (k : nat) (s : St),
    I k s ->
    (forall i a s, l !! i = Some a -> I (k + i) s ->
                   exists s', body (k + i) a s = (ok tt, s') /\ I (S (k + i)) s') ->
    exists s', for_enum k l body s = (ok tt, s') /\ I (k + length l) s'.
Proof.
  induction l as [|a l IH]; intros k s HI Hbody.
  - exists s. rewrite Nat.add_0_r. split; [reflexivity|assumption].
  - destruct (Hbody 0 a s eq_refl) as (s1 & Hs1 & HI1).
    { rewrite Nat.add_0_r. assumption. }
    rewrite Nat.add_0_r in Hs1, HI1.
    destruct (IH (S k) s1 HI1) as (s' & Hs' & HI').
    { intros i b s2 Hb Hs2. rewrite Nat.add_succ_l, <- Nat.add_succ_r in *.
      apply (Hbody (S i) b s2 Hb Hs2). }
    exists s'. split.
    + cbn [for_enum]. rewrite (bind_ok _ _ _ _ _ Hs1). exact Hs'.
    + cbn [length]. rewrite Nat.add_succ_r. exact HI'.
Qed.

Lemma for_each_ok {A} (I : St -> Prop) (body : A -> SE St unit) :
  forall (l : list A) (s : St),
    I s ->
    (forall a s, a ∈ l -> I s -> exists s', body a s = (ok tt, s') /\ I s') ->
    exists s', for_each l body s = (ok tt, s') /\ I s'.
Proof.
  induction l as [|a l IH]; intros s HI Hbody.
  - exists s. split; [reflexivity|assumption].
  - destruct (Hbody a s) as (s1 & Hs1 & HI1); [left|assumption|].
    destruct (IH s1 HI1) as (s' & Hs' & HI').
    { intros b s2 Hb. apply Hbody. right. exact Hb. }
    exists s'. split; [|exact HI'].
    cbn [for_each]. rewrite (bind_ok _ _ _ _ _ Hs1). exact Hs'.
Qed.

End Runs.

(* ===================================================================== *)
(** * calc_WRF_ThetaE_Analysis.py: slots of the output arrays             *)
(* ===================================================================== *)

Section Slots.
Import ThetaE.

Lemma get_slot_np_full nm nt nl ny nx m t l :
  get_slot (np_full nm nt nl ny nx) m t l
  = if decide (m < nm /\ t < nt /\ l < nl) then Some (nan_grid ny nx) else None.
Proof.
  unfold get_slot, np_full.
  destruct (decide (m < nm)) as [Hm|Hm].
  2: { rewrite (proj1 (lookup_replicate_None _ _ _)) by lia. case_decide; [lia|reflexivity]. }
  rewrite lookup_replicate_2 by assumption.
  destruct (decide (t < nt)) as [Ht|Ht].
  2: { rewrite (proj1 (lookup_replicate_None _ _ _)) by lia. case_decide; [lia|reflexivity]. }
  rewrite lookup_replicate_2 by assumption.
  destruct (decide (l < nl)) as [Hl|Hl].
  2: { rewrite (proj1 (lookup_replicate_None _ _ _)) by lia. case_decide; [lia|reflexivity]. }
  rewrite lookup_replicate_2 by assumption.
  case_decide; [reflexivity|lia].
Qed.

Lemma get_set_slot_eq (a : array5) m t l g :
  is_Some (get_slot a m t l) -> get_slot (set_slot a m t l g) m t l = Some g.
Proof.
  unfold get_slot, set_slot. intros [g0 H].
  rewrite list_lookup_alter_eq.
  destruct (a !! m) as [am|]; [|discriminate]. cbn.
  rewrite list_lookup_alter_eq.
  destruct (am !! t) as [at_|]; [|discriminate]. cbn.
  apply list_lookup_insert_eq. eapply lookup_lt_Some, H.
Qed.

Lemma get_set_slot_ne (a : array5) m t l g m' t' l' :
  (m, t, l) <> (m', t', l') ->
  get_slot (set_slot a m t l g) m' t' l' = get_slot a m' t' l'.
Proof.
  unfold get_slot, set_slot. intros Hne.
  destruct (decide (m = m')) as [<-|Hm].
  2: { rewrite list_lookup_alter_ne by assumption. reflexivity. }
  rewrite list_lookup_alter_eq.
  destruct (a !! m) as [am|]; [|reflexivity]. cbn.
  destruct (decide (t = t')) as [<-|Ht].
  2: { rewrite list_lookup_alter_ne by assumption. reflexivity. }
  rewrite list_lookup_alter_eq.
  destruct (am !! t) as [at_|]; [|reflexivity]. cbn.
  apply list_lookup_insert_ne. congruence.
Qed.

End Slots.

Section TripleLoop.
Import ThetaE ThetaESpec.

Lemma store_run v m t l g s :
  exists s', store v m t l g s = (ok tt, s')
    /\ output_arrays s' v = set_slot (output_arrays s v) m t l (grid_map float32 g)
    /\ (forall v', v' <> v -> output_arrays s' v' = output_arrays s v')
    /\ console s' = console s /\ files s' = files s
    /\ current_iteration s' = current_iteration s.
Proof.
  eexists. split; [reflexivity|]. cbn [output_arrays console files current_iteration].
  split; [apply fn_lookup_insert|]. split; [|auto].
  intros v' Hne. apply fn_lookup_insert_ne. congruence.
Qed.

(** A combination whose computation returns: the six stores. *)
Lemma process_slice_computed c m member t time l level fields s :
  compute_slice c member time level = inr fields ->
  exists s', process_slice c m member t time l level s = (ok tt, s')
    /\ (forall v, output_arrays s' v
                  = set_slot (output_arrays s v) m t l (grid_map float32 (fields v)))
    /\ console s' = console s /\ files s' = files s
    /\ current_iteration s' = S (current_iteration s).
Proof.
  intros Hc. unfold process_slice.
  unfold bind at 1, next_iteration, try_except.
  unfold bind at 1, lift. rewrite Hc.
  set (s0 := State (output_arrays s) (S (current_iteration s)) (console s) (files s)).
  destruct (store_run Eth m t l (fields Eth) s0) as (s1 & R1 & E1 & N1 & C1 & F1 & I1).
  destruct (store_run Dtedx m t l (fields Dtedx) s1) as (s2 & R2 & E2 & N2 & C2 & F2 & I2).
  destruct (store_run Dtedy m t l (fields Dtedy) s2) as (s3 & R3 & E3 & N3 & C3 & F3 & I3).
  destruct (store_run Absthe m t l (fields Absthe) s3) as (s4 & R4 & E4 & N4 & C4 & F4 & I4).
  destruct (store_run Divg m t l (fields Divg) s4) as (s5 & R5 & E5 & N5 & C5 & F5 & I5).
  destruct (store_run Vort m t l (fields Vort) s5) as (s6 & R6 & E6 & N6 & C6 & F6 & I6).
  exists s6. split.
  { rewrite (bind_ok _ _ _ _ _ R1), (bind_ok _ _ _ _ _ R2), (bind_ok _ _ _ _ _ R3),
      (bind_ok _ _ _ _ _ R4), (bind_ok _ _ _ _ _ R5), R6. reflexivity. }
  rewrite C6, C5, C4, C3, C2, C1, F6, F5, F4, F3, F2, F1, I6, I5, I4, I3, I2, I1.
  split.
  { intros [].
    - rewrite N6, N5, N4, N3, N2, E1 by discriminate. reflexivity.
    - rewrite N6, N5, N4, N3, E2, N1 by discriminate. reflexivity.
    - rewrite N6, N5, N4, E3, N2, N1 by discriminate. reflexivity.
    - rewrite N6, N5, E4, N3, N2, N1 by discriminate. reflexivity.
    - rewrite N6, E5, N4, N3, N2, N1 by discriminate. reflexivity.
    - rewrite E6, N5, N4, N3, N2, N1 by discriminate. reflexivity. }
  auto.
Qed.

(** A combination whose computation raises: nothing is stored, the error
    is printed, and the loop goes on. *)
Lemma process_slice_raised c m member t time l level e s :
  compute_slice c member time level = inl e ->
  process_slice c m member t time l level s
  = (ok tt, State (output_arrays s) (S (current_iteration s))
                  (console s ++ [ErrorProcessing member (t + 1) level e]) (files s)).
Proof.
  intros Hc. unfold process_slice, bind, try_except, next_iteration, lift.
  rewrite Hc. reflexivity.
Qed.

Lemma target_in_range c m t l member time level :
  c_members c !! m = Some member -> c_times c !! t = Some time ->
  c_LEVELS c !! l = Some level ->
  get_slot (allocated c) m t l = Some (nan_grid (c_ny c) (c_nx c)).
Proof.
  intros Hm Ht Hl. unfold allocated. rewrite get_slot_np_full.
  apply lookup_lt_Some in Hm, Ht, Hl. case_decide; [reflexivity|lia].
Qed.

(** Outside the index ranges there is neither a target nor a slot. *)
Lemma target_out_of_range c v m t l :
  ~ (m < length (c_members c) /\ t < length (c_times c) /\ l < length (c_LEVELS c)) ->
  target c v m t l = None /\ get_slot (allocated c) m t l = None.
Proof.
  intros Hout. split.
  - unfold target.
    destruct (c_members c !! m) eqn:Hm; [|reflexivity].
    destruct (c_times c !! t) eqn:Ht; [|reflexivity].
    destruct (c_LEVELS c !! l) eqn:Hl; [|reflexivity].
    apply lookup_lt_Some in Hm, Ht, Hl. lia.
  - unfold allocated. rewrite get_slot_np_full. case_decide; [tauto|reflexivity].
Qed.

(** Moving the cursor over indices that are out of range changes nothing. *)
Lemma loop_inv_cursor c fs m0 t0 l0 m1 t1 l1 s :
  (forall m t l,
     m < length (c_members c) -> t < length (c_times c) -> l < length (c_LEVELS c) ->
     before_cursor m0 t0 l0 m t l <-> before_cursor m1 t1 l1 m t l) ->
  loop_inv c fs m0 t0 l0 s -> loop_inv c fs m1 t1 l1 s.
Proof.
  intros Heq (Hf & Hdone & Htodo & Hlog).
  assert (Hslot : forall v m t l,
    ~ (m < length (c_members c) /\ t < length (c_times c) /\ l < length (c_LEVELS c)) ->
    get_slot (output_arrays s v) m t l = None).
  { intros v m t l Hout. destruct (target_out_of_range c v m t l Hout) as [Ht Ha].
    destruct (decide (before_cursor m0 t0 l0 m t l)) as [Hb|Hb].
    - rewrite Hdone by assumption. exact Ht.
    - rewrite Htodo by assumption. exact Ha. }
  split; [assumption|]. split; [|split].
  - intros v m t l Hb.
    destruct (decide (m < length (c_members c) /\ t < length (c_times c)
                       /\ l < length (c_LEVELS c))) as [(?&?&?)|Hout].
    + apply Hdone, Heq; assumption.
    + rewrite Hslot by assumption. symmetry. apply (target_out_of_range c v m t l Hout).
  - intros v m t l Hb.
    destruct (decide (m < length (c_members c) /\ t < length (c_times c)
                       /\ l < length (c_LEVELS c))) as [(?&?&?)|Hout].
    + apply Htodo. rewrite Heq by assumption. exact Hb.
    + rewrite Hslot by assumption. symmetry. apply (target_out_of_range c v m t l Hout).
  - intros m t l member time level e Hb Hm Ht Hl Hc.
    eapply (Hlog m t l); [|eassumption..].
    apply Heq; [eapply lookup_lt_Some; eassumption..|assumption].
Qed.

(** One step of the innermost loop. *)
Lemma process_slice_inv c fs m member t time l level s :
  c_members c !! m = Some member -> c_times c !! t = Some time ->
  c_LEVELS c !! l = Some level ->
  loop_inv c fs m t l s ->
  exists s', process_slice c m member t time l level s = (ok tt, s')
             /\ loop_inv c fs m t (S l) s'.
Proof.
  intros Hm Ht Hl (Hf & Hdone & Htodo & Hlog).
  assert (Hhere : ~ before_cursor m t l m t l) by (unfold before_cursor; lia).
  assert (Hstep : forall m' t' l', before_cursor m t (S l) m' t' l' <->
            before_cursor m t l m' t' l' \/ (m', t', l') = (m, t, l)).
  { intros m' t' l'. unfold before_cursor. split.
    - intros H. destruct (decide ((m', t', l') = (m, t, l))) as [?|Hne]; [tauto|].
      left. assert (m' <> m \/ t' <> t \/ l' <> l) by
        (destruct (decide (m' = m)), (decide (t' = t)), (decide (l' = l));
         subst; tauto). lia.
    - intros [H|H]; [lia|]. injection H as -> -> ->. lia. }
  destruct (compute_slice c member time level) as [e|fields] eqn:Hc.
  - rewrite (process_slice_raised _ _ _ _ _ _ _ _ _ Hc). eexists. split; [reflexivity|].
    split; [assumption|]. cbn [output_arrays console]. split; [|split].
    + intros v m' t' l' [Hb|Heq]%Hstep; [auto|].
      injection Heq as -> -> ->. rewrite Htodo by assumption.
      unfold target. rewrite Hm, Ht, Hl, Hc.
      eapply target_in_range; eassumption.
    + intros v m' t' l' Hb. apply Htodo. intros Hb'. apply Hb, Hstep. tauto.
    + intros m' t' l' member' time' level' e' [Hb|Heq]%Hstep Hm' Ht' Hl' Hc'.
      * apply elem_of_app. left. eapply Hlog; eassumption.
      * injection Heq as -> -> ->. apply elem_of_app. right.
        assert (member' = member) as -> by congruence.
        assert (time' = time) as -> by congruence.
        assert (level' = level) as -> by congruence.
        assert (e' = e) as -> by congruence.
        apply list_elem_of_singleton. reflexivity.
  - destruct (process_slice_computed c m member t time l level fields s Hc)
      as (s' & Hrun & Harr & Hcon & Hfiles & _).
    exists s'. split; [assumption|].
    split; [congruence|]. split; [|split].
    + intros v m' t' l' [Hb|Heq]%Hstep.
      * rewrite Harr, get_set_slot_ne; [auto|]. intros Heq. apply Hhere.
        injection Heq as <- <- <-. assumption.
      * injection Heq as -> -> ->. rewrite Harr, get_set_slot_eq.
        -- unfold target. rewrite Hm, Ht, Hl, Hc. reflexivity.
        -- rewrite Htodo by assumption.
           erewrite target_in_range by eassumption. eauto.
    + intros v m' t' l' Hb. rewrite Harr, get_set_slot_ne.
      * apply Htodo. intros Hb'. apply Hb, Hstep. tauto.
      * intros Heq. apply Hb, Hstep. right. congruence.
    + intros m' t' l' member' time' level' e' [Hb|Heq]%Hstep Hm' Ht' Hl' Hc'.
      * rewrite Hcon. eapply Hlog; eassumption.
      * injection Heq as -> -> ->. congruence.
Qed.

Lemma levels_loop_inv c fs m member t time s :
  c_members c !! m = Some member -> c_times c !! t = Some time ->
  loop_inv c fs m t 0 s ->
  exists s', levels_loop c m member t time s = (ok tt, s')
             /\ loop_inv c fs m (S t) 0 s'.
Proof.
  intros Hm Ht Hinv. unfold levels_loop.
  destruct (for_enum_ok (fun l s => loop_inv c fs m t l s)
              (fun l_idx level => process_slice c m member t time l_idx level)
              (c_LEVELS c) 0 s Hinv) as (s' & Hrun & Hinv').
  { intros l level s1 Hl Hs1. cbn. apply process_slice_inv; assumption. }
  exists s'. split; [assumption|].
  revert Hinv'. apply loop_inv_cursor. intros m' t' l' _ _ Hl'.
  unfold before_cursor. cbn. lia.
Qed.

Lemma times_loop_inv c fs m member s :
  c_members c !! m = Some member ->
  loop_inv c fs m 0 0 s ->
  exists s', times_loop c m member s = (ok tt, s')
             /\ loop_inv c fs (S m) 0 0 s'.
Proof.
  intros Hm Hinv. unfold times_loop.
  destruct (for_enum_ok (fun t s => loop_inv c fs m t 0 s)
              (fun t_idx time => levels_loop c m member t_idx time)
              (c_times c) 0 s Hinv) as (s' & Hrun & Hinv').
  { intros t time s1 Ht Hs1. cbn. apply levels_loop_inv; assumption. }
  exists s'. split; [assumption|].
  revert Hinv'. apply loop_inv_cursor. intros m' t' l' _ Ht' _.
  unfold before_cursor. cbn. lia.
Qed.

Lemma loop_inv_print c fs m0 t0 l0 ev s :
  loop_inv c fs m0 t0 l0 s ->
  exists s', print ev s = (ok tt, s') /\ loop_inv c fs m0 t0 l0 s'.
Proof.
  intros (Hf & Hdone & Htodo & Hlog). eexists. split; [reflexivity|].
  split; [assumption|]. split; [assumption|]. split; [assumption|].
  intros. cbn. apply elem_of_app. left. eapply Hlog; eassumption.
Qed.

Lemma main_loop_inv c fs s :
  loop_inv c fs 0 0 0 s ->
  exists s', main_loop c s = (ok tt, s')
             /\ loop_inv c fs (length (c_members c)) 0 0 s'.
Proof.
  intros Hinv. unfold main_loop.
  destruct (for_enum_ok (fun m s => loop_inv c fs m 0 0 s)
              (fun m_idx member =>
                 (print (ProcessingMember member (m_idx + 1)) ;;
                  times_loop c m_idx member)%M)
              (c_members c) 0 s Hinv) as (s' & Hrun & Hinv'); [|eauto].
  intros m member s1 Hm Hs1. cbn [Nat.add].
  destruct (loop_inv_print c fs m 0 0 (ProcessingMember member (m + 1)) s1 Hs1)
    as (s2 & Hp & Hs2).
  rewrite (bind_ok _ _ _ _ _ Hp). apply times_loop_inv; assumption.
Qed.

Lemma loop_inv_allocate c s :
  exists s', allocate c s = (ok tt, s') /\ loop_inv c (files s) 0 0 0 s'
             /\ current_iteration s' = 0 /\ console s' = console s
             /\ (forall v, output_arrays s' v = allocated c).
Proof.
  eexists. split; [reflexivity|]. cbn. split; [|auto].
  split; [reflexivity|]. unfold before_cursor.
  split; [intros; lia|]. split; [reflexivity|]. intros; lia.
Qed.

End TripleLoop.

(* ===================================================================== *)
(** * calc_WRF_ThetaE_Analysis.py: the claims                             *)
(* ===================================================================== *)

Section ThetaEClaims.
Import ThetaE ThetaESpec ThetaEExamples.

(** C1 (as amended). The six arrays are allocated filled with NaN.  After
    the triple loop, for every (member, time, level) combination and each
    of the six arrays: when the computation of the combination returned,
    the slot holds the computed field converted to float32, cell by cell,
    so that a cell of the slot is NaN exactly where the computed cell is
    NaN; when it raised, the slot is still all NaN and the failure is on
    the console.  The loop itself never raises. *)
Theorem slots_after_processing (c : context) (s : state) (v : var_name)
    (m_idx : nat) (member : Z) (t_idx : nat) (time : Z) (l_idx : nat) (level : Z) :
  c_members c !! m_idx = Some member ->
  c_times c !! t_idx = Some time ->
  c_LEVELS c !! l_idx = Some level ->
  exists s0 s',
    allocate c s = (ok tt, s0)
    /\ (forall v', output_arrays s0 v'
                   = np_full (length (c_members c)) (length (c_times c))
                             (length (c_LEVELS c)) (c_ny c) (c_nx c))
    /\ main_loop c s0 = (ok tt, s')
    /\ match compute_slice c member time level with
       | inr fields =>
           exists slot,
             get_slot (output_arrays s' v) m_idx t_idx l_idx = Some slot
             /\ length slot = length (fields v)
             /\ forall i j a,
                  cell_at (fields v) i j = Some a ->
                  cell_at slot i j = Some (float32 a)
                  /\ (float32 a = NaN <-> a = NaN)
       | inl e =>
           get_slot (output_arrays s' v) m_idx t_idx l_idx
           = Some (nan_grid (c_ny c) (c_nx c))
           /\ ErrorProcessing member (t_idx + 1) level e ∈ console s'
       end.
Proof.
  intros Hm Ht Hl.
  destruct (loop_inv_allocate c s) as (s0 & Ha & Hinv & _ & _ & Harr).
  destruct (main_loop_inv c (files s) s0 Hinv) as (s' & Hrun & _ & Hdone & _ & Hlog).
  exists s0, s'. split; [assumption|]. split; [exact Harr|]. split; [assumption|].
  assert (Hb : before_cursor (length (c_members c)) 0 0 m_idx t_idx l_idx).
  { left. eapply lookup_lt_Some, Hm. }
  specialize (Hdone v _ _ _ Hb). unfold target in Hdone.
  rewrite Hm, Ht, Hl in Hdone.
  destruct (compute_slice c member time level) as [e|fields] eqn:Hc.
  - split; [assumption|]. eapply Hlog; eassumption.
  - exists (grid_map float32 (fields v)). split; [assumption|].
    split; [apply length_map|]. intros i j a Ha'.
    split; [rewrite cell_at_grid_map, Ha'; reflexivity|apply float32_nan].
Qed.

(** The statement at a field of 300 K on the 850 hPa level. *)
Lemma slots_after_processing_witness :
  exists s0 s',
    allocate (toy_context [850%Z] (Fin 300)) initial_state = (ok tt, s0)
    /\ (forall v', output_arrays s0 v' = np_full 1 1 1 3 3)
    /\ main_loop (toy_context [850%Z] (Fin 300)) s0 = (ok tt, s')
    /\ match compute_slice (toy_context [850%Z] (Fin 300)) 1 0 850 with
       | inr fields =>
           exists slot,
             get_slot (output_arrays s' Eth) 0 0 0 = Some slot
             /\ length slot = length (fields Eth)
             /\ forall i j a,
                  cell_at (fields Eth) i j = Some a ->
                  cell_at slot i j = Some (float32 a)
                  /\ (float32 a = NaN <-> a = NaN)
       | inl e =>
           get_slot (output_arrays s' Eth) 0 0 0 = Some (nan_grid 3 3)
           /\ ErrorProcessing 1 (0 + 1) 850 e ∈ console s'
       end.
Proof.
  exact (slots_after_processing (toy_context [850%Z] (Fin 300)) initial_state Eth
           0 1%Z 0 0%Z 0 850%Z eq_refl eq_refl eq_refl).
Defined.

(** C1, a counterexample to the claim as stated.  On a level where the
    input holds no data (every cell NaN), the computation of the
    combination returns without an exception and nothing is printed but
    the member's progress line; yet all six slots hold the sentinel. *)
Lemma computed_slot_is_the_sentinel :
  exists fields s',
    compute_slice (toy_context [850%Z] NaN) 1 0 850 = inr fields
    /\ (allocate (toy_context [850%Z] NaN) ;; main_loop (toy_context [850%Z] NaN))%M
         initial_state = (ok tt, s')
    /\ console s' = [ProcessingMember 1 1]
    /\ forall v, get_slot (output_arrays s' v) 0 0 0 = Some (nan_grid 3 3).
Proof.
  eexists. eexists. split; [fp_compute; reflexivity|].
  split; [fp_compute; reflexivity|]. split; [reflexivity|].
  intros []; reflexivity.
Qed.


Lemma filter_nothing_missing (LEVELS available : list Z) :
  missing_levels LEVELS available = [] ->
  List.filter (level_in available) LEVELS = LEVELS.
Proof.
  unfold missing_levels. induction LEVELS as [|l LEVELS IH]; [reflexivity|].
  cbn. destruct (level_in available l); cbn; [|discriminate].
  intros H. rewrite IH by assumption. reflexivity.
Qed.

Lemma validate_levels_run (LEVELS available : list Z) (s : state) :
  validate_levels LEVELS available s
  = (ok (List.filter (level_in available) LEVELS),
     State (output_arrays s) (current_iteration s)
           (console s ++ level_warnings LEVELS available) (files s)).
Proof.
  unfold validate_levels, level_warnings.
  destruct (missing_levels LEVELS available) as [|l missing] eqn:Hmiss.
  - rewrite filter_nothing_missing by assumption. rewrite app_nil_r.
    destruct s; reflexivity.
  - unfold bind, print, ret. cbn. rewrite <- app_assoc. reflexivity.
Qed.

(** What a set-up that returns has done. *)
Lemma setup_inv w INPUT_DIR LEVELS s c s' :
  setup w INPUT_DIR LEVELS s = (ok c, s') ->
  exists ds_eth ds_wind dxdy,
    open_dataset w (INPUT_DIR +:+ "/eth.nc") = ok ds_eth
    /\ open_dataset w (INPUT_DIR +:+ "/ua,va.nc") = ok ds_wind
    /\ lat_lon_grid_deltas w (ds_XLONG ds_eth) (ds_XLAT ds_eth) = ok dxdy
    /\ ds_Time ds_eth <> []
    /\ c = Context_ ds_eth ds_wind (ds_XLONG ds_eth) (ds_XLAT ds_eth)
                    (ds_Time ds_eth) (ds_member ds_eth)
                    (List.filter (level_in (ds_interp_level ds_eth)) LEVELS)
                    dxdy.1 dxdy.2 (length (ds_XLAT ds_eth))
                    (from_option length 0 (head (ds_XLAT ds_eth)))
    /\ s' = State (output_arrays s) (current_iteration s)
                  (console s ++ level_warnings LEVELS (ds_interp_level ds_eth))
                  (files s).
Proof.
  unfold setup, bind, lift. 
  destruct (open_dataset w (INPUT_DIR +:+ "/eth.nc")) as [e|ds_eth]; [discriminate|].
  destruct (open_dataset w (INPUT_DIR +:+ "/ua,va.nc")) as [e|ds_wind]; [discriminate|].
  rewrite validate_levels_run.
  destruct (ds_Time ds_eth) as [|t0 times] eqn:Htimes; [discriminate|].
  cbn. destruct (lat_lon_grid_deltas w _ _) as [e|dxdy] eqn:Hd; [discriminate|].
  cbn. intros [= <- <-]. exists ds_eth, ds_wind, dxdy.
  rewrite Htimes. repeat split; try reflexivity; [exact Hd|discriminate].
Qed.

Lemma setup_run w INPUT_DIR LEVELS s ds_eth ds_wind dxdy :
  open_dataset w (INPUT_DIR +:+ "/eth.nc") = ok ds_eth ->
  open_dataset w (INPUT_DIR +:+ "/ua,va.nc") = ok ds_wind ->
  lat_lon_grid_deltas w (ds_XLONG ds_eth) (ds_XLAT ds_eth) = ok dxdy ->
  ds_Time ds_eth <> [] ->
  setup w INPUT_DIR LEVELS s
  = (ok (Context_ ds_eth ds_wind (ds_XLONG ds_eth) (ds_XLAT ds_eth)
                  (ds_Time ds_eth) (ds_member ds_eth)
                  (List.filter (level_in (ds_interp_level ds_eth)) LEVELS)
                  dxdy.1 dxdy.2 (length (ds_XLAT ds_eth))
                  (from_option length 0 (head (ds_XLAT ds_eth)))),
     State (output_arrays s) (current_iteration s)
           (console s ++ level_warnings LEVELS (ds_interp_level ds_eth))
           (files s)).
Proof.
  intros He Hw Hd Ht. unfold setup, bind, lift.
  rewrite He, Hw. cbv beta iota delta [ok].
  rewrite validate_levels_run. cbv beta iota delta [ok].
  destruct (ds_Time ds_eth) as [|t0 times] eqn:Htimes; [congruence|].
  cbv beta iota delta [ok ret]. rewrite Hd. reflexivity.
Qed.

(** The statistics only print. *)
Lemma report_statistics_run s :
  exists s', report_statistics s = (ok tt, s')
    /\ output_arrays s' = output_arrays s
    /\ current_iteration s' = current_iteration s
    /\ files s' = files s.
Proof.
  unfold report_statistics, get_arrays. unfold bind at 1.
  destruct (for_each_ok
              (fun s' => output_arrays s' = output_arrays s
                         /\ current_iteration s' = current_iteration s
                         /\ files s' = files s)
              (fun var_name =>
                 match valid_values (flatten (output_arrays s var_name)) with
                 | [] => print (NoValidData var_name)
                 | x :: xs =>
                     print (ValidRange var_name (foldr fp_min x xs) (foldr fp_max x xs)
                              (length (x :: xs))
                              (length (flatten (output_arrays s var_name))))
                 end)
              all_vars s) as (s' & Hrun & Hs'); [auto| |eauto].
  intros v s1 _ Hs1. destruct (valid_values _); eexists; (split; [reflexivity|exact Hs1]).
Qed.

(** Everything before the [try]: what a run that gets there has done. *)
Lemma before_write_inv w INPUT_DIR LEVELS s c s' :
  before_write w INPUT_DIR LEVELS s = (ok c, s') ->
  exists ds_eth s0,
    open_dataset w (INPUT_DIR +:+ "/eth.nc") = ok ds_eth
    /\ setup w INPUT_DIR LEVELS s = (ok c, s0)
    /\ c_LEVELS c = List.filter (level_in (ds_interp_level ds_eth)) LEVELS
    /\ files s' = files s.
Proof.
  unfold before_write. intros H.
  apply bind_inv_ok in H as (c' & s0 & Hsetup & H).
  apply bind_inv_ok in H as ([] & s1 & Halloc & H).
  apply bind_inv_ok in H as ([] & s2 & Hloop & H).
  apply bind_inv_ok in H as ([] & s3 & Hstat & H).
  injection H as <- <-.
  destruct (setup_inv _ _ _ _ _ _ Hsetup) as (ds_eth & ds_wind & dxdy & He & _ & _ & _ & Hc & Hs0).
  exists ds_eth, s0. split; [assumption|]. split; [assumption|].
  split; [rewrite Hc; reflexivity|].
  destruct (loop_inv_allocate c' s0) as (s1' & Ha & Hinv & _).
  assert (s1' = s1) as -> by congruence.
  destruct (main_loop_inv c' _ s1 Hinv) as (s2' & Hl & Hf2 & _).
  assert (s2' = s2) as -> by congruence.
  destruct (report_statistics_run s2) as (s3' & Hr & _ & _ & Hf3).
  assert (s3' = s3) as -> by congruence.
  rewrite Hf3, Hf2, Hs0. reflexivity.
Qed.

Lemma add_variables_inv w c arrays vars ds s ds' s' :
  add_variables w c arrays vars ds s = (ok ds', s') ->
  ds' = foldl (fun ds v =>
                 with_variable ds v
                   (Variable_ (arrays v) (var_configs v).1 (var_configs v).2
                              (format_levels (c_LEVELS c) +:+ " hPa")))
              ds vars
  /\ files s' = files s /\ output_arrays s' = output_arrays s
  /\ current_iteration s' = current_iteration s.
Proof.
  revert ds s. induction vars as [|v vars IH]; intros ds s H.
  - injection H as <- <-. auto.
  - cbn [add_variables] in H.
    apply bind_inv_ok in H as ([] & s1 & Hcheck & H).
    apply bind_inv_ok in H as ([] & s2 & Hprint & H).
    apply IH in H as (-> & Hf & Ha & Hi).
    unfold check in Hcheck. destruct (xr_validate w _); [discriminate|].
    injection Hcheck as <-. injection Hprint as <-.
    cbn in *. auto.
Qed.

Lemma add_variables_run w c arrays vars ds s :
  (forall ds, xr_validate w ds = None) ->
  exists s',
    add_variables w c arrays vars ds s
    = (ok (foldl (fun ds v =>
                    with_variable ds v
                      (Variable_ (arrays v) (var_configs v).1 (var_configs v).2
                                 (format_levels (c_LEVELS c) +:+ " hPa")))
                 ds vars), s')
    /\ files s' = files s /\ output_arrays s' = output_arrays s
    /\ current_iteration s' = current_iteration s.
Proof.
  intros Hv. revert ds s. induction vars as [|v vars IH]; intros ds s.
  - exists s. auto.
  - cbn [add_variables foldl]. unfold bind at 1, check. rewrite Hv.
    cbn [ret]. unfold bind at 1, print.
    edestruct IH as (s' & -> & Hf & Ha & Hi). exists s'. cbn in *. auto.
Qed.

(** A [try] body that returns has written the assembled dataset. *)
Lemma write_output_body_inv w INPUT_DIR OUTPUT_FILE c s s' :
  write_output_body w INPUT_DIR OUTPUT_FILE c s = (ok tt, s') ->
  files s' = <[OUTPUT_FILE := assembled w INPUT_DIR c (output_arrays s)]> (files s)
  /\ current_iteration s' = current_iteration s.
Proof.
  unfold write_output_body. intros H.
  apply bind_inv_ok in H as ([] & s1 & Hcheck & H).
  apply bind_inv_ok in H as (arrays & s2 & Hget & H).
  apply bind_inv_ok in H as (ds & s3 & Hadd & H).
  apply bind_inv_ok in H as ([] & s4 & Hprint & H).
  apply bind_inv_ok in H as ([] & s5 & Hwrite & H).
  apply bind_inv_ok in H as (n & s6 & Hsize & H).
  unfold check in Hcheck. destruct (xr_validate w _); [discriminate|].
  injection Hcheck as <-. injection Hget as <- <-.
  apply add_variables_inv in Hadd as (-> & Hf3 & Ha3 & Hi3).
  injection Hprint as <-.
  unfold write_file in Hwrite. destruct (to_netcdf w _ _); [discriminate|].
  injection Hwrite as <-.
  unfold lift in Hsize. injection Hsize as _ <-.
  injection H as <-. cbn. rewrite Hf3, Hi3. auto.
Qed.

Lemma write_output_inv w INPUT_DIR OUTPUT_FILE c s s' :
  write_output w INPUT_DIR OUTPUT_FILE c s = (ok tt, s') ->
  files s' = <[OUTPUT_FILE := assembled w INPUT_DIR c (output_arrays s)]> (files s)
  /\ current_iteration s' = current_iteration s.
Proof.
  unfold write_output, try_except.
  destruct (write_output_body w INPUT_DIR OUTPUT_FILE c s) as [[e|[]] s1] eqn:Hbody.
  - discriminate.
  - intros [= <-]. eapply write_output_body_inv, Hbody.
Qed.

Lemma write_output_run w INPUT_DIR OUTPUT_FILE c s n :
  (forall ds, xr_validate w ds = None) ->
  (forall ds, to_netcdf w OUTPUT_FILE ds = None) ->
  getsize w OUTPUT_FILE = ok n ->
  exists s', write_output w INPUT_DIR OUTPUT_FILE c s = (ok tt, s')
    /\ files s' = <[OUTPUT_FILE := assembled w INPUT_DIR c (output_arrays s)]> (files s)
    /\ current_iteration s' = current_iteration s.
Proof.
  intros Hv Hw Hg.
  assert (exists s', write_output w INPUT_DIR OUTPUT_FILE c s = (ok tt, s')) as [s' Hs'].
  { unfold write_output, try_except, write_output_body.
    set (ds0 := OutputDataset (c_members c) (c_times c) (c_LEVELS c) (c_lats c)
                              (c_lons c) [] None None None None None).
    assert (Hcheck : check (xr_validate w ds0) s = (ok tt, s))
      by (unfold check; rewrite Hv; reflexivity).
    destruct (add_variables_run w c (output_arrays s) all_vars ds0 s Hv)
      as (s1 & Hadd & _).
    rewrite (bind_ok _ _ _ _ _ Hcheck).
    rewrite (bind_ok get_arrays _ s (output_arrays s) s eq_refl).
    rewrite (bind_ok _ _ _ _ _ Hadd).
    unfold bind at 1, print. unfold bind at 1, write_file. rewrite Hw.
    unfold bind at 1, lift. rewrite Hg. eauto. }
  exists s'. split; [assumption|]. eapply write_output_inv, Hs'.
Qed.

(** In a world whose files open and whose grid spacing is computed, on
    an input with a time step, the function reaches the final [try]. *)
Lemma before_write_run w INPUT_DIR LEVELS s ds_eth ds_wind dxdy :
  open_dataset w (INPUT_DIR +:+ "/eth.nc") = ok ds_eth ->
  open_dataset w (INPUT_DIR +:+ "/ua,va.nc") = ok ds_wind ->
  lat_lon_grid_deltas w (ds_XLONG ds_eth) (ds_XLAT ds_eth) = ok dxdy ->
  ds_Time ds_eth <> [] ->
  exists c s1, before_write w INPUT_DIR LEVELS s = (ok c, s1)
               /\ c_ds_eth c = ds_eth /\ files s1 = files s.
Proof.
  intros He Hw Hd Ht.
  pose proof (setup_run w INPUT_DIR LEVELS s ds_eth ds_wind dxdy He Hw Hd Ht) as Hsetup.
  set (c := Context_ _ _ _ _ _ _ _ _ _ _ _) in Hsetup.
  set (s0 := State _ _ _ _) in Hsetup.
  destruct (loop_inv_allocate c s0) as (s1 & Ha & Hinv & _).
  destruct (main_loop_inv c _ s1 Hinv) as (s2 & Hl & Hf2 & _).
  destruct (report_statistics_run s2) as (s3 & Hr & _ & _ & Hf3).
  exists c, s3. split; [|split; [reflexivity|rewrite Hf3, Hf2; reflexivity]].
  unfold before_write.
  rewrite (bind_ok _ _ _ _ _ Hsetup), (bind_ok _ _ _ _ _ Ha),
    (bind_ok _ _ _ _ _ Hl), (bind_ok _ _ _ _ _ Hr). reflexivity.
Qed.

(** If moreover the dataset is accepted and written, the function returns. *)
Lemma process_returns w INPUT_DIR OUTPUT_FILE LEVELS s ds_eth ds_wind dxdy n :
  open_dataset w (INPUT_DIR +:+ "/eth.nc") = ok ds_eth ->
  open_dataset w (INPUT_DIR +:+ "/ua,va.nc") = ok ds_wind ->
  lat_lon_grid_deltas w (ds_XLONG ds_eth) (ds_XLAT ds_eth) = ok dxdy ->
  ds_Time ds_eth <> [] ->
  (forall ds, xr_validate w ds = None) ->
  (forall ds, to_netcdf w OUTPUT_FILE ds = None) ->
  getsize w OUTPUT_FILE = ok n ->
  exists s', process_multiple_levels_iterative w INPUT_DIR OUTPUT_FILE LEVELS s
             = (ok tt, s').
Proof.
  intros He Hw Hd Ht Hv Hnc Hg.
  destruct (before_write_run w INPUT_DIR LEVELS s ds_eth ds_wind dxdy He Hw Hd Ht)
    as (c & s1 & Hbefore & _).
  destruct (write_output_run w INPUT_DIR OUTPUT_FILE c s1 n Hv Hnc Hg) as (s' & Hwr & _).
  exists s'. unfold process_multiple_levels_iterative.
  rewrite (bind_ok _ _ _ _ _ Hbefore). exact Hwr.
Qed.

(** A write that fails makes the body of the [try] raise. *)
Lemma write_output_body_raises w INPUT_DIR OUTPUT_FILE c s e :
  (forall ds, xr_validate w ds = None) ->
  (forall ds, to_netcdf w OUTPUT_FILE ds = Some e) ->
  exists s2, write_output_body w INPUT_DIR OUTPUT_FILE c s = (inl e, s2).
Proof.
  intros Hv Hw. unfold write_output_body.
  set (ds0 := OutputDataset (c_members c) (c_times c) (c_LEVELS c) (c_lats c)
                            (c_lons c) [] None None None None None).
  assert (Hcheck : check (xr_validate w ds0) s = (ok tt, s))
    by (unfold check; rewrite Hv; reflexivity).
  destruct (add_variables_run w c (output_arrays s) all_vars ds0 s Hv)
    as (s1 & Hadd & _).
  rewrite (bind_ok _ _ _ _ _ Hcheck).
  rewrite (bind_ok get_arrays _ s (output_arrays s) s eq_refl).
  rewrite (bind_ok _ _ _ _ _ Hadd).
  unfold bind at 1, print. unfold bind at 1, write_file. rewrite Hw. eauto.
Qed.

(** C2. For every requested list and every set of available levels, the
    levels processed are the requested levels present in the input, in
    the requested order; absent levels cost a warning, never an
    exception.  A run that returns has written a file whose [level]
    coordinate is that list.  With levels [875, 850] in the input and
    [875, 850, 825] requested, [875, 850] is processed, one warning names
    825, and a written file has the coordinate [875, 850]. *)
Theorem processed_levels :
  (forall LEVELS available s,
     exists s',
       validate_levels LEVELS available s
       = (ok (List.filter (level_in available) LEVELS), s')
       /\ console s' = console s ++ level_warnings LEVELS available)
  /\ (forall w INPUT_DIR LEVELS s c s',
        setup w INPUT_DIR LEVELS s = (ok c, s') ->
        c_LEVELS c
        = List.filter (level_in (ds_interp_level (c_ds_eth c))) LEVELS)
  /\ (forall w INPUT_DIR OUTPUT_FILE LEVELS s s' ds_eth,
        open_dataset w (INPUT_DIR +:+ "/eth.nc") = ok ds_eth ->
        process_multiple_levels_iterative w INPUT_DIR OUTPUT_FILE LEVELS s = (ok tt, s') ->
        exists ds, files s' !! OUTPUT_FILE = Some ds
                   /\ coord_level ds
                      = List.filter (level_in (ds_interp_level ds_eth)) LEVELS)
  /\ List.filter (level_in [875; 850]%Z) [875; 850; 825]%Z = [875; 850]%Z
  /\ level_warnings [875; 850; 825]%Z [875; 850]%Z
     = [WarningMissingLevels [825%Z]; ProcessingAvailableLevels [875; 850]%Z].
Proof.
  split; [|split; [|split; [|split; reflexivity]]].
  - intros LEVELS available s. rewrite validate_levels_run. eexists.
    split; reflexivity.
  - intros w INPUT_DIR LEVELS s c s' H.
    apply setup_inv in H as (ds_eth & ds_wind & dxdy & _ & _ & _ & _ & -> & _).
    reflexivity.
  - intros w INPUT_DIR OUTPUT_FILE LEVELS s s' ds_eth Hopen H.
    unfold process_multiple_levels_iterative in H.
    apply bind_inv_ok in H as (c & s1 & Hbefore & Hwrite).
    apply before_write_inv in Hbefore as (ds_eth' & s0 & Hopen' & _ & HL & _).
    rewrite Hopen in Hopen'. injection Hopen' as <-.
    apply write_output_inv in Hwrite as [Hf _].
    eexists. rewrite Hf, lookup_insert_eq. split; [reflexivity|].
    exact HL.
Qed.

(** The end-to-end case of C2 on a concrete run. *)
Lemma processed_levels_witness :
  exists s' ds,
    process_multiple_levels_iterative (toy_world [875; 850]%Z (Fin 300) None)
      "./extract_wrf_to_nc" "./output/theta_e/WRF/the_gra.nc"
      [875; 850; 825]%Z initial_state = (ok tt, s')
    /\ files s' !! "./output/theta_e/WRF/the_gra.nc" = Some ds
    /\ coord_level ds = List.filter (level_in [875; 850]%Z) [875; 850; 825]%Z.
Proof.
  destruct (process_returns (toy_world [875; 850]%Z (Fin 300) None)
              "./extract_wrf_to_nc" "./output/theta_e/WRF/the_gra.nc"
              [875; 850; 825]%Z initial_state
              (toy_dataset [875; 850]%Z (Fin 300)) (toy_dataset [875; 850]%Z (Fin 300))
              (const_grid 3 2 (Fin 1), const_grid 2 3 (Fin 1)) 1024%Z
              eq_refl eq_refl eq_refl ltac:(discriminate)
              (fun _ => eq_refl) (fun _ => eq_refl) eq_refl) as [s' Hrun].
  destruct (proj1 (proj2 (proj2 processed_levels))
              (toy_world [875; 850]%Z (Fin 300) None)
              "./extract_wrf_to_nc" "./output/theta_e/WRF/the_gra.nc"
              [875; 850; 825]%Z initial_state s' (toy_dataset [875; 850]%Z (Fin 300))
              eq_refl Hrun) as (ds & Hfile & Hlevel).
  exists s', ds. auto.
Defined.

(** C9. When the body of the final [try] raises, be it while the dataset
    is assembled, while it is written or right after, the function
    prints the error and raises the same exception: no handler swallows
    it.  The script then ends with exit status 1 and without its closing
    message. *)
Theorem write_failure_reraised (w : world) (INPUT_DIR OUTPUT_FILE : string)
    (LEVELS : list Z) (level : option (list Z)) (s s1 s2 : state)
    (c : context) (e : exn) :
  before_write w INPUT_DIR LEVELS s = (ok c, s1) ->
  write_output_body w INPUT_DIR OUTPUT_FILE c s1 = (inl e, s2) ->
  let s' := State (output_arrays s2) (current_iteration s2)
                  (console s2 ++ [ErrorWritingOutput e]) (files s2) in
  process_multiple_levels_iterative w INPUT_DIR OUTPUT_FILE LEVELS s = (inl e, s')
  /\ (makedirs w "./output/theta_e/WRF" = None ->
      INPUT_DIR = "./extract_wrf_to_nc" ->
      OUTPUT_FILE = "./output/theta_e/WRF/the_gra.nc" ->
      LEVELS = default default_level level ->
      main w level s = (inl e, s') /\ exit_status (main w level s) = 1%Z).
Proof.
  intros Hbefore Hbody s'.
  assert (Hrun : process_multiple_levels_iterative w INPUT_DIR OUTPUT_FILE LEVELS s
                 = (inl e, s')).
  { unfold process_multiple_levels_iterative.
    rewrite (bind_ok _ _ _ _ _ Hbefore).
    unfold write_output, try_except. rewrite Hbody. reflexivity. }
  split; [exact Hrun|].
  intros Hdirs -> -> ->.
  assert (Hmain : main w level s = (inl e, s')).
  { unfold main. unfold bind at 1, check. rewrite Hdirs. cbn [ret].
    apply bind_raise. exact Hrun. }
  split; [exact Hmain|]. unfold exit_status. rewrite Hmain. reflexivity.
Qed.

(** A run whose disk is full when the file is written. *)
Lemma write_failure_reraised_witness :
  exit_status (main (toy_world [875; 850]%Z (Fin 300)
                       (Some (Exn OSError "No space left on device")))
                    None initial_state) = 1%Z.
Proof.
  set (w := toy_world [875; 850]%Z (Fin 300)
              (Some (Exn OSError "No space left on device"))).
  destruct (before_write_run w "./extract_wrf_to_nc" default_level initial_state
              (toy_dataset [875; 850]%Z (Fin 300)) (toy_dataset [875; 850]%Z (Fin 300))
              (const_grid 3 2 (Fin 1), const_grid 2 3 (Fin 1))
              eq_refl eq_refl eq_refl ltac:(discriminate))
    as (c & s1 & Hbefore & _).
  destruct (write_output_body_raises w "./extract_wrf_to_nc"
              "./output/theta_e/WRF/the_gra.nc" c s1
              (Exn OSError "No space left on device")
              (fun _ => eq_refl) (fun _ => eq_refl)) as (s2 & Hbody).
  exact (proj2 (proj2 (write_failure_reraised w "./extract_wrf_to_nc"
                         "./output/theta_e/WRF/the_gra.nc" default_level None
                         initial_state s1 s2 c _ Hbefore Hbody)
                  eq_refl eq_refl eq_refl eq_refl)).
Defined.

(** With no level to process the triple loop stores and counts nothing. *)
Lemma main_loop_no_levels c s :
  c_LEVELS c = [] ->
  exists s', main_loop c s = (ok tt, s')
    /\ output_arrays s' = output_arrays s
    /\ current_iteration s' = current_iteration s
    /\ files s' = files s.
Proof.
  intros Hnone. unfold main_loop.
  destruct (for_enum_ok
              (fun _ s' => output_arrays s' = output_arrays s
                           /\ current_iteration s' = current_iteration s
                           /\ files s' = files s)
              (fun m_idx member =>
                 (print (ProcessingMember member (m_idx + 1)) ;;
                  times_loop c m_idx member)%M)
              (c_members c) 0 s) as (s' & Hrun & Hs'); [auto| |eauto].
  intros m member s1 _ Hs1. cbn [Nat.add].
  unfold bind at 1, print. unfold times_loop.
  apply (for_enum_ok (fun _ s' => output_arrays s' = output_arrays s
                                  /\ current_iteration s' = current_iteration s
                                  /\ files s' = files s)); [exact Hs1|].
  intros t time s2 _ Hs2. unfold levels_loop. rewrite Hnone.
  exists s2. split; [reflexivity|exact Hs2].
Qed.

(** C10 (as amended). When no requested level is in the input, and the
    input opens, has at least one time step, yields its grid spacing, and
    the dataset is accepted and written by the library, the function does
    not raise: the body of the triple loop never runs, and the file
    written has an empty [level] coordinate and six variables whose level
    dimension has size zero. *)
Theorem no_requested_level_present (w : world) (INPUT_DIR OUTPUT_FILE : string)
    (LEVELS : list Z) (s : state) (ds_eth ds_wind : dataset)
    (dxdy : grid * grid) (n : Z) :
  open_dataset w (INPUT_DIR +:+ "/eth.nc") = ok ds_eth ->
  open_dataset w (INPUT_DIR +:+ "/ua,va.nc") = ok ds_wind ->
  lat_lon_grid_deltas w (ds_XLONG ds_eth) (ds_XLAT ds_eth) = ok dxdy ->
  ds_Time ds_eth <> [] ->
  (forall ds, xr_validate w ds = None) ->
  (forall ds, to_netcdf w OUTPUT_FILE ds = None) ->
  getsize w OUTPUT_FILE = ok n ->
  (forall level, level ∈ LEVELS -> level_in (ds_interp_level ds_eth) level = false) ->
  exists s' ds,
    process_multiple_levels_iterative w INPUT_DIR OUTPUT_FILE LEVELS s = (ok tt, s')
    /\ current_iteration s' = 0
    /\ files s' !! OUTPUT_FILE = Some ds
    /\ coord_level ds = []
    /\ List.map fst (data_vars ds) = all_vars
    /\ Forall (fun vx : var_name * variable =>
                 v_data vx.2
                 = replicate (length (ds_member ds_eth))
                             (replicate (length (ds_Time ds_eth)) []))
              (data_vars ds).
Proof.
  intros He Hw Hd Ht Hv Hnc Hg Hnone.
  assert (HL : List.filter (level_in (ds_interp_level ds_eth)) LEVELS = []).
  { clear -Hnone. induction LEVELS as [|l LEVELS IH]; [reflexivity|].
    cbn. rewrite Hnone by left. apply IH. intros l' Hl'. apply Hnone. right.
    exact Hl'. }
  pose proof (setup_run w INPUT_DIR LEVELS s ds_eth ds_wind dxdy He Hw Hd Ht) as Hsetup.
  rewrite HL in Hsetup.
  set (c := Context_ ds_eth ds_wind (ds_XLONG ds_eth) (ds_XLAT ds_eth)
                     (ds_Time ds_eth) (ds_member ds_eth) [] dxdy.1 dxdy.2
                     (length (ds_XLAT ds_eth))
                     (from_option length 0 (head (ds_XLAT ds_eth)))) in *.
  set (s0 := State _ _ _ _) in Hsetup.
  destruct (loop_inv_allocate c s0) as (s1 & Ha & _ & Hi1 & _ & Harr1).
  destruct (main_loop_no_levels c s1 eq_refl) as (s2 & Hl & Harr2 & Hi2 & _).
  destruct (report_statistics_run s2) as (s3 & Hr & Harr3 & Hi3 & _).
  destruct (write_output_run w INPUT_DIR OUTPUT_FILE c s3 n Hv Hnc Hg)
    as (s' & Hwr & Hf & Hi).
  exists s', (assembled w INPUT_DIR c (output_arrays s3)).
  split.
  { assert (Hbefore : before_write w INPUT_DIR LEVELS s = (ok c, s3)).
    { unfold before_write.
      rewrite (bind_ok _ _ _ _ _ Hsetup), (bind_ok _ _ _ _ _ Ha),
        (bind_ok _ _ _ _ _ Hl), (bind_ok _ _ _ _ _ Hr). reflexivity. }
    unfold process_multiple_levels_iterative.
    rewrite (bind_ok _ _ _ _ _ Hbefore). exact Hwr. }
  split; [congruence|]. split; [rewrite Hf; apply lookup_insert_eq|].
  split; [reflexivity|]. split; [reflexivity|].
  rewrite Harr3, Harr2. unfold assembled. cbn.
  repeat constructor; cbn; rewrite Harr1; reflexivity.
Qed.

(** Levels [875, 850, 825] requested of an input that holds 1000 hPa only. *)
Lemma no_requested_level_present_witness :
  exists s' ds,
    process_multiple_levels_iterative (toy_world [1000%Z] (Fin 300) None)
      "./extract_wrf_to_nc" "./output/theta_e/WRF/the_gra.nc"
      [875; 850; 825]%Z initial_state = (ok tt, s')
    /\ current_iteration s' = 0
    /\ files s' !! "./output/theta_e/WRF/the_gra.nc" = Some ds
    /\ coord_level ds = []
    /\ List.map fst (data_vars ds) = all_vars
    /\ Forall (fun vx : var_name * variable => v_data vx.2 = replicate 1 (replicate 1 []))
              (data_vars ds).
Proof.
  refine (no_requested_level_present (toy_world [1000%Z] (Fin 300) None)
            "./extract_wrf_to_nc" "./output/theta_e/WRF/the_gra.nc"
            [875; 850; 825]%Z initial_state
            (toy_dataset [1000%Z] (Fin 300)) (toy_dataset [1000%Z] (Fin 300))
            (const_grid 3 2 (Fin 1), const_grid 2 3 (Fin 1)) 1024%Z
            eq_refl eq_refl eq_refl _ (fun _ => eq_refl) (fun _ => eq_refl) eq_refl _).
  - discriminate.
  - intros level Hl.
    repeat (apply elem_of_cons in Hl as [->|Hl]; [reflexivity|]).
    apply elem_of_nil in Hl. destruct Hl.
Defined.

(** C10, a counterexample to the claim as stated.  The input holds the
    level 850 hPa and no time step; 875 hPa is requested.  No requested
    level is present, and the function raises: after the warning about
    the missing level, line 70 indexes [times[0]] of an empty time
    coordinate.  Nothing is written. *)
Lemma no_level_and_no_time_step_raises :
  (forall level, level ∈ [875%Z] ->
     level_in (ds_interp_level MoreExamples.timeless_dataset) level = false)
  /\ process_multiple_levels_iterative MoreExamples.timeless_world
       "./extract_wrf_to_nc" "./output/theta_e/WRF/the_gra.nc" [875%Z] initial_state
     = (inl (Exn IndexError "index 0 is out of bounds for axis 0 with size 0"),
        State (output_arrays initial_state) 0
              [WarningMissingLevels [875%Z]; ProcessingAvailableLevels []] ∅).
Proof.
  split.
  - intros level Hl. apply elem_of_cons in Hl as [->|Hl]; [reflexivity|].
    apply elem_of_nil in Hl. destruct Hl.
  - reflexivity.
Qed.

End ThetaEClaims.

(* ===================================================================== *)
(** * ana_duration_hours.py: the claims                                   *)
(* ===================================================================== *)

Section DurationClaims.
Import Duration DurationSpec.

Lemma count_value_total v counts :
  total_count (count_value v counts) = S (total_count counts).
Proof.
  unfold total_count. induction counts as [|[k c] rest IH]; [reflexivity|].
  cbn [count_value]. destruct (v ?= k)%Q; simpl in *.
  - reflexivity.
  - lia.
  - rewrite IH. lia.
Qed.

Lemma value_counts_total (column : list (option Q)) :
  total_count (value_counts_sorted column) = length (omap (fun cell : option Q => cell) column).
Proof.
  unfold value_counts_sorted.
  assert (H : forall acc,
    total_count (foldl (fun counts cell =>
                          match cell with
                          | Some v => count_value v counts
                          | None => counts
                          end) acc column)
    = total_count acc + length (omap (fun cell : option Q => cell) column)).
  { induction column as [|[v|] column IH]; intros acc.
    - cbn [foldl].
      change (omap (fun cell : option Q => cell) []) with (@nil Q).
      cbn [length]. lia.
    - cbn [foldl]. rewrite IH, count_value_total.
      change (omap (fun cell : option Q => cell) (Some v :: column))
        with (v :: omap (fun cell : option Q => cell) column).
      cbn [length]. lia.
    - cbn [foldl]. rewrite IH. reflexivity. }
  rewrite H. reflexivity.
Qed.

Lemma percentage_sum (n : nat) (counts : list (Q * nat)) :
  (foldr Qplus 0 (List.map (fun entry : Q * nat => percentage entry.2 n) counts)
   == percentage (total_count counts) n)%Q.
Proof.
  unfold total_count. induction counts as [|[k c] rest IH]; simpl.
  - unfold percentage. cbn. reflexivity.
  - rewrite IH. unfold percentage.
    rewrite Nat2Z.inj_add, inject_Z_plus. unfold Qdiv. ring.
Qed.

Lemma Qeq_bool_congr (v u k : Q) : (u == k)%Q -> Qeq_bool v u = Qeq_bool v k.
Proof.
  intros Huk. destruct (Qeq_bool v k) eqn:Hvk.
  - apply Qeq_bool_iff. apply Qeq_bool_iff in Hvk. rewrite Huk. exact Hvk.
  - destruct (Qeq_bool v u) eqn:Hvu; [|reflexivity].
    apply Qeq_bool_iff in Hvu. rewrite Huk in Hvu.
    apply Qeq_bool_iff in Hvu. congruence.
Qed.

Lemma count_of_count_value (v u : Q) (counts : list (Q * nat)) :
  count_of v (count_value u counts)
  = count_of v counts + (if Qeq_bool v u then 1 else 0).
Proof.
  unfold count_of. induction counts as [|[k c] rest IH].
  - simpl. destruct (Qeq_bool v u); reflexivity.
  - cbn [count_value]. destruct (u ?= k)%Q eqn:Hcmp; simpl in *.
    + apply Qeq_alt in Hcmp. rewrite (Qeq_bool_congr v u k Hcmp).
      destruct (Qeq_bool v k); lia.
    + destruct (Qeq_bool v u), (Qeq_bool v k); lia.
    + rewrite IH. destruct (Qeq_bool v u), (Qeq_bool v k); lia.
Qed.

Lemma count_of_value_counts (v : Q) (column : list (option Q)) :
  count_of v (value_counts_sorted column)
  = length (List.filter (fun cell : option Q =>
                           match cell with
                           | Some u => Qeq_bool v u
                           | None => false
                           end) column).
Proof.
  unfold value_counts_sorted.
  assert (H : forall acc,
    count_of v (foldl (fun counts cell =>
                         match cell with
                         | Some v => count_value v counts
                         | None => counts
                         end) acc column)
    = count_of v acc
      + length (List.filter (fun cell : option Q =>
                               match cell with
                               | Some u => Qeq_bool v u
                               | None => false
                               end) column)).
  { induction column as [|[u|] column IH]; intros acc; cbn [foldl List.filter].
    - cbn [length]. lia.
    - rewrite IH, count_of_count_value.
      destruct (Qeq_bool v u); cbn [length]; lia.
    - apply IH. }
  rewrite H. reflexivity.
Qed.

(** C4 (as amended). The frequency table groups the rows by exact
    equality of [duration_hours] and leaves out the rows whose duration
    is missing: the count of each value is the number of rows holding
    it, the counts sum to the number of rows with a duration, and the
    percentages, each count over the total row count, sum to that share
    of 100%.  On a table that is not empty and misses no duration the
    counts sum to the row count and the percentages to 100%.  For the
    durations [10, 10, 20, 40] the lines printed are as shown, the count
    right-aligned in two columns and the percentage in five. *)
Theorem frequency_table (df : dataframe) :
  (forall v, count_of v (duration_counts df) = occurrences v df)
  /\ total_count (duration_counts df) = with_duration df
  /\ (total_percentage df == percentage (with_duration df) (length df))%Q
  /\ (with_duration df = length df -> df <> [] ->
      total_count (duration_counts df) = length df
      /\ (total_percentage df == 100)%Q)
  /\ duration_distribution (hours [10; 10; 20; 40]%Z)
     = ["10 hours:  2 cases ( 50.0%)";
        "20 hours:  1 cases ( 25.0%)";
        "40 hours:  1 cases ( 25.0%)"].
Proof.
  assert (Htotal : total_count (duration_counts df) = with_duration df)
    by apply value_counts_total.
  assert (Hpct : (total_percentage df == percentage (with_duration df) (length df))%Q).
  { unfold total_percentage. rewrite percentage_sum, Htotal. reflexivity. }
  split; [intros v; apply count_of_value_counts|].
  split; [exact Htotal|]. split; [exact Hpct|]. split; [|vm_compute; reflexivity].
  intros Hall Hne. split; [congruence|].
  rewrite Hpct, Hall. unfold percentage.
  assert (Hlen : ~ (inject_Z (Z.of_nat (length df)) == 0)%Q).
  { destruct df; [congruence|]. cbn [length]. unfold Qeq. cbn. lia. }
  field. exact Hlen.
Qed.

(** The table of four whole-hour durations. *)
Lemma frequency_table_witness :
  total_count (duration_counts (hours [10; 10; 20; 40]%Z)) = 4
  /\ (total_percentage (hours [10; 10; 20; 40]%Z) == 100)%Q.
Proof.
  exact (proj1 (proj2 (proj2 (proj2 (frequency_table (hours [10; 10; 20; 40]%Z)))))
           eq_refl ltac:(discriminate)).
Defined.

(** C4, a counterexample to the claim as stated.  A table of two rows,
    one of which has no duration: the counts sum to 1, not to the row
    count 2, and the percentages sum to 50%. *)
Lemma counts_skip_missing_durations :
  let df := [Row "2006-06-01" "2006-06-01" (Some 10%Q); Row "2006-06-02" "" None] in
  length df = 2
  /\ total_count (duration_counts df) = 1
  /\ (total_percentage df == 50)%Q.
Proof. vm_compute. auto. Qed.

(** ** The percentages as the floats compute them *)

Lemma round_half_even_close (q : Q) :
  (Qabs (inject_Z (round_half_even q) - q) <= 1 # 2)%Q.
Proof.
  destruct q as [n d]. unfold round_half_even. cbn [Qnum Qden].
  pose proof (Z.div_mod n (Z.pos d) ltac:(lia)) as Hdm.
  pose proof (Z.mod_pos_bound n (Z.pos d) ltac:(lia)) as Hr.
  set (fl := (n / Z.pos d)%Z) in *. set (r := (n mod Z.pos d)%Z) in *.
  apply Qabs_Qle_condition.
  destruct (Z.compare_spec (2 * r) (Z.pos d)) as [He|Hl|Hg];
    [destruct (Z.even fl)| |];
    split; unfold Qle, Qminus, Qplus, Qopp, inject_Z; cbn [Qnum Qden];
    rewrite ?Pos.mul_1_l, ?Pos2Z.inj_mul; nia.
Qed.

(** The binade that [float64_round] finds holds the number. *)
Lemma binade_lower (a : Q) :
  (0 < a)%Q ->
  let e0 := (Z.log2 (Qnum a) - Z.log2 (Z.pos (Qden a)))%Z in
  (2 ^ (if Qle_bool (2 ^ e0) a then e0 else e0 - 1) <= a)%Q.
Proof.
  intros Ha e0. destruct (Qle_bool (2 ^ e0) a) eqn:Hb.
  - apply Qle_bool_iff, Hb.
  - clear Hb. subst e0. destruct a as [n d]. cbn [Qnum Qden].
    assert (Hn : (0 < n)%Z) by (unfold Qlt in Ha; cbn in Ha; lia).
    destruct (Z.log2_spec n Hn) as [Hn1 _].
    destruct (Z.log2_spec (Z.pos d) ltac:(lia)) as [_ Hd2].
    pose proof (Z.log2_nonneg n) as Hln.
    pose proof (Z.log2_nonneg (Z.pos d)) as Hld.
    replace (Z.log2 n - Z.log2 (Z.pos d) - 1)%Z
      with (Z.log2 n - Z.succ (Z.log2 (Z.pos d)))%Z by lia.
    rewrite Qpower_minus by discriminate.
    change 2%Q with (inject_Z 2).
    rewrite <- !Zpower_Qpower by lia.
    set (p := (2 ^ Z.log2 n)%Z) in *.
    set (p' := (2 ^ Z.succ (Z.log2 (Z.pos d)))%Z) in *.
    apply Qle_shift_div_r.
    + unfold Qlt, inject_Z. cbn. lia.
    + unfold Qle, Qmult, inject_Z. cbn [Qnum Qden].
      rewrite ?Pos.mul_1_r, ?Z.mul_1_r. nia.
Qed.

Lemma float64_round_close (q : Q) :
  (Qabs (float64_round q - q) <= Qabs q * 2 ^ (-53))%Q.
Proof.
  unfold float64_round.
  destruct (Qeq_bool q 0) eqn:Hz.
  - apply Qeq_bool_iff in Hz. rewrite Hz. discriminate.
  - assert (Hne : ~ (q == 0)%Q) by (intros H; apply Qeq_bool_iff in H; congruence).
    assert (Ha : (0 < Qabs q)%Q).
    { destruct (Qlt_le_dec 0 (Qabs q)) as [H|H]; [exact H|].
      exfalso. apply Hne. apply Qabs_Qle_condition in H. apply Qle_antisym; tauto. }
    pose proof (binade_lower (Qabs q) Ha) as He. cbv zeta in He.
    set (e := if Qle_bool _ _ then _ else _) in *.
    assert (Hulp : (0 < 2 ^ (e - 52))%Q) by (apply Qpower_0_lt; reflexivity).
    set (ulp := (2 ^ (e - 52))%Q) in *.
    set (k := round_half_even (Qabs q / ulp)).
    assert (Hm : (Qabs (inject_Z k * ulp - Qabs q) <= Qabs q * 2 ^ (-53))%Q).
    { assert (Heq : (inject_Z k * ulp - Qabs q
                     == (inject_Z k - Qabs q / ulp) * ulp)%Q).
      { field. intros H. rewrite H in Hulp. discriminate. }
      rewrite Heq, Qabs_Qmult, (Qabs_pos ulp) by (apply Qlt_le_weak, Hulp).
      apply Qle_trans with ((1 # 2) * ulp)%Q.
      - apply Qmult_le_compat_r; [apply round_half_even_close|apply Qlt_le_weak, Hulp].
      - assert (Hu : ((1 # 2) * ulp == 2 ^ e * 2 ^ (-53))%Q).
        { unfold ulp. replace (e - 52)%Z with (e + (-53) + 1)%Z by lia.
          rewrite !Qpower_plus by discriminate. rewrite Qpower_1_r. ring. }
        rewrite Hu. apply Qmult_le_compat_r; [exact He|discriminate]. }
    destruct (Qlt_le_dec q 0) as [Hneg|Hpos].
    + assert (Hq : (q == - Qabs q)%Q).
      { rewrite Qabs_neg by (apply Qlt_le_weak, Hneg). ring. }
      assert (Heq : (- (inject_Z k * ulp) - q == - (inject_Z k * ulp - Qabs q))%Q).
      { rewrite Hq at 1. ring. }
      rewrite Heq, Qabs_opp. exact Hm.
    + assert (Heq : (inject_Z k * ulp - q == inject_Z k * ulp - Qabs q)%Q).
      { rewrite (Qabs_pos q) by exact Hpos. reflexivity. }
      rewrite Heq. exact Hm.
Qed.


(** The percentage of a line, as the floats compute it, is the exact
    percentage up to two roundings. *)
Lemma percentage_float_close (count len_df : nat) :
  (Qabs (percentage_float count len_df - percentage count len_df)
   <= percentage count len_df * 2 ^ (-51))%Q.
Proof.
  unfold percentage_float, percentage.
  set (x := (inject_Z (Z.of_nat count) / inject_Z (Z.of_nat len_df))%Q).
  assert (Hx : (0 <= x)%Q).
  { unfold x, Qdiv. apply Qmult_le_0_compat; [|apply Qinv_le_0_compat];
      unfold Qle, inject_Z; cbn; lia. }
  pose proof (float64_round_close x) as H1.
  pose proof (float64_round_close (float64_round x * 100)) as H2.
  set (x1 := float64_round x) in *.
  set (pf := float64_round (x1 * 100)) in *.
  rewrite (Qabs_pos x) in H1 by exact Hx.
  change (2 ^ (-53))%Q with (1 # 9007199254740992)%Q in H1, H2.
  change (2 ^ (-51))%Q with (1 # 2251799813685248)%Q.
  apply Qabs_Qle_condition in H1 as [H1l H1u].
  assert (Hx1 : (0 <= x1 * 100)%Q) by Lqa.lra.
  rewrite (Qabs_pos (x1 * 100)) in H2 by exact Hx1.
  apply Qabs_Qle_condition in H2 as [H2l H2u].
  apply Qabs_Qle_condition. split; Lqa.lra.
Qed.

Lemma sum_close {A} (f g : A -> Q) (k : Q) (l : list A) :
  (forall a, (Qabs (f a - g a) <= g a * k)%Q) ->
  (Qabs (foldr Qplus 0 (List.map f l) - foldr Qplus 0 (List.map g l))
   <= foldr Qplus 0 (List.map g l) * k)%Q.
Proof.
  intros Hclose. induction l as [|a l IH]; cbn [List.map foldr].
  - rewrite Qmult_0_l. discriminate.
  - assert (Heq : (f a + foldr Qplus 0 (List.map f l)
                   - (g a + foldr Qplus 0 (List.map g l))
                   == (f a - g a)
                      + (foldr Qplus 0 (List.map f l) - foldr Qplus 0 (List.map g l)))%Q)
      by ring.
    rewrite Heq. eapply Qle_trans; [apply Qabs_triangle|].
    rewrite Qmult_plus_distr_l. apply Qplus_le_compat; [apply Hclose|exact IH].
Qed.

(** The percentages of the table, as the floats hold them, sum to the
    exact total within a relative error of [2^-51]; on a table that is
    not empty and misses no duration they sum to 100 within
    [100 * 2^-51]. *)
Lemma float_percentages_sum (df : dataframe) :
  (Qabs (total_percentage_float df - total_percentage df)
   <= total_percentage df * 2 ^ (-51))%Q
  /\ (with_duration df = length df -> df <> [] ->
      (Qabs (total_percentage_float df - 100) <= 100 * 2 ^ (-51))%Q).
Proof.
  assert (Hclose : (Qabs (total_percentage_float df - total_percentage df)
                    <= total_percentage df * 2 ^ (-51))%Q).
  { unfold total_percentage_float, total_percentage.
    apply (sum_close (fun entry : Q * nat => percentage_float entry.2 (length df))
                     (fun entry : Q * nat => percentage entry.2 (length df))).
    intros entry. apply percentage_float_close. }
  split; [exact Hclose|]. intros Hall Hne.
  assert (Htotal : (total_percentage df == 100)%Q).
  { unfold total_percentage. rewrite percentage_sum.
    unfold duration_counts. rewrite value_counts_total.
    fold (with_duration df). rewrite Hall. unfold percentage.
    assert (Hlen : ~ (inject_Z (Z.of_nat (length df)) == 0)%Q).
    { destruct df; [congruence|]. cbn [length]. unfold Qeq. cbn. lia. }
    field. exact Hlen. }
  rewrite Htotal in Hclose. exact Hclose.
Qed.

(** One case in 2000: the exact percentage 0.05 would print as 0.0, the
    float is above it and prints as 0.1. *)
Lemma one_case_in_2000 :
  format_f 5 1 (percentage 1 2000) = "  0.0"
  /\ format_f 5 1 (percentage_float 1 2000) = "  0.1".
Proof. split; vm_compute; reflexivity. Qed.

Lemma fsum_neg (a : list fp) : fsum (neg a) = neg (fsum a).
Proof.
  unfold fsum. induction a as [|x a IH].
  - cbn. f_equal. lra.
  - cbn [neg list_arith List.map foldr] in *. rewrite IH. apply add_neg_neg.
Qed.

Lemma fp_div_neg_l (x y : fp) : div (neg x) y = neg (div x y).
Proof.
  destruct x as [|s|x], y as [|s'|y]; cbn; try reflexivity.
  - destruct s, (Rnegative y); reflexivity.
  - apply f_equal. lra.
  - destruct (Rzero y); cbn.
    + rewrite Rzero_opp. destruct (Rzero x) eqn:Hx; [reflexivity|].
      rewrite Rnegative_opp by (intros ->; rewrite Rzero_true in Hx; congruence).
      reflexivity.
    + apply f_equal. unfold Rdiv. ring.
Qed.

Lemma fp_square_neg (x : fp) : mul (neg x) (neg x) = mul x x.
Proof.
  destruct x as [|s|x]; cbn; [reflexivity|destruct s; reflexivity|].
  apply f_equal. ring.
Qed.

Lemma mean_neg (a : list fp) : mean (neg a) = neg (mean a).
Proof.
  unfold mean. rewrite fsum_neg. cbn [neg list_arith]. rewrite length_map.
  apply fp_div_neg_l.
Qed.

Lemma var_ddof1_neg (a : list fp) : var_ddof1 (neg a) = var_ddof1 a.
Proof.
  unfold var_ddof1. rewrite mean_neg.
  cbn [neg list_arith]. rewrite length_map. f_equal.
  unfold mean. rewrite !length_map. f_equal. f_equal.
  rewrite List.map_map. apply List.map_ext. intros x. cbv zeta.
  change (fp_neg x) with (neg x).
  rewrite sub_neg_neg. apply fp_square_neg.
Qed.

(** C7. The one-sample t test is symmetric under negation: on the
    negated sample against the negated reference value the statistic
    changes sign and the p-value is the same.  This holds for every
    sample and every reference value, so for the durations of the table
    against 42 and -42. *)
Theorem ttest_negation (t_sf : R -> R -> R) :
  (forall (a : list fp) (popmean : fp),
     ttest_1samp t_sf (neg a) (neg popmean)
     = (neg (ttest_1samp t_sf a popmean).1, (ttest_1samp t_sf a popmean).2))
  /\ (forall df : dataframe,
        ttest_1samp t_sf (negated df) (Fin (-42))
        = (neg (t_test t_sf df).1, (t_test t_sf df).2)).
Proof.
  assert (Hgen : forall (a : list fp) (popmean : fp),
     ttest_1samp t_sf (neg a) (neg popmean)
     = (neg (ttest_1samp t_sf a popmean).1, (ttest_1samp t_sf a popmean).2)).
  { intros a popmean. unfold ttest_1samp. cbv zeta. cbn [fst snd].
    rewrite mean_neg, var_ddof1_neg, sub_neg_neg, fp_div_neg_l.
    cbn [neg list_arith]. rewrite length_map. f_equal.
    destruct (div (sub (mean a) popmean) _) as [|s|t]; [reflexivity..|].
    cbn. rewrite Rabs_Ropp. reflexivity. }
  split; [exact Hgen|].
  intros df. unfold t_test, negated, tag_duration. rewrite <- Hgen.
  cbn [neg fp_arith fp_neg]. reflexivity.
Qed.

Section JitterFacts.
Context {rng rgba : Type} (seeded : Z -> rng) (standard_normal : rng -> R * rng)
        (viridis : R -> rgba).

Lemma np_random_normal_returns (loc scale : R) (size : nat) (g : rng) :
  exists xs g', np_random_normal standard_normal loc scale size g = (ok xs, g')
                /\ length xs = size.
Proof.
  revert g. induction size as [|size IH]; intros g.
  - exists [], g. split; reflexivity.
  - cbn [np_random_normal]. unfold bind at 1.
    destruct (IH (standard_normal g).2) as (xs & g' & Hrun & Hlen).
    unfold bind at 1. rewrite Hrun. eexists. eexists. split; [reflexivity|].
    cbn. rewrite Hlen. reflexivity.
Qed.

(** A value that the table counts is one of its keys. *)
Lemma counted_value_is_a_key (v : Q) (counts : list (Q * nat)) :
  0 < count_of v counts ->
  exists k c, (k, c) ∈ counts /\ Qeq_bool v k = true.
Proof.
  unfold count_of. induction counts as [|[k c] rest IH]; simpl; [lia|].
  destruct (Qeq_bool v k) eqn:Hk.
  - intros _. exists k, c. split; [left|exact Hk].
  - intros H. destruct (IH H) as (k' & c' & Hin & Hk').
    exists k', c'. split; [right; exact Hin|exact Hk'].
Qed.

Lemma column_value_is_a_key (v : Q) (column : list (option Q)) :
  Some v ∈ column ->
  exists k c, (k, c) ∈ value_counts_sorted column /\ Qeq_bool v k = true.
Proof.
  intros Hin. apply counted_value_is_a_key. rewrite count_of_value_counts.
  induction column as [|cell column IH]; [apply elem_of_nil in Hin; destruct Hin|].
  apply elem_of_cons in Hin as [<-|Hin].
  - cbn. rewrite (proj2 (Qeq_bool_iff v v)) by reflexivity. cbn. lia.
  - cbn. destruct cell as [u|]; [destruct (Qeq_bool v u)|]; cbn;
      specialize (IH Hin); lia.
Qed.

(** The colour of a number is found when the number is a key that has a
    colour. *)
Lemma color_of_key (keys : list (option Q)) (colors : list rgba) (v k : Q) :
  Some k ∈ keys -> Qeq_bool v k = true -> length keys <= length colors ->
  exists c, color_of (zip keys colors) (Some v) = ok c.
Proof.
  revert colors. induction keys as [|key keys IH]; intros colors Hin Hk Hlen.
  - apply elem_of_nil in Hin. destruct Hin.
  - destruct colors as [|c colors]; [cbn in Hlen; lia|].
    cbn [zip zip_with color_of].
    destruct key as [k'|].
    + destruct (Qeq_bool v k') eqn:Hk'; [eauto|].
      apply IH; [|exact Hk|cbn in Hlen; lia].
      apply elem_of_cons in Hin as [Heq|Hin]; [congruence|exact Hin].
    + apply IH; [|exact Hk|cbn in Hlen; lia].
      apply elem_of_cons in Hin as [Heq|Hin]; [discriminate|exact Hin].
Qed.

Lemma length_linspace01 (n : nat) : length (linspace01 n) = n.
Proof. unfold linspace01. rewrite length_map. apply length_seq. Qed.

(** The colours of the points: one per row when every row has a
    duration, and the KeyError of the first NaN otherwise. *)
Lemma point_colors_run (column : list (option Q)) :
  let duration_color_map :=
    zip (np_unique column)
        (List.map viridis (linspace01 (length (np_unique column)))) in
  (None ∉ column ->
   exists colors, rmapM (color_of duration_color_map) column = ok colors
                  /\ length colors = length column)
  /\ (None ∈ column ->
      rmapM (color_of duration_color_map) column = raise (Exn KeyError "nan")).
Proof.
  intros duration_color_map.
  assert (Hfound : forall v, Some v ∈ column ->
                     exists c, color_of duration_color_map (Some v) = ok c).
  { intros v Hv. destruct (column_value_is_a_key v column Hv) as (k & c & Hin & Hk).
    apply (color_of_key _ _ v k); [|exact Hk|].
    - unfold np_unique. apply elem_of_app. left.
      apply (list_elem_of_fmap_2 (fun entry : Q * nat => Some entry.1) _ (k, c)), Hin.
    - rewrite length_map, length_linspace01. lia. }
  clearbody duration_color_map.
  induction column as [|cell column IH].
  - split; [intros _; exists []; split; reflexivity|].
    intros H. apply elem_of_nil in H. destruct H.
  - assert (Hrest : forall v, Some v ∈ column ->
                      exists c, color_of duration_color_map (Some v) = ok c)
      by (intros v Hv; apply Hfound; right; exact Hv).
    destruct (IH Hrest) as [IHok IHnan]. cbn [rmapM].
    destruct cell as [v|].
    + destruct (Hfound v) as [c Hc]; [left|]. rewrite Hc. unfold ok, rbind. split.
      * intros Hnone. destruct IHok as (colors & Hrun & Hlen).
        { intros H. apply Hnone. right. exact H. }
        rewrite Hrun. exists (c :: colors). split; [reflexivity|]. cbn. lia.
      * intros Hsome. apply elem_of_cons in Hsome as [Heq|Hsome]; [discriminate|].
        rewrite (IHnan Hsome). reflexivity.
    + split; [intros Hnone; destruct Hnone; left|].
      intros _. destruct duration_color_map; reflexivity.
Qed.

End JitterFacts.

(** C8. The x-positions of the scatter points are drawn right after the
    generator is seeded with 42, so they do not depend on the state the
    generator was in: two runs on the same table end alike, with the same
    x-positions, one per row.  When every row has a duration,
    [ax.scatter] receives these x-positions, the [duration_hours] values
    of the rows, unchanged and in row order, as y-positions, and one
    colour per row.  When a duration is missing, the colour lookup of
    line 101 raises a KeyError and [ax.scatter] is not reached. *)
Theorem scatter_reproducible {rng rgba : Type} (seeded : Z -> rng)
    (standard_normal : rng -> R * rng) (viridis : R -> rgba)
    (df : dataframe) (g g' : rng) :
  scatter seeded standard_normal viridis df g
  = scatter seeded standard_normal viridis df g'
  /\ exists x_jitter g1,
       np_random_normal standard_normal 1%R jitter_strength (length df) (seeded 42%Z)
       = (ok x_jitter, g1)
       /\ length x_jitter = length df
       /\ (None ∉ durations df ->
           exists point_colors,
             scatter seeded standard_normal viridis df g
             = (ok (Scatter x_jitter (List.map duration_hours df) point_colors), g1)
             /\ length point_colors = length df)
       /\ (None ∈ durations df ->
           scatter seeded standard_normal viridis df g
           = (inl (Exn KeyError "nan"), g1)).
Proof.
  split; [reflexivity|].
  destruct (np_random_normal_returns standard_normal 1%R jitter_strength
              (length df) (seeded 42%Z)) as (xs & g1 & Hrun & Hlen).
  exists xs, g1. split; [exact Hrun|]. split; [exact Hlen|].
  destruct (point_colors_run viridis (durations df)) as [Hok Hnan].
  assert (Hscatter : scatter seeded standard_normal viridis df g
    = match rmapM (color_of
                     (zip (np_unique (durations df))
                          (List.map viridis
                             (linspace01 (length (np_unique (durations df)))))))
                  (durations df) with
      | inl e => (inl e, g1)
      | inr point_colors => (ok (Scatter xs (durations df) point_colors), g1)
      end).
  { unfold scatter. unfold bind at 1, np_random_seed.
    unfold bind at 1. rewrite Hrun. unfold bind, lift, ret.
    destruct (rmapM _ _); reflexivity. }
  split.
  - intros Hnone. destruct (Hok Hnone) as (colors & Hcolors & Hlc).
    exists colors. rewrite Hscatter, Hcolors. split; [reflexivity|].
    rewrite Hlc. apply length_map.
  - intros Hsome. rewrite Hscatter, (Hnan Hsome). reflexivity.
Qed.

End DurationClaims.

(* ===================================================================== *)
(** * frontogenesis_tendency_comparison.py: the claims                    *)
(* ===================================================================== *)

Section FrontogenesisClaims.
Import Frontogenesis FrontogenesisSpec FrontogenesisExamples.

Lemma time_interval_seconds : time_interval = 7200%R.
Proof. reflexivity. Qed.

(** A mask that holds nowhere selects nothing. *)
Lemma mask_filter_none (t : Z) (times : list Z) (a : list grid) :
  (forall k, times !! k <> Some t) ->
  List.map snd (List.filter fst (zip (List.map (fun t' => (t' =? t)%Z) times) a)) = [].
Proof.
  revert a. induction times as [|t0 times IH]; intros a Hnone; [reflexivity|].
  destruct a as [|x a]; [reflexivity|]. cbn.
  destruct (Z.eqb_spec t0 t) as [->|Hne].
  - destruct (Hnone 0). reflexivity.
  - cbn. apply IH. intros k. apply (Hnone (S k)).
Qed.

(** A mask that holds at one index selects the entry at that index. *)
Lemma mask_filter_one (t : Z) (times : list Z) (a : list grid) (i : nat) (x : grid) :
  times !! i = Some t ->
  (forall k, times !! k = Some t -> k = i) ->
  a !! i = Some x ->
  List.map snd (List.filter fst (zip (List.map (fun t' => (t' =? t)%Z) times) a)) = [x].
Proof.
  revert a i. induction times as [|t0 times IH]; intros a i Hi Huniq Hx; [discriminate|].
  destruct a as [|x0 a]; [discriminate|]. cbn.
  destruct i as [|i].
  - injection Hi as ->. injection Hx as ->. rewrite Z.eqb_refl. cbn. f_equal.
    apply mask_filter_none. intros k Hk. specialize (Huniq (S k) Hk). discriminate.
  - destruct (Z.eqb_spec t0 t) as [->|Hne].
    + specialize (Huniq 0 eq_refl). discriminate.
    + cbn. apply (IH a i); [assumption| |assumption].
      intros k Hk. specialize (Huniq (S k) Hk). congruence.
Qed.

(** Cells of element-wise operations on fields. *)
Lemma cell_at_zip_with (f : fp -> fp -> fp) (a b : grid) (r c : nat) :
  cell_at (zip_with (zip_with f) a b) r c
  = match cell_at a r c, cell_at b r c with
    | Some x, Some y => Some (f x y)
    | _, _ => None
    end.
Proof.
  unfold cell_at. rewrite lookup_zip_with.
  destruct (a !! r) as [ra|]; [|reflexivity]. cbn.
  destruct (b !! r) as [rb|]; cbn; [|destruct (ra !! c); reflexivity].
  rewrite lookup_zip_with.
  destruct (ra !! c); [|reflexivity]. cbn. destruct (rb !! c); reflexivity.
Qed.

Lemma cell_at_gradient_magnitude (dfdx dfdy : grid) (r c : nat) :
  cell_at (gradient_magnitude dfdx dfdy) r c
  = match cell_at dfdx r c, cell_at dfdy r c with
    | Some a, Some b => Some (fsqrt (add (fsquare a) (fsquare b)))
    | _, _ => None
    end.
Proof.
  unfold gradient_magnitude. rewrite cell_at_grid_map.
  change (add (grid_map fsquare dfdx) (grid_map fsquare dfdy))
    with (zip_with (zip_with fp_add) (grid_map fsquare dfdx) (grid_map fsquare dfdy)).
  rewrite cell_at_zip_with, !cell_at_grid_map.
  destruct (cell_at dfdx r c), (cell_at dfdy r c); reflexivity.
Qed.

(** The magnitude of a finite gradient is its Euclidean norm. *)
Lemma magnitude_finite (x y : R) :
  fsqrt (add (fsquare (Fin x)) (fsquare (Fin y))) = Fin (sqrt (x ^ 2 + y ^ 2)).
Proof. cbn. rewrite Rnegative_false by nra. reflexivity. Qed.

Lemma magnitude_nan (a b : fp) :
  a = NaN \/ b = NaN -> fsqrt (add (fsquare a) (fsquare b)) = NaN.
Proof. intros [->| ->]; [reflexivity|]. destruct a; reflexivity. Qed.

Lemma fp_div_finite (x y : R) : y <> 0%R -> div (Fin x) (Fin y) = Fin (x / y).
Proof. intros Hy. cbn. rewrite Rzero_false by exact Hy. reflexivity. Qed.

(** A cell of the difference of two gradient magnitudes over 7200 s. *)
Lemma tendency_cell (gx_i gy_i gx_j gy_j : grid) (r c : nat) (ai bi aj bj : fp) :
  cell_at gx_i r c = Some ai -> cell_at gy_i r c = Some bi ->
  cell_at gx_j r c = Some aj -> cell_at gy_j r c = Some bj ->
  cell_at (grid_map (fun x => div x (Fin 7200))
             (sub (gradient_magnitude gx_j gy_j) (gradient_magnitude gx_i gy_i))) r c
  = Some (div (sub (fsqrt (add (fsquare aj) (fsquare bj)))
                   (fsqrt (add (fsquare ai) (fsquare bi))))
              (Fin 7200)).
Proof.
  intros Hai Hbi Haj Hbj. rewrite cell_at_grid_map.
  change (sub (gradient_magnitude gx_j gy_j) (gradient_magnitude gx_i gy_i))
    with (zip_with (zip_with fp_sub) (gradient_magnitude gx_j gy_j)
                   (gradient_magnitude gx_i gy_i)).
  rewrite cell_at_zip_with, !cell_at_gradient_magnitude, Hai, Hbi, Haj, Hbj.
  reflexivity.
Qed.

Lemma tendency_cell_finite (xi yi xj yj : R) :
  div (sub (fsqrt (add (fsquare (Fin xj)) (fsquare (Fin yj))))
           (fsqrt (add (fsquare (Fin xi)) (fsquare (Fin yi)))))
      (Fin 7200)
  = Fin ((sqrt (xj ^ 2 + yj ^ 2) - sqrt (xi ^ 2 + yi ^ 2)) / 7200).
Proof.
  rewrite !magnitude_finite.
  change (sub (Fin ?a) (Fin ?b)) with (Fin (a - b)).
  rewrite fp_div_finite by lra. reflexivity.
Qed.

(** C5. When the time one hour before the target and the time one hour
    after it each occur once in the time coordinate, at indices [i] and
    [j], the gradient tendency is a field of rank 2 that holds, cell by
    cell, the magnitude of the gradient of potential temperature at index
    [j] minus the magnitude at index [i], divided by the 7200 seconds
    between the two times.  The magnitude is the square root of the sum
    of the squares of the two components: where the four components are
    numbers [xj], [yj], [xi], [yi] the cell is
    [(sqrt (xj^2 + yj^2) - sqrt (xi^2 + yi^2)) / 7200], and where one of
    them is NaN the cell is NaN. *)
Theorem gradient_tendency_value (w : world) (theta : data_array)
    (dx_3d dy_3d dtheta_dx dtheta_dy : list grid) (i j : nat)
    (gx_i gy_i gx_j gy_j : grid) :
  geospatial_gradient w theta dx_3d dy_3d = ok (dtheta_dx, dtheta_dy) ->
  length dtheta_dx = length (da_time theta) ->
  length dtheta_dy = length (da_time theta) ->
  da_time theta !! i = Some (TARGET_TIME - 3600)%Z ->
  (forall k, da_time theta !! k = Some (TARGET_TIME - 3600)%Z -> k = i) ->
  da_time theta !! j = Some (TARGET_TIME + 3600)%Z ->
  (forall k, da_time theta !! k = Some (TARGET_TIME + 3600)%Z -> k = j) ->
  dtheta_dx !! i = Some gx_i -> dtheta_dy !! i = Some gy_i ->
  dtheta_dx !! j = Some gx_j -> dtheta_dy !! j = Some gy_j ->
  exists tendency,
    gradient_tendency w theta dx_3d dy_3d = ok (Arr2 tendency)
    /\ tendency = grid_map (fun x => div x (Fin 7200))
                           (sub (gradient_magnitude gx_j gy_j)
                                (gradient_magnitude gx_i gy_i))
    /\ (forall r c xi yi xj yj,
          cell_at gx_i r c = Some (Fin xi) -> cell_at gy_i r c = Some (Fin yi) ->
          cell_at gx_j r c = Some (Fin xj) -> cell_at gy_j r c = Some (Fin yj) ->
          cell_at tendency r c
          = Some (Fin ((sqrt (xj ^ 2 + yj ^ 2) - sqrt (xi ^ 2 + yi ^ 2)) / 7200)))
    /\ (forall r c ai bi aj bj,
          cell_at gx_i r c = Some ai -> cell_at gy_i r c = Some bi ->
          cell_at gx_j r c = Some aj -> cell_at gy_j r c = Some bj ->
          ai = NaN \/ bi = NaN \/ aj = NaN \/ bj = NaN ->
          cell_at tendency r c = Some NaN).
Proof.
  intros Hgrad Hlx Hly Hi Hui Hj Huj Hxi Hyi Hxj Hyj.
  eexists. split; [|split; [reflexivity|]].
  - unfold gradient_tendency. rewrite Hgrad. unfold ok, rbind. cbn [fst snd].
    assert (Hlen : length (zip_with gradient_magnitude dtheta_dx dtheta_dy)
                   = length (da_time theta)).
    { rewrite length_zip_with. lia. }
    assert (Hgm : forall k gx gy, dtheta_dx !! k = Some gx -> dtheta_dy !! k = Some gy ->
                    zip_with gradient_magnitude dtheta_dx dtheta_dy !! k
                    = Some (gradient_magnitude gx gy)).
    { intros k gx gy Hx Hy. rewrite lookup_zip_with, Hx. cbn. rewrite Hy. reflexivity. }
    unfold mask_select. rewrite !length_map, Hlen, Nat.eqb_refl. unfold ok.
    rewrite (mask_filter_one time_after (da_time theta) _ j _ Hj Huj (Hgm _ _ _ Hxj Hyj)).
    rewrite (mask_filter_one time_before (da_time theta) _ i _ Hi Hui (Hgm _ _ _ Hxi Hyi)).
    reflexivity.
  - split.
    + intros r c xi yi xj yj Hai Hbi Haj Hbj.
      rewrite (tendency_cell _ _ _ _ r c _ _ _ _ Hai Hbi Haj Hbj).
      rewrite tendency_cell_finite. reflexivity.
    + intros r c ai bi aj bj Hai Hbi Haj Hbj Hnan.
      rewrite (tendency_cell _ _ _ _ r c _ _ _ _ Hai Hbi Haj Hbj).
      destruct Hnan as [Hn|[Hn|[Hn|Hn]]].
      * rewrite (magnitude_nan ai bi) by (left; exact Hn).
        destruct (fsqrt (add (fsquare aj) (fsquare bj))); reflexivity.
      * rewrite (magnitude_nan ai bi) by (right; exact Hn).
        destruct (fsqrt (add (fsquare aj) (fsquare bj))); reflexivity.
      * rewrite (magnitude_nan aj bj) by (left; exact Hn). reflexivity.
      * rewrite (magnitude_nan aj bj) by (right; exact Hn). reflexivity.
Qed.

(** Three hourly time steps around the target, with a gradient of
    (3, 4) K/m one hour before it and (9, 12) K/m one hour after: the
    magnitude grows from 5 to 15 K/m, by 10 K/m in 7200 s. *)
Lemma gradient_tendency_value_witness :
  let times := [TARGET_TIME - 3600; TARGET_TIME; TARGET_TIME + 3600]%Z in
  let dx_3d := replicate 3 (replicate 3 (replicate 2 (Fin 1))) in
  let dy_3d := replicate 3 (replicate 2 (replicate 3 (Fin 1))) in
  exists tendency,
    gradient_tendency (toy_world times) (toy_theta times) dx_3d dy_3d
    = ok (Arr2 tendency)
    /\ cell_at tendency 1 1 = Some (Fin (10 / 7200)).
Proof.
  cbv zeta.
  assert (Hbefore : forall k,
            [TARGET_TIME - 3600; TARGET_TIME; TARGET_TIME + 3600]%Z !! k
            = Some (TARGET_TIME - 3600)%Z -> k = 0)
    by (intros [|[|[|k]]] H; vm_compute in H; try reflexivity; discriminate).
  assert (Hafter : forall k,
            [TARGET_TIME - 3600; TARGET_TIME; TARGET_TIME + 3600]%Z !! k
            = Some (TARGET_TIME + 3600)%Z -> k = 2)
    by (intros [|[|[|k]]] H; vm_compute in H; try reflexivity; discriminate).
  destruct (gradient_tendency_value
              (toy_world [TARGET_TIME - 3600; TARGET_TIME; TARGET_TIME + 3600]%Z)
              (toy_theta [TARGET_TIME - 3600; TARGET_TIME; TARGET_TIME + 3600]%Z)
              (replicate 3 (replicate 3 (replicate 2 (Fin 1))))
              (replicate 3 (replicate 2 (replicate 3 (Fin 1))))
              [replicate 3 (replicate 3 (Fin (3 * 1)));
               replicate 3 (replicate 3 (Fin (3 * 2)));
               replicate 3 (replicate 3 (Fin (3 * 3)))]
              [replicate 3 (replicate 3 (Fin (4 * 1)));
               replicate 3 (replicate 3 (Fin (4 * 2)));
               replicate 3 (replicate 3 (Fin (4 * 3)))]
              0 2
              (replicate 3 (replicate 3 (Fin (3 * 1))))
              (replicate 3 (replicate 3 (Fin (4 * 1))))
              (replicate 3 (replicate 3 (Fin (3 * 3))))
              (replicate 3 (replicate 3 (Fin (4 * 3))))
              eq_refl eq_refl eq_refl eq_refl Hbefore eq_refl Hafter
              eq_refl eq_refl eq_refl eq_refl)
    as (tendency & Hrun & _ & Hcell & _).
  exists tendency. split; [exact Hrun|].
  rewrite (Hcell 1 1 (3 * 1)%R (4 * 1)%R (3 * 3)%R (4 * 3)%R
             eq_refl eq_refl eq_refl eq_refl).
  apply f_equal, f_equal, (f_equal (fun x => x / 7200)%R).
  replace ((3 * 3) ^ 2 + (4 * 3) ^ 2)%R with (15 * 15)%R by ring.
  replace ((3 * 1) ^ 2 + (4 * 1) ^ 2)%R with (5 * 5)%R by ring.
  rewrite !sqrt_square by lra. ring.
Defined.

Lemma not_elem_of_lookup (t : Z) (times : list Z) :
  t ∉ times -> forall k, times !! k <> Some t.
Proof. intros Hnot k Hk. apply Hnot. eapply list_elem_of_lookup_2, Hk. Qed.

Lemma quiet_from_refl trace : quiet_from trace trace.
Proof. exists []. rewrite app_nil_r. split; [reflexivity|constructor]. Qed.

Lemma quiet_from_print trace s message :
  quiet_from trace s -> quiet_from trace (s ++ [Console message]).
Proof.
  intros (prints & -> & Hp). exists (prints ++ [Console message]).
  rewrite app_assoc. split; [reflexivity|].
  apply Forall_app. split; [exact Hp|]. repeat constructor.
Qed.

Lemma fails_quietly_lift trace {A} (r : result A) (k : A -> M unit) s :
  quiet_from trace s ->
  (forall a, r = inr a -> fails_quietly trace (k a) s) ->
  fails_quietly trace (bind (lift r) k) s.
Proof.
  intros Hq Hk. destruct r as [e|a].
  - exists e, s. split; [reflexivity|assumption].
  - unfold bind, lift. apply Hk. reflexivity.
Qed.

Lemma fails_quietly_print trace message (k : M unit) s :
  quiet_from trace s ->
  (quiet_from trace (s ++ [Console message]) ->
   fails_quietly trace k (s ++ [Console message])) ->
  fails_quietly trace (bind (act (Console message)) (fun _ => k)) s.
Proof.
  intros Hq Hk. unfold bind, act. apply Hk. apply quiet_from_print, Hq.
Qed.

(** A label-based selection that returns found its label. *)
Lemma sel_time_found (da : data_array) (t : Z) (x : ndarray) :
  sel_time da t = inr x -> t ∈ da_time da.
Proof.
  unfold sel_time. intros H.
  destruct (decide (t ∈ da_time da)) as [Hin|Hnot]; [exact Hin|].
  exfalso. revert H.
  assert (Hnone : List.filter (fun td : Z * grid => (td.1 =? t)%Z)
                              (zip (da_time da) (da_data da)) = []).
  { pose proof (not_elem_of_lookup t _ Hnot) as Hk. clear Hnot.
    generalize (da_data da). induction (da_time da) as [|t0 times IH];
      intros data; [reflexivity|].
    destruct data as [|x0 data]; [reflexivity|]. cbn.
    destruct (Z.eqb_spec t0 t) as [->|Hne].
    - destruct (Hk 0). reflexivity.
    - apply IH. intros k. apply (Hk (S k)). }
  rewrite Hnone. discriminate.
Qed.

Lemma broadcast_sub_nil_l (b c : list grid) :
  broadcast_sub [] b = inr c -> c = [].
Proof.
  unfold broadcast_sub. destruct b as [|b0 [|b1 b]]; cbn; intros H;
    try discriminate; injection H as <-; reflexivity.
Qed.

Lemma broadcast_sub_nil_r (a c : list grid) :
  broadcast_sub a [] = inr c -> c = [].
Proof.
  unfold broadcast_sub. destruct a as [|a0 [|a1 a]]; cbn; intros H;
    try discriminate; injection H as <-; reflexivity.
Qed.

(** A gradient tendency with cells has found both times. *)
Lemma gradient_tendency_found (w : world) (theta : data_array)
    (dx_3d dy_3d : list grid) (gt : ndarray) :
  gradient_tendency w theta dx_3d dy_3d = inr gt ->
  gt <> Arr3 [] ->
  time_before ∈ da_time theta /\ time_after ∈ da_time theta.
Proof.
  unfold gradient_tendency, mask_select. intros H Hgt.
  destruct (geospatial_gradient w theta dx_3d dy_3d) as [e|[gx gy]]; [discriminate|].
  unfold rbind, ok in H. cbn [fst snd] in H. rewrite !length_map in H.
  destruct (_ =? _)%nat; [|discriminate].
  destruct (broadcast_sub _ _) as [e|change] eqn:Hsub; [discriminate|].
  injection H as <-.
  assert (Hchange : change <> []) by (intros ->; apply Hgt; reflexivity).
  split.
  - destruct (decide (time_before ∈ da_time theta)) as [Hin|Hnot]; [exact Hin|].
    rewrite (mask_filter_none time_before) in Hsub
      by (apply not_elem_of_lookup, Hnot).
    apply broadcast_sub_nil_r in Hsub. congruence.
  - destruct (decide (time_after ∈ da_time theta)) as [Hin|Hnot]; [exact Hin|].
    rewrite (mask_filter_none time_after) in Hsub
      by (apply not_elem_of_lookup, Hnot).
    apply broadcast_sub_nil_l in Hsub. congruence.
Qed.

Lemma nan_reduce_nonempty (f : fp -> fp) (gt : ndarray) :
  nan_reduce (ndarray_map f gt) = inr tt -> gt <> Arr3 [].
Proof. intros H ->. discriminate. Qed.

(** Whatever the world, a time coordinate that misses one of the three
    times makes the script raise, with nothing done but printing. *)
Lemma script_fails_quietly (w : world) (trace : list action) :
  (forall ds theta,
     open_dataset w "./output-w2nc/th.nc" = ok ds ->
     sel_level_member ds "th" PRESSURE_LEVEL ENSEMBLE_MEMBER = ok theta ->
     ~ (TARGET_TIME ∈ da_time theta /\ time_before ∈ da_time theta
        /\ time_after ∈ da_time theta)) ->
  fails_quietly trace (script w) trace.
Proof.
  intros Hmiss. unfold script. cbv zeta.
  apply fails_quietly_print; [apply quiet_from_refl|intros Hq0].
  apply fails_quietly_lift; [assumption|intros ds_theta Hds].
  apply fails_quietly_lift; [assumption|intros ds_winds _].
  apply fails_quietly_lift; [assumption|intros dxdy _].
  apply fails_quietly_lift; [assumption|intros theta Htheta].
  apply fails_quietly_lift; [assumption|intros u_wind _].
  apply fails_quietly_lift; [assumption|intros v_wind _].
  apply fails_quietly_lift; [assumption|intros data _].
  apply fails_quietly_print; [assumption|intros Hq1].
  apply fails_quietly_lift; [assumption|intros gt Hgt].
  apply fails_quietly_print; [assumption|intros Hq2].
  apply fails_quietly_lift; [assumption|intros target Htarget].
  apply fails_quietly_print; [assumption|intros Hq3].
  apply fails_quietly_lift; [assumption|intros [] Hstat].
  exfalso. apply (Hmiss ds_theta theta Hds Htheta).
  apply sel_time_found in Htarget. cbn [da_time] in Htarget.
  apply nan_reduce_nonempty in Hstat.
  destruct (gradient_tendency_found _ _ _ _ _ Hgt Hstat). auto.
Qed.

(** On a time coordinate without repeats a mask selects at most one entry. *)
Lemma mask_filter_at_most_one (t : Z) (times : list Z) (a : list grid) :
  NoDup times ->
  length (List.map snd (List.filter fst
            (zip (List.map (fun t' => (t' =? t)%Z) times) a))) <= 1.
Proof.
  revert a. induction times as [|t0 times IH]; intros a Hnd; [cbn; lia|].
  destruct a as [|x a]; [cbn; lia|].
  apply list.NoDup_cons in Hnd as [Hnot Hnd]. cbn.
  destruct (Z.eqb_spec t0 t) as [->|Hne].
  - cbn. rewrite mask_filter_none by (apply not_elem_of_lookup, Hnot). cbn. lia.
  - cbn. apply IH, Hnd.
Qed.

(** Without repeats in the time coordinate the subtraction always
    broadcasts, and a missing time leaves an array without cells. *)
Lemma gradient_tendency_returns (w : world) (theta : data_array)
    (dx_3d dy_3d dtheta_dx dtheta_dy : list grid) :
  geospatial_gradient w theta dx_3d dy_3d = ok (dtheta_dx, dtheta_dy) ->
  length dtheta_dx = length (da_time theta) ->
  length dtheta_dy = length (da_time theta) ->
  NoDup (da_time theta) ->
  exists gt, gradient_tendency w theta dx_3d dy_3d = ok gt
             /\ (time_before ∉ da_time theta \/ time_after ∉ da_time theta ->
                 gt = Arr3 []).
Proof.
  intros Hgrad Hlx Hly Hnd.
  unfold gradient_tendency, mask_select. rewrite Hgrad. unfold ok, rbind.
  cbn [fst snd]. rewrite !length_map, length_zip_with.
  replace (length (da_time theta) =? length dtheta_dx `min` length dtheta_dy)%nat
    with true by (symmetry; apply Nat.eqb_eq; lia).
  set (gm := zip_with gradient_magnitude dtheta_dx dtheta_dy).
  pose proof (mask_filter_at_most_one time_after (da_time theta) gm Hnd) as Hla.
  pose proof (mask_filter_at_most_one time_before (da_time theta) gm Hnd) as Hlb.
  pose proof (mask_filter_none time_after (da_time theta) gm) as Hna.
  pose proof (mask_filter_none time_before (da_time theta) gm) as Hnb.
  set (after := List.map snd (List.filter fst
         (zip (List.map (fun t' => (t' =? time_after)%Z) (da_time theta)) gm))) in *.
  set (before := List.map snd (List.filter fst
         (zip (List.map (fun t' => (t' =? time_before)%Z) (da_time theta)) gm))) in *.
  clearbody after before.
  destruct after as [|a0 [|a1 after]]; [| |cbn in Hla; lia];
  destruct before as [|b0 [|b1 before]]; try (cbn in Hlb; lia);
  eexists; (split; [reflexivity|]); intros [Hnot|Hnot]; try reflexivity;
  pose proof (not_elem_of_lookup _ _ Hnot) as Hk;
  first [specialize (Hna Hk)|specialize (Hnb Hk)]; discriminate.
Qed.

Lemma sel_time_missing (da : data_array) (t : Z) :
  t ∉ da_time da -> sel_time da t = raise (Exn KeyError "time").
Proof.
  intros Hnot. destruct (sel_time da t) as [e|x] eqn:H.
  - unfold sel_time in H.
    destruct (List.map snd _) as [|g [|g' gs]] in H; [|discriminate..].
    symmetry. exact H.
  - apply sel_time_found in H. contradiction.
Qed.

Lemma sel_time_present (times : list Z) (data : list grid) (t : Z) :
  t ∈ times -> length data = length times ->
  exists x, sel_time (DataArray times data) t = ok x.
Proof.
  intros Hin Hlen. unfold sel_time. cbn [da_time da_data].
  assert (Hne : List.map snd (List.filter (fun td : Z * grid => (td.1 =? t)%Z)
                                          (zip times data)) <> []).
  { revert data Hlen. induction times as [|t0 times IH]; intros data Hlen.
    - apply elem_of_nil in Hin. destruct Hin.
    - destruct data as [|x0 data]; [discriminate|]. cbn.
      destruct (Z.eqb_spec t0 t) as [->|Hne]; [discriminate|].
      apply IH; [|cbn in Hlen; lia].
      apply elem_of_cons in Hin as [->|Hin]; [congruence|exact Hin]. }
  destruct (List.map snd _) as [|g [|g' gs]]; [congruence|eauto..].
Qed.

Lemma bind_lift_ok {St A B} (r : result A) (a : A) (k : A -> SE St B) (s : St) :
  r = ok a -> bind (lift r) k s = k a s.
Proof. intros ->. reflexivity. Qed.

(** The two ways the script fails once its computations have returned on
    a time coordinate without repeats. *)
Lemma script_time_errors (w : world) (trace : list action) (theta : data_array)
    (data dtheta_dx dtheta_dy : list grid) :
  computes w theta data dtheta_dx dtheta_dy ->
  NoDup (da_time theta) ->
  let s' := trace ++ [Console "Starting WRF frontogenesis analysis...";
                      Console "Frontogenesis computation complete.";
                      Console "Gradient tendency computation complete."] in
  (TARGET_TIME ∉ da_time theta ->
   script w trace = (inl (Exn KeyError "time"), s'))
  /\ (TARGET_TIME ∈ da_time theta ->
      time_before ∉ da_time theta \/ time_after ∉ da_time theta ->
      script w trace
      = (inl zero_size_error, s' ++ [Console "Converted data statistics:"])).
Proof.
  intros (ds_theta & ds_winds & dxdy & u_wind & v_wind & Hth & Hwi & Hd & Hst & Hsu
          & Hsv & Hfr & Hgr & Hld & Hlx & Hly) Hnd s'.
  destruct (gradient_tendency_returns w theta _ _ _ _ Hgr Hlx Hly Hnd)
    as (gt & Hgt & Hempty).
  assert (Hrun : script w trace
    = (frontogenesis_target <- lift (sel_time (DataArray (da_time theta) data) TARGET_TIME) ;;
       act (Console "Converted data statistics:") ;;
       lift (nan_reduce (ndarray_map to_K_per_km_per_hour gt)) ;;
       lift (nan_reduce (ndarray_map to_K_per_km_per_hour frontogenesis_target)) ;;
       act (Console "Creating comparison visualization...") ;;
       call (makedirs w OUTPUT_DIR) (MakeDirs OUTPUT_DIR) ;;
       call (plot w Subplots) (Plot Subplots) ;;
       call (plot w (Contourf 1 (ndarray_map to_K_per_km_per_hour frontogenesis_target)))
            (Plot (Contourf 1 (ndarray_map to_K_per_km_per_hour frontogenesis_target))) ;;
       call (plot w (Decorate 1)) (Plot (Decorate 1)) ;;
       call (plot w (Contourf 2 (ndarray_map to_K_per_km_per_hour gt)))
            (Plot (Contourf 2 (ndarray_map to_K_per_km_per_hour gt))) ;;
       call (plot w (Decorate 2)) (Plot (Decorate 2)) ;;
       call (plot w TightLayout) (Plot TightLayout) ;;
       call (savefig w (output_filename w)) (SaveFig (output_filename w)) ;;
       act (Console "Analysis complete!"))%M s').
  { unfold script. cbv zeta. unfold bind at 1, act.
    rewrite (bind_lift_ok _ _ _ _ Hth), (bind_lift_ok _ _ _ _ Hwi),
      (bind_lift_ok _ _ _ _ Hd), (bind_lift_ok _ _ _ _ Hst),
      (bind_lift_ok _ _ _ _ Hsu), (bind_lift_ok _ _ _ _ Hsv),
      (bind_lift_ok _ _ _ _ Hfr).
    unfold bind at 1, act.
    rewrite (bind_lift_ok _ _ _ _ Hgt).
    unfold bind at 1, act. subst s'. rewrite <- !app_assoc. reflexivity. }
  split.
  - intros Hnot. rewrite Hrun.
    rewrite (sel_time_missing (DataArray (da_time theta) data) _ Hnot). reflexivity.
  - intros Hin Hmiss. rewrite Hrun.
    destruct (sel_time_present _ data _ Hin Hld) as [x Hx].
    rewrite (bind_lift_ok _ _ _ _ Hx), (Hempty Hmiss). reflexivity.
Qed.

(** C3 (as amended). If the target time, or the time one hour before or
    after it, is not in the time coordinate, the script raises before
    anything is plotted and no image is written: its trace grows by
    console output only.  Once the computations before the selections
    have returned, on a time coordinate without repeats: an absent
    target time is the lookup error (KeyError) of [sel(time=...)]; with
    the target present and the time one hour before or after absent, no
    selection fails (the boolean masks select an array without cells) and
    the script raises the ValueError of a reduction over that empty
    array, where the statistics are printed. *)
Theorem missing_time_fails (w : world) (trace : list action) :
  ((forall ds theta,
      open_dataset w "./output-w2nc/th.nc" = ok ds ->
      sel_level_member ds "th" PRESSURE_LEVEL ENSEMBLE_MEMBER = ok theta ->
      ~ (TARGET_TIME ∈ da_time theta /\ time_before ∈ da_time theta
         /\ time_after ∈ da_time theta)) ->
   fails_quietly trace (script w) trace)
  /\ (forall theta data dtheta_dx dtheta_dy,
        computes w theta data dtheta_dx dtheta_dy ->
        NoDup (da_time theta) ->
        (TARGET_TIME ∉ da_time theta ->
         exists s', script w trace = (inl (Exn KeyError "time"), s')
                    /\ quiet_from trace s')
        /\ (TARGET_TIME ∈ da_time theta ->
            time_before ∉ da_time theta \/ time_after ∉ da_time theta ->
            exists s', script w trace = (inl zero_size_error, s')
                       /\ quiet_from trace s')).
Proof.
  split; [apply script_fails_quietly|].
  intros theta data dtheta_dx dtheta_dy Hc Hnd.
  destruct (script_time_errors w trace theta data dtheta_dx dtheta_dy Hc Hnd)
    as [Hkey Hval].
  assert (Hq : quiet_from trace
                 (trace ++ [Console "Starting WRF frontogenesis analysis...";
                            Console "Frontogenesis computation complete.";
                            Console "Gradient tendency computation complete."])).
  { eexists. split; [reflexivity|]. repeat constructor. }
  split.
  - intros Hnot. eexists. split; [apply Hkey, Hnot|exact Hq].
  - intros Hin Hmiss. eexists. split; [apply Hval; assumption|].
    apply quiet_from_print, Hq.
Qed.

Lemma toy_computes_two (t1 t2 : Z) :
  exists data dtheta_dx dtheta_dy,
    computes (toy_world [t1; t2]) (toy_theta [t1; t2]) data dtheta_dx dtheta_dy.
Proof.
  unfold computes. do 8 eexists.
  split; [reflexivity|]. split; [reflexivity|]. split; [reflexivity|].
  split; [reflexivity|]. split; [reflexivity|]. split; [reflexivity|].
  split; [reflexivity|]. split; [vm_compute; reflexivity|].
  split; [reflexivity|]. split; reflexivity.
Qed.

(** A time coordinate that holds the hours before and after the target,
    not the target. *)
Lemma missing_time_fails_witness :
  exists s',
    script (toy_world [TARGET_TIME - 3600; TARGET_TIME + 3600]%Z) []
    = (inl (Exn KeyError "time"), s')
    /\ quiet_from [] s'.
Proof.
  destruct (toy_computes_two (TARGET_TIME - 3600) (TARGET_TIME + 3600))
    as (data & dtheta_dx & dtheta_dy & Hc).
  refine (proj1 (proj2 (missing_time_fails _ []) _ _ _ _ Hc _) _).
  - cbn [toy_theta da_time]. apply (bool_decide_unpack _). vm_compute. exact I.
  - cbn [toy_theta da_time]. apply (bool_decide_unpack _). vm_compute. exact I.
Defined.

(** C3, a counterexample to the claim as stated.  The time coordinate
    holds the target time and the hour before it, not the hour after.
    No time selection fails: the script goes on to print that the
    gradient tendency is computed, selects the target time, prints the
    heading of the statistics, and then raises a ValueError (not a lookup
    error) where the first of them is computed. *)
Lemma absent_hour_is_no_lookup_error :
  script (toy_world [TARGET_TIME - 3600; TARGET_TIME]%Z) []
  = (inl (Exn ValueError
            "zero-size array to reduction operation fmin which has no identity"),
     [Console "Starting WRF frontogenesis analysis...";
      Console "Frontogenesis computation complete.";
      Console "Gradient tendency computation complete.";
      Console "Converted data statistics:"]).
Proof.
  destruct (toy_computes_two (TARGET_TIME - 3600) TARGET_TIME)
    as (data & dtheta_dx & dtheta_dy & Hc).
  refine (proj2 (script_time_errors _ [] _ _ _ _ Hc _) _ _).
  - cbn [toy_theta da_time]. apply (bool_decide_unpack _). vm_compute. exact I.
  - cbn [toy_theta da_time]. apply (bool_decide_unpack _). vm_compute. exact I.
  - right. cbn [toy_theta da_time]. apply (bool_decide_unpack _). vm_compute. exact I.
Qed.

End FrontogenesisClaims.

(* ===================================================================== *)
(** * calc_WRF_ThetaE_Analysis.py: further properties                     *)
(* ===================================================================== *)

Section ThetaEMore.
Import ThetaE ThetaESpec ThetaEExamples MoreExamples ThetaEMoreSpec.

(** X1. If either input file cannot be opened, the function raises the
    error of [xr.open_dataset] at once, before any level is checked: no
    warning is printed, nothing is allocated, counted or written. *)
Theorem open_failure_aborts (w : world) (INPUT_DIR OUTPUT_FILE : string)
    (LEVELS : list Z) (s : state) (e : exn) :
  open_dataset w (INPUT_DIR +:+ "/eth.nc") = inl e
  \/ (exists ds_eth, open_dataset w (INPUT_DIR +:+ "/eth.nc") = ok ds_eth
                     /\ open_dataset w (INPUT_DIR +:+ "/ua,va.nc") = inl e) ->
  process_multiple_levels_iterative w INPUT_DIR OUTPUT_FILE LEVELS s = (inl e, s).
Proof.
  unfold process_multiple_levels_iterative, before_write, setup.
  intros [He|(ds_eth & He & Hw)].
  - unfold bind, lift. rewrite He. reflexivity.
  - unfold bind, lift. rewrite He. unfold ok. rewrite Hw. reflexivity.
Qed.

(** A directory whose files are missing. *)
Lemma open_failure_aborts_witness :
  process_multiple_levels_iterative
    (unreadable_world (Exn OSError "No such file or directory"))
    "./extract_wrf_to_nc" "./output/theta_e/WRF/the_gra.nc" default_level initial_state
  = (inl (Exn OSError "No such file or directory"), initial_state).
Proof.
  exact (open_failure_aborts (unreadable_world (Exn OSError "No such file or directory"))
           "./extract_wrf_to_nc" "./output/theta_e/WRF/the_gra.nc" default_level
           initial_state (Exn OSError "No such file or directory")
           (or_introl eq_refl)).
Defined.

(** X2. An input whose time coordinate is empty makes the function raise
    an IndexError where it prints the first and last time (line 70),
    after the levels have been validated: the level warning, if any, is
    on the console, and nothing is allocated, counted or written. *)
Theorem empty_time_coordinate_raises (w : world) (INPUT_DIR OUTPUT_FILE : string)
    (LEVELS : list Z) (s : state) (ds_eth ds_wind : dataset) :
  open_dataset w (INPUT_DIR +:+ "/eth.nc") = ok ds_eth ->
  open_dataset w (INPUT_DIR +:+ "/ua,va.nc") = ok ds_wind ->
  ds_Time ds_eth = [] ->
  process_multiple_levels_iterative w INPUT_DIR OUTPUT_FILE LEVELS s
  = (inl (Exn IndexError "index 0 is out of bounds for axis 0 with size 0"),
     State (output_arrays s) (current_iteration s)
           (console s ++ level_warnings LEVELS (ds_interp_level ds_eth)) (files s)).
Proof.
  intros He Hw Ht.
  unfold process_multiple_levels_iterative, before_write, setup, bind, lift.
  rewrite He, Hw. cbv beta iota delta [ok].
  rewrite validate_levels_run. cbv beta iota delta [ok]. rewrite Ht. reflexivity.
Qed.

Lemma empty_time_coordinate_raises_witness :
  process_multiple_levels_iterative timeless_world
    "./extract_wrf_to_nc" "./output/theta_e/WRF/the_gra.nc" [850%Z] initial_state
  = (inl (Exn IndexError "index 0 is out of bounds for axis 0 with size 0"),
     State (output_arrays initial_state) (current_iteration initial_state)
           (console initial_state ++ level_warnings [850%Z] [850%Z])
           (files initial_state)).
Proof.
  exact (empty_time_coordinate_raises timeless_world
           "./extract_wrf_to_nc" "./output/theta_e/WRF/the_gra.nc" [850%Z]
           initial_state timeless_dataset timeless_dataset eq_refl eq_refl eq_refl).
Defined.

(** Every combination counts, whether its computation returns or raises. *)
Lemma process_slice_counts c m member t time l level s :
  exists s', process_slice c m member t time l level s = (ok tt, s')
             /\ current_iteration s' = S (current_iteration s).
Proof.
  destruct (compute_slice c member time level) as [e|fields] eqn:Hc.
  - rewrite (process_slice_raised _ _ _ _ _ _ _ _ _ Hc). eexists.
    split; reflexivity.
  - destruct (process_slice_computed c m member t time l level fields s Hc)
      as (s' & Hrun & _ & _ & _ & Hi). eauto.
Qed.

(** X3. The triple loop runs its body once per combination, whatever
    fails on the way: when it is over the iteration counter equals
    [n_members * n_times * n_levels], the total announced before it. *)
Theorem every_combination_is_visited (c : context) (s : state) :
  exists s0 s',
    allocate c s = (ok tt, s0)
    /\ main_loop c s0 = (ok tt, s')
    /\ current_iteration s'
       = length (c_members c) * length (c_times c) * length (c_LEVELS c).
Proof.
  destruct (loop_inv_allocate c s) as (s0 & Ha & _ & Hi0 & _).
  exists s0.
  assert (Hlevels : forall m member t time s1,
    exists s2, levels_loop c m member t time s1 = (ok tt, s2)
               /\ current_iteration s2 = current_iteration s1 + length (c_LEVELS c)).
  { intros m member t time s1. unfold levels_loop.
    destruct (for_enum_ok
                (fun l s2 => current_iteration s2 = current_iteration s1 + l)
                (fun l_idx level => process_slice c m member t time l_idx level)
                (c_LEVELS c) 0 s1) as (s2 & Hrun & Hs2); [lia| |eauto].
    intros l level s2 _ Hs2. cbn [Nat.add].
    destruct (process_slice_counts c m member t time l level s2) as (s3 & Hr & Hi).
    exists s3. split; [exact Hr|lia]. }
  assert (Htimes : forall m member s1,
    exists s2, times_loop c m member s1 = (ok tt, s2)
               /\ current_iteration s2
                  = current_iteration s1 + length (c_times c) * length (c_LEVELS c)).
  { intros m member s1. unfold times_loop.
    destruct (for_enum_ok
                (fun t s2 => current_iteration s2
                             = current_iteration s1 + t * length (c_LEVELS c))
                (fun t_idx time => levels_loop c m member t_idx time)
                (c_times c) 0 s1) as (s2 & Hrun & Hs2); [lia| |eauto].
    intros t time s2 _ Hs2. cbn [Nat.add].
    destruct (Hlevels m member t time s2) as (s3 & Hr & Hi).
    exists s3. split; [exact Hr|lia]. }
  unfold main_loop.
  destruct (for_enum_ok
              (fun m s2 => current_iteration s2
                           = m * (length (c_times c) * length (c_LEVELS c)))
              (fun m_idx member =>
                 (print (ProcessingMember member (m_idx + 1)) ;;
                  times_loop c m_idx member)%M)
              (c_members c) 0 s0) as (s' & Hrun & Hs'); [lia| |].
  - intros m member s2 _ Hs2. cbn [Nat.add]. unfold bind at 1, print.
    destruct (Htimes m member
                (State (output_arrays s2) (current_iteration s2)
                       (console s2 ++ [ProcessingMember member (m + 1)]) (files s2)))
      as (s3 & Hr & Hi).
    exists s3. split; [exact Hr|]. cbn [current_iteration] in Hi. lia.
  - exists s'. split; [exact Ha|]. split; [exact Hrun|]. cbn [Nat.add] in Hs'. lia.
Qed.

(** X4. The loop neither grows nor shrinks the arrays: afterwards a slot
    exists exactly at the index triples of the allocated shape. *)
Theorem arrays_keep_their_shape (c : context) (s : state) (v : var_name)
    (m t l : nat) :
  exists s0 s',
    allocate c s = (ok tt, s0)
    /\ main_loop c s0 = (ok tt, s')
    /\ (is_Some (get_slot (output_arrays s' v) m t l)
        <-> m < length (c_members c) /\ t < length (c_times c)
            /\ l < length (c_LEVELS c)).
Proof.
  destruct (loop_inv_allocate c s) as (s0 & Ha & Hinv & _).
  destruct (main_loop_inv c (files s) s0 Hinv) as (s' & Hrun & _ & Hdone & Htodo & _).
  exists s0, s'. split; [assumption|]. split; [assumption|].
  destruct (decide (m < length (c_members c) /\ t < length (c_times c)
                    /\ l < length (c_LEVELS c))) as [(Hm & Ht & Hl)|Hout].
  - rewrite Hdone by (left; exact Hm). unfold target.
    destruct (lookup_lt_is_Some_2 _ _ Hm) as [member ->].
    destruct (lookup_lt_is_Some_2 _ _ Ht) as [time ->].
    destruct (lookup_lt_is_Some_2 _ _ Hl) as [level ->].
    split; [auto|eauto].
  - destruct (target_out_of_range c v m t l Hout) as [Htarget Halloc].
    destruct (decide (before_cursor (length (c_members c)) 0 0 m t l)) as [Hb|Hb].
    + rewrite Hdone, Htarget by assumption. split; [intros [? ?]; discriminate|tauto].
    + rewrite Htodo, Halloc by assumption. split; [intros [? ?]; discriminate|tauto].
Qed.


(** What a run of the whole function that returns went through. *)
Lemma process_inv w INPUT_DIR OUTPUT_FILE LEVELS s s' :
  process_multiple_levels_iterative w INPUT_DIR OUTPUT_FILE LEVELS s = (ok tt, s') ->
  exists c s0 s1,
    setup w INPUT_DIR LEVELS s = (ok c, s0)
    /\ before_write w INPUT_DIR LEVELS s = (ok c, s1)
    /\ files s' = <[OUTPUT_FILE := assembled w INPUT_DIR c (output_arrays s1)]> (files s)
    /\ forall v m t l, before_cursor (length (c_members c)) 0 0 m t l ->
         get_slot (output_arrays s1 v) m t l = target c v m t l.
Proof.
  unfold process_multiple_levels_iterative. intros H.
  apply bind_inv_ok in H as (c & s1 & Hbefore & Hwrite).
  apply write_output_inv in Hwrite as [Hf _].
  pose proof Hbefore as Hb. unfold before_write in Hb.
  apply bind_inv_ok in Hb as (c' & s0 & Hsetup & Hb).
  apply bind_inv_ok in Hb as ([] & sa & Halloc & Hb).
  apply bind_inv_ok in Hb as ([] & sl & Hloop & Hb).
  apply bind_inv_ok in Hb as ([] & sr & Hstat & Hb).
  injection Hb as <- <-.
  destruct (setup_inv _ _ _ _ _ _ Hsetup)
    as (ds_eth & ds_wind & dxdy & _ & _ & _ & _ & _ & Hs0).
  destruct (loop_inv_allocate c' s0) as (sa' & Ha & Hinv & _).
  rewrite Halloc in Ha. injection Ha as <-.
  destruct (main_loop_inv c' _ sa Hinv) as (sl' & Hl & Hfl & Hdone & _).
  rewrite Hloop in Hl. injection Hl as <-.
  destruct (report_statistics_run sl) as (sr' & Hr & Harr & _ & Hfr).
  rewrite Hstat in Hr. injection Hr as <-.
  exists c', s0, sr. split; [assumption|]. split; [assumption|]. split.
  - rewrite Hf, Hfr, Hfl, Hs0. reflexivity.
  - intros v m t l Hcur. rewrite Harr. apply Hdone, Hcur.
Qed.

(** X5. A run that returns has written exactly one file, at the output
    path: it carries the members and times of the input and the levels
    processed, the six variables in their order, and in every slot of
    every variable the field computed for that member, time and level,
    each cell converted to float32, or NaN when the computation of the
    combination raised. *)
Theorem run_writes_computed_fields (w : world) (INPUT_DIR OUTPUT_FILE : string)
    (LEVELS : list Z) (s s' : state) :
  process_multiple_levels_iterative w INPUT_DIR OUTPUT_FILE LEVELS s = (ok tt, s') ->
  written_as_computed w INPUT_DIR OUTPUT_FILE LEVELS s s'.
Proof.
  intros H. apply process_inv in H as (c & s0 & s1 & Hsetup & _ & Hf & Hslots).
  exists c, s0, (assembled w INPUT_DIR c (output_arrays s1)).
  split; [assumption|]. split; [assumption|].
  split; [reflexivity|]. split; [reflexivity|]. split; [reflexivity|].
  split; [reflexivity|].
  intros v x m member t time l level Hin Hm Ht Hl.
  assert (Hx : v_data x = output_arrays s1 v).
  { unfold assembled in Hin. cbn in Hin.
    repeat (apply elem_of_cons in Hin as [Hin|Hin];
            [injection Hin as -> ->; reflexivity|]).
    apply elem_of_nil in Hin. destruct Hin. }
  rewrite Hx, Hslots by (left; eapply lookup_lt_Some, Hm).
  unfold target. rewrite Hm, Ht, Hl. reflexivity.
Qed.

(** A run on the levels 875 and 850 hPa of a field of 300 K. *)
Lemma run_writes_computed_fields_witness :
  exists s',
    process_multiple_levels_iterative (toy_world [875; 850]%Z (Fin 300) None)
      "./extract_wrf_to_nc" "./output/theta_e/WRF/the_gra.nc"
      [875; 850; 825]%Z initial_state = (ok tt, s')
    /\ written_as_computed (toy_world [875; 850]%Z (Fin 300) None)
         "./extract_wrf_to_nc" "./output/theta_e/WRF/the_gra.nc"
         [875; 850; 825]%Z initial_state s'.
Proof.
  destruct (process_returns (toy_world [875; 850]%Z (Fin 300) None)
              "./extract_wrf_to_nc" "./output/theta_e/WRF/the_gra.nc"
              [875; 850; 825]%Z initial_state
              (toy_dataset [875; 850]%Z (Fin 300)) (toy_dataset [875; 850]%Z (Fin 300))
              (const_grid 3 2 (Fin 1), const_grid 2 3 (Fin 1)) 1024%Z
              eq_refl eq_refl eq_refl ltac:(discriminate)
              (fun _ => eq_refl) (fun _ => eq_refl) eq_refl) as [s' Hrun].
  exists s'. split; [exact Hrun|].
  exact (run_writes_computed_fields _ _ _ _ _ _ Hrun).
Defined.

Lemma statistics_lines (arrays : var_name -> array5) (vars : list var_name) (s : state) :
  for_each vars
    (fun var_name =>
       let data := flatten (arrays var_name) in
       match valid_values data with
       | x :: xs =>
           print (ValidRange var_name (foldr fp_min x xs) (foldr fp_max x xs)
                             (length (x :: xs)) (length data))
       | [] => print (NoValidData var_name)
       end) s
  = (ok tt, State (output_arrays s) (current_iteration s)
                  (console s ++ List.map (statistics_line arrays) vars) (files s)).
Proof.
  revert s. induction vars as [|v vars IH]; intros s.
  - cbn. rewrite app_nil_r. destruct s; reflexivity.
  - cbn [for_each List.map].
    assert (Hline : (let data := flatten (arrays v) in
                     match valid_values data with
                     | x :: xs =>
                         print (ValidRange v (foldr fp_min x xs) (foldr fp_max x xs)
                                           (length (x :: xs)) (length data))
                     | [] => print (NoValidData v)
                     end) s
                    = (ok tt, State (output_arrays s) (current_iteration s)
                                    (console s ++ [statistics_line arrays v]) (files s))).
    { unfold statistics_line. cbv zeta. destruct (valid_values _); reflexivity. }
    erewrite bind_ok by exact Hline.
    rewrite IH. cbn [output_arrays current_iteration console files].
    rewrite <- app_assoc. reflexivity.
Qed.

(** The order of the cells that are not NaN. *)
Lemma fp_le_refl (a : fp) : a <> NaN -> fp_le a a.
Proof. destruct a as [|[|]|x]; cbn; [congruence|trivial..|lra]. Qed.

Lemma fp_le_trans (a b c : fp) : fp_le a b -> fp_le b c -> fp_le a c.
Proof.
  destruct a as [|[|]|x], b as [|[|]|y], c as [|[|]|z]; cbn; try tauto. lra.
Qed.

Lemma fp_le_total (a b : fp) : a <> NaN -> b <> NaN -> fp_le a b \/ fp_le b a.
Proof.
  destruct a as [|[|]|x], b as [|[|]|y]; cbn; try tauto; try congruence. lra.
Qed.

Lemma fp_min_bound (a b : fp) :
  a <> NaN -> b <> NaN ->
  fp_min a b <> NaN /\ fp_le (fp_min a b) a /\ fp_le (fp_min a b) b.
Proof.
  intros Ha Hb. unfold fp_min. destruct (fp_le_dec a b) as [Hle|Hnle].
  - split; [exact Ha|]. split; [apply fp_le_refl, Ha|exact Hle].
  - split; [exact Hb|]. split; [|apply fp_le_refl, Hb].
    destruct (fp_le_total a b Ha Hb); [contradiction|assumption].
Qed.

Lemma fp_max_bound (a b : fp) :
  a <> NaN -> b <> NaN ->
  fp_max a b <> NaN /\ fp_le a (fp_max a b) /\ fp_le b (fp_max a b).
Proof.
  intros Ha Hb. unfold fp_max. destruct (fp_le_dec a b) as [Hle|Hnle].
  - split; [exact Hb|]. split; [exact Hle|apply fp_le_refl, Hb].
  - split; [exact Ha|]. split; [apply fp_le_refl, Ha|].
    destruct (fp_le_total a b Ha Hb); [contradiction|assumption].
Qed.

Lemma foldr_fp_min_bound (x : fp) (xs : list fp) :
  (forall y, y ∈ x :: xs -> y <> NaN) ->
  foldr fp_min x xs <> NaN
  /\ forall y, y ∈ x :: xs -> fp_le (foldr fp_min x xs) y.
Proof.
  induction xs as [|z xs IH]; intros Hvalid; cbn [foldr].
  - split; [apply Hvalid; left|]. intros y Hy.
    apply list_elem_of_singleton in Hy as ->. apply fp_le_refl, Hvalid. left.
  - destruct IH as [Hm Hle].
    { intros y Hy. apply Hvalid. apply elem_of_cons in Hy as [->|Hy];
        [left|right; right; exact Hy]. }
    assert (Hz : z <> NaN) by (apply Hvalid; right; left).
    destruct (fp_min_bound z (foldr fp_min x xs) Hz Hm) as (Hn & Hlz & Hlm).
    split; [exact Hn|]. intros y Hy.
    apply elem_of_cons in Hy as [->|Hy].
    + eapply fp_le_trans; [exact Hlm|]. apply Hle. left.
    + apply elem_of_cons in Hy as [->|Hy]; [exact Hlz|].
      eapply fp_le_trans; [exact Hlm|]. apply Hle. right. exact Hy.
Qed.

Lemma foldr_fp_max_bound (x : fp) (xs : list fp) :
  (forall y, y ∈ x :: xs -> y <> NaN) ->
  foldr fp_max x xs <> NaN
  /\ forall y, y ∈ x :: xs -> fp_le y (foldr fp_max x xs).
Proof.
  induction xs as [|z xs IH]; intros Hvalid; cbn [foldr].
  - split; [apply Hvalid; left|]. intros y Hy.
    apply list_elem_of_singleton in Hy as ->. apply fp_le_refl, Hvalid. left.
  - destruct IH as [Hm Hle].
    { intros y Hy. apply Hvalid. apply elem_of_cons in Hy as [->|Hy];
        [left|right; right; exact Hy]. }
    assert (Hz : z <> NaN) by (apply Hvalid; right; left).
    destruct (fp_max_bound z (foldr fp_max x xs) Hz Hm) as (Hn & Hlz & Hlm).
    split; [exact Hn|]. intros y Hy.
    apply elem_of_cons in Hy as [->|Hy].
    + eapply fp_le_trans; [|exact Hlm]. apply Hle. left.
    + apply elem_of_cons in Hy as [->|Hy]; [exact Hlz|].
      eapply fp_le_trans; [|exact Hlm]. apply Hle. right. exact Hy.
Qed.

Lemma valid_values_length (data : list fp) :
  length (valid_values data) <= length data.
Proof.
  unfold valid_values. induction data as [|a data IH]; cbn; [lia|].
  destruct (negb (is_nan a)); cbn; lia.
Qed.

Lemma valid_values_valid (data : list fp) (a : fp) :
  a ∈ valid_values data <-> a ∈ data /\ a <> NaN.
Proof.
  unfold valid_values. rewrite !list_elem_of_In, List.filter_In.
  destruct a as [|s|x]; cbn; split; intros [H1 H2]; split;
    solve [assumption | discriminate | congruence | reflexivity].
Qed.

Lemma valid_values_none (data : list fp) :
  valid_values data = [] <-> Forall (fun a => a = NaN) data.
Proof.
  unfold valid_values. induction data as [|[|s|x] data IH]; cbn.
  - split; [constructor|reflexivity].
  - rewrite IH. split; [constructor; [reflexivity|assumption]|].
    intros H. inversion_clear H as [|? ? _ H']. exact H'.
  - split; [discriminate|]. intros H. inversion_clear H as [|? ? H' _]. discriminate.
  - split; [discriminate|]. intros H. inversion_clear H as [|? ? H' _]. discriminate.
Qed.

(** X6. The statistics print one line per variable, in the order of the
    dictionary, and change nothing else.  The line is "No valid data"
    exactly when no cell of the array holds a number; otherwise it
    gives the number of valid cells, between 1 and the array's size, and
    a range that bounds every valid cell, the infinities being valid
    cells like the finite numbers. *)
Theorem statistics_report (s : state) :
  report_statistics s
  = (ok tt, State (output_arrays s) (current_iteration s)
                  (console s ++ List.map (statistics_line (output_arrays s)) all_vars)
                  (files s))
  /\ forall v,
       let data := flatten (output_arrays s v) in
       match statistics_line (output_arrays s) v with
       | NoValidData v' => v' = v /\ Forall (fun a => a = NaN) data
       | ValidRange v' lo hi valid size =>
           v' = v /\ valid = length (valid_values data) /\ size = length data
           /\ 0 < valid <= size
           /\ Forall (fun x => fp_le lo x /\ fp_le x hi) (valid_values data)
       | _ => False
       end.
Proof.
  split.
  - unfold report_statistics, get_arrays. unfold bind at 1. apply statistics_lines.
  - intros v. cbv zeta. unfold statistics_line.
    pose proof (valid_values_length (flatten (output_arrays s v))) as Hlen.
    pose proof (valid_values_none (flatten (output_arrays s v))) as Hnone.
    pose proof (fun a => proj1 (valid_values_valid (flatten (output_arrays s v)) a))
      as Hvalid.
    destruct (valid_values (flatten (output_arrays s v))) as [|x xs].
    + split; [reflexivity|]. apply Hnone. reflexivity.
    + split; [reflexivity|]. split; [reflexivity|]. split; [reflexivity|].
      split; [cbn [length] in *; lia|].
      destruct (foldr_fp_min_bound x xs) as [_ Hmin]; [intros y Hy; apply Hvalid, Hy|].
      destruct (foldr_fp_max_bound x xs) as [_ Hmax]; [intros y Hy; apply Hvalid, Hy|].
      apply list.Forall_forall. intros y Hy. split; [apply Hmin|apply Hmax]; exact Hy.
Qed.

Lemma filter_partition {A} (p : A -> bool) (l : list A) :
  l ≡ₚ List.filter p l ++ List.filter (fun a => negb (p a)) l.
Proof.
  induction l as [|a l IH]; [reflexivity|].
  cbn. destruct (p a); cbn.
  - constructor. exact IH.
  - rewrite <- Permutation_middle. constructor. exact IH.
Qed.

(** X7. Validation loses no level: every requested level is either
    processed or named in the warning, each as often as requested.  The
    warning is printed exactly when some requested level is absent from
    the input, every processed level is one of the input, and validating
    the processed list again changes nothing and prints nothing. *)
Theorem levels_processed_or_reported (LEVELS available : list Z) (s : state) :
  LEVELS ≡ₚ List.filter (level_in available) LEVELS ++ missing_levels LEVELS available
  /\ (level_warnings LEVELS available = []
      <-> Forall (fun level => level_in available level = true) LEVELS)
  /\ Forall (fun level => level_in available level = true)
            (List.filter (level_in available) LEVELS)
  /\ validate_levels (List.filter (level_in available) LEVELS) available s
     = (ok (List.filter (level_in available) LEVELS), s).
Proof.
  assert (Hall : Forall (fun level => level_in available level = true)
                        (List.filter (level_in available) LEVELS)).
  { apply Forall_forall. intros level Hin.
    apply List.filter_In in Hin as [_ Hin]. exact Hin. }
  assert (Hmiss : forall L, missing_levels L available = []
                            <-> Forall (fun level => level_in available level = true) L).
  { intros L. unfold missing_levels. induction L as [|l L IH]; cbn.
    - split; [constructor|reflexivity].
    - destruct (level_in available l) eqn:Hl; cbn.
      + rewrite IH. split; [constructor; assumption|].
        intros H. inversion_clear H as [|? ? _ H']. rename H' into H. exact H.
      + split; [discriminate|]. intros H. inversion_clear H as [|? ? H' _]. rename H' into H.
        congruence. }
  split; [apply filter_partition|]. split; [|split; [exact Hall|]].
  - rewrite <- Hmiss. unfold level_warnings.
    destruct (missing_levels LEVELS available); split; try reflexivity; discriminate.
  - apply Hmiss in Hall. unfold validate_levels. rewrite Hall. reflexivity.
Qed.

(** X8. The magnitude of a gradient (line 122) has a cell wherever both
    derivatives have one.  Where both are numbers it is a number that is
    not negative, and zero where both derivatives are zero; where either
    is NaN it is NaN; where one is infinite and none is NaN it is plus
    infinity. *)
Theorem gradient_magnitude_cell (dfdx dfdy : grid) (i j : nat) (a b : fp) :
  cell_at dfdx i j = Some a ->
  cell_at dfdy i j = Some b ->
  exists r,
    cell_at (gradient_magnitude dfdx dfdy) i j = Some r
    /\ match a, b with
       | NaN, _ | _, NaN => r = NaN
       | Fin x, Fin y =>
           exists z, r = Fin z /\ (0 <= z)%R /\ (x = 0%R -> y = 0%R -> z = 0%R)
       | _, _ => r = Inf false
       end.
Proof.
  intros Ha Hb. rewrite cell_at_gradient_magnitude, Ha, Hb.
  eexists. split; [reflexivity|].
  destruct a as [|s|x], b as [|s'|y]; try reflexivity.
  rewrite magnitude_finite. eexists. split; [reflexivity|]. split; [apply sqrt_pos|].
  intros -> ->. etransitivity; [|apply sqrt_0]. f_equal. ring.
Qed.

(** The derivatives 3 and 4 K/m at the one cell of a field. *)
Lemma gradient_magnitude_cell_witness :
  exists r,
    cell_at (gradient_magnitude [[Fin 3]] [[Fin 4]]) 0 0 = Some r
    /\ exists z, r = Fin z /\ (0 <= z)%R /\ (3%R = 0%R -> 4%R = 0%R -> z = 0%R).
Proof.
  exact (gradient_magnitude_cell [[Fin 3]] [[Fin 4]] 0 0 (Fin 3) (Fin 4) eq_refl eq_refl).
Defined.

(** Adding variables and attributes leaves the coordinates as they are. *)
Lemma assembled_coords w INPUT_DIR c arrays :
  coord_member (assembled w INPUT_DIR c arrays) = c_members c
  /\ coord_Time (assembled w INPUT_DIR c arrays) = c_times c
  /\ coord_level (assembled w INPUT_DIR c arrays) = c_LEVELS c.
Proof. repeat split. Qed.

(** X9. In a world whose directory can be made, whose input opens with
    at least one time step and whose output is accepted and written, the
    script returns: the exit status is 0, the last line printed is the
    closing message, and the file [./output/theta_e/WRF/the_gra.nc] holds
    the dataset whose levels are those of the [-L] option, or of the
    default 875, 850, 825, that the input has.  If the directory cannot
    be made the script raises before anything else is done. *)
Theorem main_completes (w : world) (level : option (list Z)) (s : state)
    (ds_eth ds_wind : dataset) (dxdy : grid * grid) (n : Z) :
  open_dataset w "./extract_wrf_to_nc/eth.nc" = ok ds_eth ->
  open_dataset w "./extract_wrf_to_nc/ua,va.nc" = ok ds_wind ->
  lat_lon_grid_deltas w (ds_XLONG ds_eth) (ds_XLAT ds_eth) = ok dxdy ->
  ds_Time ds_eth <> [] ->
  (forall ds, xr_validate w ds = None) ->
  (forall ds, to_netcdf w "./output/theta_e/WRF/the_gra.nc" ds = None) ->
  getsize w "./output/theta_e/WRF/the_gra.nc" = ok n ->
  (makedirs w "./output/theta_e/WRF" = None ->
   exists s' ds,
     main w level s = (ok tt, s')
     /\ exit_status (main w level s) = 0%Z
     /\ list.last (console s') = Some AllCompleted
     /\ files s' !! "./output/theta_e/WRF/the_gra.nc" = Some ds
     /\ coord_level ds
        = List.filter (level_in (ds_interp_level ds_eth))
                      (default [875; 850; 825]%Z level))
  /\ (forall e, makedirs w "./output/theta_e/WRF" = Some e ->
                main w level s = (inl e, s) /\ exit_status (main w level s) = 1%Z).
Proof.
  intros He Hw Hd Ht Hv Hnc Hg. split.
  - intros Hdirs.
    destruct (process_returns w "./extract_wrf_to_nc" "./output/theta_e/WRF/the_gra.nc"
                (default default_level level) s ds_eth ds_wind dxdy n
                He Hw Hd Ht Hv Hnc Hg) as (s1 & Hrun).
    destruct (process_inv _ _ _ _ _ _ Hrun) as (c & s0 & sb & Hsetup & _ & Hf & _).
    destruct (setup_inv _ _ _ _ _ _ Hsetup)
      as (ds_eth' & ds_wind' & dxdy' & He' & _ & _ & _ & Hc & _).
    change ("./extract_wrf_to_nc" +:+ "/eth.nc") with "./extract_wrf_to_nc/eth.nc" in He'.
    rewrite He in He'. injection He' as <-.
    assert (Hmain : main w level s
                    = (ok tt, State (output_arrays s1) (current_iteration s1)
                                    (console s1 ++ [AllCompleted]) (files s1))).
    { unfold main. unfold bind at 1, check. rewrite Hdirs. cbn [ret].
      change ("./output/theta_e/WRF" +:+ "/the_gra.nc")
        with "./output/theta_e/WRF/the_gra.nc".
      rewrite (bind_ok _ _ _ _ _ Hrun). reflexivity. }
    eexists. eexists. split; [exact Hmain|].
    split; [unfold exit_status; rewrite Hmain; reflexivity|].
    cbn [console files]. split; [apply last_snoc|].
    split; [rewrite Hf; apply lookup_insert_eq|].
    rewrite (proj2 (proj2 (assembled_coords _ _ _ _))), Hc. reflexivity.
  - intros e Hdirs.
    assert (Hmain : main w level s = (inl e, s)).
    { unfold main. unfold bind at 1, check. rewrite Hdirs. reflexivity. }
    split; [exact Hmain|]. unfold exit_status. rewrite Hmain. reflexivity.
Qed.

(** The script run without [-L] on an input that holds 875 and 850 hPa. *)
Lemma main_completes_witness :
  exists s' ds,
    main (toy_world [875; 850]%Z (Fin 300) None) None initial_state = (ok tt, s')
    /\ exit_status (main (toy_world [875; 850]%Z (Fin 300) None) None initial_state) = 0%Z
    /\ list.last (console s') = Some AllCompleted
    /\ files s' !! "./output/theta_e/WRF/the_gra.nc" = Some ds
    /\ coord_level ds = List.filter (level_in [875; 850]%Z) [875; 850; 825]%Z.
Proof.
  exact (proj1 (main_completes (toy_world [875; 850]%Z (Fin 300) None) None initial_state
                  (toy_dataset [875; 850]%Z (Fin 300)) (toy_dataset [875; 850]%Z (Fin 300))
                  (const_grid 3 2 (Fin 1), const_grid 2 3 (Fin 1)) 1024%Z
                  eq_refl eq_refl eq_refl ltac:(discriminate)
                  (fun _ => eq_refl) (fun _ => eq_refl) eq_refl) eq_refl).
Defined.

(** X10. The file a run writes describes what was processed, not what
    was requested: its level coordinate is the list of the requested
    levels that the input holds, in the order requested; its
    [pressure_levels] attribute is that list as Python prints it,
    followed by [" hPa"], its description names the same list and
    [levels_processed] is its length; its source is
    ["Processed from "] followed by the input directory; each variable
    carries the units and the long name of its entry in [var_configs]
    and the same [pressure_levels].  No other file is written. *)
Theorem written_metadata (w : world) (INPUT_DIR OUTPUT_FILE : string)
    (LEVELS : list Z) (s s' : state) :
  process_multiple_levels_iterative w INPUT_DIR OUTPUT_FILE LEVELS s = (ok tt, s') ->
  exists ds_eth ds,
    open_dataset w (INPUT_DIR +:+ "/eth.nc") = ok ds_eth
    /\ files s' !! OUTPUT_FILE = Some ds
    /\ coord_level ds = List.filter (level_in (ds_interp_level ds_eth)) LEVELS
    /\ attr_pressure_levels ds = Some (format_levels (coord_level ds) +:+ " hPa")
    /\ attr_description ds
       = Some ("Derived meteorological variables from WRF data at "
                 +:+ format_levels (coord_level ds) +:+ " hPa levels")
    /\ attr_levels_processed ds = Some (length (coord_level ds))
    /\ attr_source ds = Some ("Processed from " +:+ INPUT_DIR)
    /\ Forall (fun entry : var_name * variable =>
                 v_units entry.2 = (var_configs entry.1).1
                 /\ v_long_name entry.2 = (var_configs entry.1).2
                 /\ v_pressure_levels entry.2
                    = format_levels (coord_level ds) +:+ " hPa")
              (data_vars ds)
    /\ forall path, path <> OUTPUT_FILE -> files s' !! path = files s !! path.
Proof.
  intros H. apply process_inv in H as (c & s0 & s1 & Hsetup & _ & Hf & _).
  destruct (setup_inv _ _ _ _ _ _ Hsetup)
    as (ds_eth & ds_wind & dxdy & He & _ & _ & _ & Hc & _).
  exists ds_eth, (assembled w INPUT_DIR c (output_arrays s1)).
  split; [exact He|]. split; [rewrite Hf; apply lookup_insert_eq|].
  split; [rewrite Hc; reflexivity|].
  split; [reflexivity|]. split; [reflexivity|]. split; [reflexivity|].
  split; [reflexivity|]. split; [repeat constructor|].
  intros path Hpath. rewrite Hf. apply lookup_insert_ne. congruence.
Qed.

(** A request for 875, 850 and 825 hPa on an input that holds the first
    two. *)
Lemma written_metadata_witness :
  exists s' ds,
    process_multiple_levels_iterative (toy_world [875; 850]%Z (Fin 300) None)
      "./extract_wrf_to_nc" "./output/theta_e/WRF/the_gra.nc"
      [875; 850; 825]%Z initial_state = (ok tt, s')
    /\ files s' !! "./output/theta_e/WRF/the_gra.nc" = Some ds
    /\ coord_level ds = [875; 850]%Z
    /\ attr_pressure_levels ds = Some "[875, 850] hPa"
    /\ attr_source ds = Some "Processed from ./extract_wrf_to_nc"
    /\ attr_levels_processed ds = Some 2.
Proof.
  destruct (process_returns (toy_world [875; 850]%Z (Fin 300) None)
              "./extract_wrf_to_nc" "./output/theta_e/WRF/the_gra.nc"
              [875; 850; 825]%Z initial_state
              (toy_dataset [875; 850]%Z (Fin 300)) (toy_dataset [875; 850]%Z (Fin 300))
              (const_grid 3 2 (Fin 1), const_grid 2 3 (Fin 1)) 1024%Z
              eq_refl eq_refl eq_refl ltac:(discriminate)
              (fun _ => eq_refl) (fun _ => eq_refl) eq_refl) as [s' Hrun].
  destruct (written_metadata _ _ _ _ _ _ Hrun)
    as (ds_eth & ds & He & Hf & Hlev & Hpl & _ & Hn & Hsrc & _).
  injection He as <-.
  exists s', ds. split; [exact Hrun|]. split; [exact Hf|].
  split; [exact Hlev|]. split; [rewrite Hpl, Hlev; reflexivity|].
  split; [exact Hsrc|]. rewrite Hn, Hlev. reflexivity.
Defined.

End ThetaEMore.

(* ===================================================================== *)
(** * ana_duration_hours.py: further properties                           *)
(* ===================================================================== *)

Section DurationMore.
Import Duration DurationSpec DurationMoreSpec.









Lemma with_duration_le (df : dataframe) : with_duration df <= length df.
Proof.
  unfold with_duration, durations. induction df as [|[st en [q|]] df IH]; cbn; lia.
Qed.



Lemma fsum_nan (a : list fp) : NaN ∈ a -> fsum a = NaN.
Proof.
  unfold fsum. induction a as [|x a IH]; intros H.
  - apply elem_of_nil in H. destruct H.
  - cbn [foldr]. apply elem_of_cons in H as [<-|H]; [reflexivity|].
    rewrite (IH H). destruct x; reflexivity.
Qed.

(** X12. A row whose duration is missing is left out of the frequency
    table, whose counts then sum to less than the number of rows, but it
    is not left out of the t test (line 60): the statistic and the
    p-value are both NaN. *)
Theorem missing_duration_spoils_ttest (t_sf : R -> R -> R) (df : dataframe) :
  None ∈ durations df ->
  t_test t_sf df = (NaN, NaN)
  /\ total_count (duration_counts df) < length df.
Proof.
  intros Hmiss. split.
  - unfold t_test, ttest_1samp. cbv zeta.
    assert (Hmean : mean (List.map to_fp (durations df)) = NaN).
    { unfold mean. rewrite fsum_nan; [reflexivity|].
      change NaN with (to_fp None). apply list_elem_of_fmap_2, Hmiss. }
    rewrite Hmean. reflexivity.
  - unfold duration_counts. rewrite value_counts_total.
    unfold durations in *. clear t_sf.
    induction df as [|[st en [q|]] df IH].
    + apply elem_of_nil in Hmiss. destruct Hmiss.
    + cbn [List.map duration_hours] in Hmiss.
      apply elem_of_cons in Hmiss as [Hmiss|Hmiss]; [discriminate|].
      specialize (IH Hmiss). cbn in *. lia.
    + pose proof (with_duration_le df) as Hle. unfold with_duration, durations in Hle.
      cbn in *. lia.
Qed.

(** A table of two rows, the second without a duration. *)
Lemma missing_duration_spoils_ttest_witness :
  t_test (fun _ _ => 0%R) [Row "2006-06-09" "2006-06-10" (Some 24%Q);
                           Row "2006-06-11" "2006-06-12" None] = (NaN, NaN)
  /\ total_count (duration_counts [Row "2006-06-09" "2006-06-10" (Some 24%Q);
                                   Row "2006-06-11" "2006-06-12" None]) < 2.
Proof.
  apply (missing_duration_spoils_ttest (fun _ _ => 0%R)
           [Row "2006-06-09" "2006-06-10" (Some 24%Q);
            Row "2006-06-11" "2006-06-12" None]).
  right. left.
Defined.

End DurationMore.

(* ===================================================================== *)
(** * frontogenesis_tendency_comparison.py: further properties            *)
(* ===================================================================== *)

Section FrontogenesisMore.
Import Frontogenesis FrontogenesisSpec FrontogenesisExamples FrontogenesisMoreSpec.

(** X13. An error in reading the inputs (a file that does not open, a
    grid spacing that cannot be computed, a level 850 hPa or a member 1
    that a variable does not have) ends the script with that error
    before anything is computed, drawn or saved: of the actions traced,
    only the starting message has happened. *)
Theorem input_failure_ends_script (w : world) (trace : list action) (e : exn) :
  input_failure w e ->
  script w trace = (inl e, trace ++ [Console "Starting WRF frontogenesis analysis..."]).
Proof.
  intros Hfail. unfold script. cbv zeta. unfold bind at 1, act.
  destruct Hfail as [H1|ds_theta H1 H2|ds_theta ds_winds H1 H2 H3
                    |ds_theta ds_winds dxdy H1 H2 H3 H4
                    |ds_theta ds_winds dxdy theta H1 H2 H3 H4 H5
                    |ds_theta ds_winds dxdy theta u_wind H1 H2 H3 H4 H5 H6].
  - unfold bind at 1, lift. rewrite H1. reflexivity.
  - rewrite (bind_lift_ok _ _ _ _ H1). unfold bind at 1, lift. rewrite H2. reflexivity.
  - rewrite (bind_lift_ok _ _ _ _ H1), (bind_lift_ok _ _ _ _ H2).
    unfold bind at 1, lift. rewrite H3. reflexivity.
  - rewrite (bind_lift_ok _ _ _ _ H1), (bind_lift_ok _ _ _ _ H2),
      (bind_lift_ok _ _ _ _ H3).
    unfold bind at 1, lift. rewrite H4. reflexivity.
  - rewrite (bind_lift_ok _ _ _ _ H1), (bind_lift_ok _ _ _ _ H2),
      (bind_lift_ok _ _ _ _ H3), (bind_lift_ok _ _ _ _ H4).
    unfold bind at 1, lift. rewrite H5. reflexivity.
  - rewrite (bind_lift_ok _ _ _ _ H1), (bind_lift_ok _ _ _ _ H2),
      (bind_lift_ok _ _ _ _ H3), (bind_lift_ok _ _ _ _ H4), (bind_lift_ok _ _ _ _ H5).
    unfold bind at 1, lift. rewrite H6. reflexivity.
Qed.

(** The input directory is not there. *)
Lemma input_failure_ends_script_witness :
  script (closed_world (Exn OSError "No such file or directory")) []
  = (inl (Exn OSError "No such file or directory"),
     [Console "Starting WRF frontogenesis analysis..."]).
Proof.
  apply (input_failure_ends_script
           (closed_world (Exn OSError "No such file or directory")) []).
  apply theta_file_fails. reflexivity.
Defined.

Ltac innermost_case :=
  match goal with
  | |- context [match ?x with _ => _ end] =>
      lazymatch x with
      | context [match _ with _ => _ end] => fail
      | _ => destruct x
      end
  end.

Ltac stopped_without_image :=
  rewrite <- ?app_assoc; cbn [app];
  eexists; eexists; split; [reflexivity|]; repeat constructor.

(** X14. Whatever the outside calls do, the image is saved only by a run
    that completes: a run that raises has saved nothing, and a run that
    returns has made the output directory and saved one image, under
    the name built from the target time, as its last action before the
    closing message. *)
Theorem image_saved_last (w : world) (trace : list action) :
  exists r more,
    script w trace = (r, trace ++ more)
    /\ match r with
       | inl _ => no_image more
       | inr _ =>
           exists drawn,
             more = drawn ++ [SaveFig (output_filename w); Console "Analysis complete!"]
             /\ no_image drawn
             /\ MakeDirs OUTPUT_DIR ∈ drawn
       end.
Proof.
  unfold script. cbv zeta. unfold bind, lift, call, act, throw, ok, no_image.
  do 19 (cbv beta iota; innermost_case; [solve [stopped_without_image]|]).
  cbv beta iota. rewrite <- ?app_assoc. cbn [app].
  eexists. eexists. split; [reflexivity|].
  refine (ex_intro _ [_; _; _; _; _; _; _; _; _; _; _; _] (conj eq_refl _)).
  split; [repeat constructor|]. do 5 right. left.
Qed.

Lemma sel_time_at (times : list Z) (data : list grid) (t : Z) (k : nat) (x : grid) :
  times !! k = Some t ->
  (forall k', times !! k' = Some t -> k' = k) ->
  data !! k = Some x ->
  sel_time (DataArray times data) t = ok (Arr2 x).
Proof.
  intros Hk Huniq Hx. unfold sel_time. cbn [da_time da_data].
  assert (Hsel : List.map snd (List.filter (fun td : Z * grid => (td.1 =? t)%Z)
                                           (zip times data)) = [x]).
  { revert data k Hk Huniq Hx.
    induction times as [|t0 times IH]; intros data k Hk Huniq Hx; [discriminate|].
    destruct data as [|x0 data]; [destruct k; discriminate|]. cbn.
    destruct k as [|k].
    - injection Hk as ->. injection Hx as ->. rewrite Z.eqb_refl. cbn. f_equal.
      assert (Hnone : forall k', times !! k' <> Some t)
        by (intros k' Hk'; specialize (Huniq (S k') Hk'); discriminate).
      clear -Hnone. revert data.
      induction times as [|t1 times IH]; intros data; [reflexivity|].
      destruct data as [|x1 data]; [reflexivity|]. cbn.
      destruct (Z.eqb_spec t1 t) as [->|Hne]; [destruct (Hnone 0 eq_refl)|].
      apply IH. intros k'. apply (Hnone (S k')).
    - destruct (Z.eqb_spec t0 t) as [->|Hne].
      + specialize (Huniq 0 eq_refl). discriminate.
      + apply (IH data k); [assumption| |assumption].
        intros k' Hk'. specialize (Huniq (S k') Hk'). congruence. }
  rewrite Hsel. reflexivity.
Qed.

(** The tendency when each of the two hours is in the time coordinate
    once. *)
Lemma gradient_tendency_at (w : world) (theta : data_array)
    (dx_3d dy_3d dtheta_dx dtheta_dy : list grid) (i j : nat)
    (gx_i gy_i gx_j gy_j : grid) :
  geospatial_gradient w theta dx_3d dy_3d = ok (dtheta_dx, dtheta_dy) ->
  length dtheta_dx = length (da_time theta) ->
  length dtheta_dy = length (da_time theta) ->
  NoDup (da_time theta) ->
  da_time theta !! i = Some time_before ->
  da_time theta !! j = Some time_after ->
  dtheta_dx !! i = Some gx_i -> dtheta_dy !! i = Some gy_i ->
  dtheta_dx !! j = Some gx_j -> dtheta_dy !! j = Some gy_j ->
  gradient_tendency w theta dx_3d dy_3d
  = ok (Arr2 (grid_map (fun x => div x (Fin time_interval))
                       (sub (gradient_magnitude gx_j gy_j)
                            (gradient_magnitude gx_i gy_i)))).
Proof.
  intros Hgrad Hlx Hly Hnd Hi Hj Hxi Hyi Hxj Hyj.
  unfold gradient_tendency. rewrite Hgrad. unfold ok, rbind. cbn [fst snd].
  assert (Hlen : length (zip_with gradient_magnitude dtheta_dx dtheta_dy)
                 = length (da_time theta)).
  { rewrite length_zip_with. lia. }
  assert (Hgm : forall k gx gy, dtheta_dx !! k = Some gx -> dtheta_dy !! k = Some gy ->
                  zip_with gradient_magnitude dtheta_dx dtheta_dy !! k
                  = Some (gradient_magnitude gx gy)).
  { intros k gx gy Hx Hy. rewrite lookup_zip_with, Hx. cbn. rewrite Hy. reflexivity. }
  unfold mask_select. rewrite !length_map, Hlen, Nat.eqb_refl. unfold ok.
  rewrite (mask_filter_one time_after (da_time theta) _ j _ Hj
             (fun k Hk => NoDup_lookup _ _ _ _ Hnd Hk Hj) (Hgm _ _ _ Hxj Hyj)).
  rewrite (mask_filter_one time_before (da_time theta) _ i _ Hi
             (fun k Hk => NoDup_lookup _ _ _ _ Hnd Hk Hi) (Hgm _ _ _ Hxi Hyi)).
  reflexivity.
Qed.

Lemma has_cells_grid_map (f : fp -> fp) (g : grid) :
  has_cells g -> has_cells (grid_map f g).
Proof. destruct g as [|[|c r] g]; intros H; exact H. Qed.

Lemma has_cells_sub (a b : grid) : has_cells a -> has_cells b -> has_cells (sub a b).
Proof.
  destruct a as [|[|ca ra] a]; intros Ha; try destruct Ha.
  destruct b as [|[|cb rb] b]; intros Hb; try destruct Hb. exact I.
Qed.

Lemma has_cells_gradient_magnitude (dfdx dfdy : grid) :
  has_cells dfdx -> has_cells dfdy -> has_cells (gradient_magnitude dfdx dfdy).
Proof.
  destruct dfdx as [|[|ca ra] a]; intros Ha; try destruct Ha.
  destruct dfdy as [|[|cb rb] b]; intros Hb; try destruct Hb. exact I.
Qed.

Lemma nan_reduce_cells (g : grid) : has_cells g -> nan_reduce (Arr2 g) = ok tt.
Proof. destruct g as [|[|c r] g]; intros H; try destruct H. reflexivity. Qed.

Lemma bind_act {A} (a : action) (k : unit -> M A) (s : list action) :
  bind (act a) k s = k tt (s ++ [a]).
Proof. reflexivity. Qed.

Lemma bind_call_ok {A} (o : option exn) (a : action) (k : unit -> M A)
    (s : list action) :
  o = None -> bind (call o a) k s = k tt (s ++ [a]).
Proof. intros ->. reflexivity. Qed.

(** X15. When the inputs are read and the fields computed, on a time
    coordinate without repeats that holds the target time and the hours
    before and after it, on fields that have cells, and when no plotting
    call fails, the script completes: it prints its messages, makes the
    output directory, draws the two panels and saves the image under
    [OUTPUT_DIR] with the target time in its name.  The left panel holds
    the frontogenesis at the target time multiplied by 3 600 000 (K/m/s
    as K/km/h).  The right panel holds, where the gradient components
    are the numbers [(xi, yi)] one hour before and [(xj, yj)] one hour
    after, [(sqrt (xj^2 + yj^2) - sqrt (xi^2 + yi^2)) / 7200 * 3600000]. *)
Theorem script_completes (w : world) (trace : list action) (theta : data_array)
    (data dtheta_dx dtheta_dy : list grid) (i k j : nat)
    (fg gx_i gy_i gx_j gy_j : grid) :
  computes w theta data dtheta_dx dtheta_dy ->
  NoDup (da_time theta) ->
  da_time theta !! i = Some time_before ->
  da_time theta !! k = Some TARGET_TIME ->
  da_time theta !! j = Some time_after ->
  data !! k = Some fg ->
  dtheta_dx !! i = Some gx_i -> dtheta_dy !! i = Some gy_i ->
  dtheta_dx !! j = Some gx_j -> dtheta_dy !! j = Some gy_j ->
  has_cells fg ->
  has_cells gx_i -> has_cells gy_i -> has_cells gx_j -> has_cells gy_j ->
  makedirs w OUTPUT_DIR = None ->
  (forall c, plot w c = None) ->
  savefig w (output_filename w) = None ->
  exists left_panel right_panel,
    script w trace
    = (ok tt,
       trace ++ [Console "Starting WRF frontogenesis analysis...";
                 Console "Frontogenesis computation complete.";
                 Console "Gradient tendency computation complete.";
                 Console "Converted data statistics:";
                 Console "Creating comparison visualization...";
                 MakeDirs OUTPUT_DIR;
                 Plot Subplots;
                 Plot (Contourf 1 (Arr2 left_panel));
                 Plot (Decorate 1);
                 Plot (Contourf 2 (Arr2 right_panel));
                 Plot (Decorate 2);
                 Plot TightLayout;
                 SaveFig (OUTPUT_DIR +:+ "/frontogenesis_tendency_comparison_"
                            +:+ target_time_str w +:+ ".png");
                 Console "Analysis complete!"])
    /\ (forall r c x,
          cell_at fg r c = Some (Fin x) ->
          cell_at left_panel r c = Some (Fin (x * 3600000)))
    /\ (forall r c xi yi xj yj,
          cell_at gx_i r c = Some (Fin xi) -> cell_at gy_i r c = Some (Fin yi) ->
          cell_at gx_j r c = Some (Fin xj) -> cell_at gy_j r c = Some (Fin yj) ->
          cell_at right_panel r c
          = Some (Fin ((sqrt (xj ^ 2 + yj ^ 2) - sqrt (xi ^ 2 + yi ^ 2))
                       / 7200 * 3600000))).
Proof.
  intros (ds_theta & ds_winds & dxdy & u_wind & v_wind & Hth & Hwi & Hd & Hst & Hsu
          & Hsv & Hfr & Hgr & Hld & Hlx & Hly)
         Hnd Hi Hk Hj Hfg Hxi Hyi Hxj Hyj Cfg Cxi Cyi Cxj Cyj Hdirs Hplot Hsave.
  pose proof (gradient_tendency_at w theta _ _ _ _ i j _ _ _ _
                Hgr Hlx Hly Hnd Hi Hj Hxi Hyi Hxj Hyj) as Hgt.
  pose proof (sel_time_at (da_time theta) data TARGET_TIME k fg Hk
                (fun k' Hk' => NoDup_lookup _ _ _ _ Hnd Hk' Hk) Hfg) as Htarget.
  set (tendency := grid_map (fun x => div x (Fin time_interval))
                     (sub (gradient_magnitude gx_j gy_j)
                          (gradient_magnitude gx_i gy_i))) in *.
  assert (Ctendency : has_cells tendency).
  { apply has_cells_grid_map, has_cells_sub;
      apply has_cells_gradient_magnitude; assumption. }
  exists (grid_map to_K_per_km_per_hour fg), (grid_map to_K_per_km_per_hour tendency).
  split; [|split].
  - unfold script. cbv zeta. rewrite bind_act.
    rewrite (bind_lift_ok _ _ _ _ Hth), (bind_lift_ok _ _ _ _ Hwi),
      (bind_lift_ok _ _ _ _ Hd), (bind_lift_ok _ _ _ _ Hst),
      (bind_lift_ok _ _ _ _ Hsu), (bind_lift_ok _ _ _ _ Hsv),
      (bind_lift_ok _ _ _ _ Hfr).
    rewrite bind_act, (bind_lift_ok _ _ _ _ Hgt), bind_act.
    rewrite (bind_lift_ok _ _ _ _ Htarget). rewrite bind_act.
    cbn [ndarray_map].
    rewrite (bind_lift_ok _ _ _ _
               (nan_reduce_cells _ (has_cells_grid_map _ _ Ctendency))).
    rewrite (bind_lift_ok _ _ _ _ (nan_reduce_cells _ (has_cells_grid_map _ _ Cfg))).
    rewrite !bind_act.
    rewrite (bind_call_ok _ _ _ _ Hdirs).
    rewrite !(bind_call_ok _ _ _ _ (Hplot _)).
    rewrite (bind_call_ok _ _ _ _ Hsave).
    unfold act. rewrite <- !app_assoc. reflexivity.
  - intros r c x Hx. rewrite cell_at_grid_map, Hx. reflexivity.
  - intros r c xi yi xj yj Hai Hbi Haj Hbj.
    rewrite cell_at_grid_map.
    unfold tendency. change (Fin time_interval) with (Fin 7200).
    rewrite (tendency_cell _ _ _ _ r c _ _ _ _ Hai Hbi Haj Hbj).
    rewrite tendency_cell_finite. reflexivity.
Qed.

(** Three hourly time steps around the target time, with a gradient of
    (3, 4) K/m one hour before it and (9, 12) K/m one hour after: the
    right panel shows 10 K/m in 7200 s, that is 5000 K/km/h, and the
    left panel the zeros of the stand-in for the frontogenesis. *)
Lemma script_completes_witness :
  exists left_panel right_panel,
    script (toy_world [TARGET_TIME - 3600; TARGET_TIME; TARGET_TIME + 3600]%Z) []
    = (ok tt,
       [Console "Starting WRF frontogenesis analysis...";
        Console "Frontogenesis computation complete.";
        Console "Gradient tendency computation complete.";
        Console "Converted data statistics:";
        Console "Creating comparison visualization...";
        MakeDirs "./frontogenesis_comparison";
        Plot Subplots;
        Plot (Contourf 1 (Arr2 left_panel));
        Plot (Decorate 1);
        Plot (Contourf 2 (Arr2 right_panel));
        Plot (Decorate 2);
        Plot TightLayout;
        SaveFig "./frontogenesis_comparison/frontogenesis_tendency_comparison_2006-06-09T01:00:00.png";
        Console "Analysis complete!"])
    /\ cell_at left_panel 1 1 = Some (Fin (0 * 3600000))
    /\ cell_at right_panel 1 1 = Some (Fin 5000).
Proof.
  assert (Hc : computes
                 (toy_world [TARGET_TIME - 3600; TARGET_TIME; TARGET_TIME + 3600]%Z)
                 (toy_theta [TARGET_TIME - 3600; TARGET_TIME; TARGET_TIME + 3600]%Z)
                 (replicate 3 (replicate 3 (replicate 3 (Fin 0))))
                 [replicate 3 (replicate 3 (Fin (3 * 1)));
                  replicate 3 (replicate 3 (Fin (3 * 2)));
                  replicate 3 (replicate 3 (Fin (3 * 3)))]
                 [replicate 3 (replicate 3 (Fin (4 * 1)));
                  replicate 3 (replicate 3 (Fin (4 * 2)));
                  replicate 3 (replicate 3 (Fin (4 * 3)))]).
  { unfold computes. do 5 eexists.
    split; [reflexivity|]. split; [reflexivity|]. split; [reflexivity|].
    split; [reflexivity|]. split; [reflexivity|]. split; [reflexivity|].
    split; [reflexivity|]. split; [reflexivity|].
    split; [reflexivity|]. split; reflexivity. }
  assert (Hnd : NoDup [TARGET_TIME - 3600; TARGET_TIME; TARGET_TIME + 3600]%Z)
    by (apply (bool_decide_unpack _); vm_compute; exact I).
  destruct (script_completes _ [] _ _ _ _ 0 1 2
              (replicate 3 (replicate 3 (Fin 0)))
              (replicate 3 (replicate 3 (Fin (3 * 1))))
              (replicate 3 (replicate 3 (Fin (4 * 1))))
              (replicate 3 (replicate 3 (Fin (3 * 3))))
              (replicate 3 (replicate 3 (Fin (4 * 3))))
              Hc Hnd eq_refl eq_refl eq_refl eq_refl eq_refl eq_refl eq_refl eq_refl
              I I I I I eq_refl (fun _ => eq_refl) eq_refl)
    as (left_panel & right_panel & Hrun & Hleft & Hright).
  exists left_panel, right_panel. split; [exact Hrun|].
  split; [exact (Hleft 1 1 0%R eq_refl)|].
  rewrite (Hright 1 1 (3 * 1)%R (4 * 1)%R (3 * 3)%R (4 * 3)%R
             eq_refl eq_refl eq_refl eq_refl).
  apply f_equal, f_equal.
  replace ((3 * 3) ^ 2 + (4 * 3) ^ 2)%R with (15 * 15)%R by ring.
  replace ((3 * 1) ^ 2 + (4 * 1) ^ 2)%R with (5 * 5)%R by ring.
  rewrite !sqrt_square by lra. lra.
Defined.

End FrontogenesisMore.
